(** * pix2pix training pipeline: [utils.py] and [train_utp.py]

    A shallow embedding of the two Python source files and the properties
    proved about them.

    Conventions of the embedding.
    - Entries of a tensor are rationals.  The arithmetic of the label
      smoothing rounds every result to the dtype of the labels
      ([label_dtype], round to nearest, ties to even); the arithmetic on
      losses and the redrawing of weights are exact.  Infinities and NaN are
      not entries of a tensor.
    - A Python [float] (a learning rate, the value of [.item()], the result
      of [np.mean]) is a binary64 number, [PrimFloat.float].
    - A Python function that mutates its arguments takes the objects and
      returns the mutated objects; the process-wide state (files, printed and
      logged output, the torch random generator) is threaded by the monad
      [M].  A raised exception ends the computation ([Raise]).
    - What lives outside the two files (network classes, criteria, autograd,
      optimizer arithmetic, the data set classes) is a field of the class
      [Torch]; every such call returns. *)

From Stdlib Require Import ZArith QArith Qround Qpower Lqa Lia List.
From Stdlib Require Import PrimFloat Uint63 SpecFloat FloatOps.
From stdpp Require Import gmap strings list pretty.

(** ** Exceptions and results *)

Inductive exn :=
| StopIteration
| AttributeError (obj attr : string)
| TypeError (msg : string)
| FileNotFoundError (path : string)
| UnpicklingError (path : string)
| RuntimeError (msg : string)
| ValueError (msg : string).

Inductive result (A : Type) :=
| Ok (a : A)
| Raise (e : exn).
Arguments Ok {A} a.
Arguments Raise {A} e.

Definition is_ok {A} (r : result A) : bool :=
  match r with
  | Ok _ => true
  | Raise _ => false
  end.

(** ** Tensors *)

Record tensor := Tensor { shape : list nat; data : list Q }.

Definition numel (sh : list nat) : nat := fold_right Nat.mul 1%nat sh.

Definition full (sh : list nat) (v : Q) : tensor :=
  Tensor sh (replicate (numel sh) v).

Definition tensor_map (f : Q -> Q) (t : tensor) : tensor :=
  Tensor (shape t) (map f (data t)).

(** [a + b] for operands of one shape, as in every use below. *)
Definition tensor_add (a b : tensor) : tensor :=
  Tensor (shape a) (zip_with Qplus (data a) (data b)).

Definition tensor_mul_scalar (t : tensor) (c : Q) : tensor :=
  tensor_map (fun x => (x * c)%Q) t.
Definition tensor_div_scalar (t : tensor) (c : Q) : tensor :=
  tensor_map (fun x => (x / c)%Q) t.

Definition ones_like (t : tensor) : tensor := tensor_map (fun _ => 1%Q) t.
Definition zeros_like (t : tensor) : tensor := tensor_map (fun _ => 0%Q) t.

(** [t.detach()] cuts the autograd graph; the values are those of [t]. *)
Definition detach (t : tensor) : tensor := t.

(** ** Floating-point formats *)

(** A binary format: the number of bits of the significand and the exponent
    of the least positive number.  The largest finite number is not part of
    a format here, a tensor has no infinite entries. *)
Record format := Format { precision : positive; emin : Z }.

Definition binary16 : format := Format 11 (-24).
Definition binary32 : format := Format 24 (-149).
Definition binary64 : format := Format 53 (-1074).
Definition brain16 : format := Format 8 (-133).

(** A tensor dtype: the format its entries are stored in and the format its
    element-wise kernels compute in ([opmath]): half-precision entries are
    widened to single precision, the result is rounded back. *)
Record dtype := Dtype { storage : format; opmath : format }.

Definition float16 : dtype := Dtype binary16 binary32.
Definition bfloat16 : dtype := Dtype brain16 binary32.
Definition float32 : dtype := Dtype binary32 binary32.
Definition float64 : dtype := Dtype binary64 binary64.

(** [floor (log2 q)] for a positive [q]. *)
Definition Qlog2 (q : Q) : Z :=
  let e := (Z.log2 (Qnum q) - Z.log2 (Zpos (Qden q)))%Z in
  if Qle_bool (2 ^ e) q then e else (e - 1)%Z.

(** The nearest integer, a tie goes to the even one. *)
Definition round_even (r : Q) : Z :=
  let n := Qfloor r in
  match (r - inject_Z n ?= 1 # 2)%Q with
  | Lt => n
  | Gt => (n + 1)%Z
  | Eq => if Z.even n then n else (n + 1)%Z
  end.

(** The exponent of the unit in the last place of the numbers of [f] next
    to a positive [q]. *)
Definition ulp_exponent (f : format) (q : Q) : Z :=
  Z.max (Qlog2 q - Zpos (precision f) + 1) (emin f).

Definition round_pos (f : format) (q : Q) : Q :=
  let c := ulp_exponent f q in
  (inject_Z (round_even (q / 2 ^ c)) * 2 ^ c)%Q.

(** Rounding to the nearest number of the format, ties to even. *)
Definition round_to (f : format) (q : Q) : Q :=
  match (q ?= 0)%Q with
  | Eq => 0%Q
  | Gt => round_pos f q
  | Lt => (- round_pos f (- q))%Q
  end.

(** The largest number of the format below 1. *)
Definition below_one (f : format) : Q := 1 - (1 # 2 ^ precision f).

(** The value of a finite Python float. *)
Definition float_value (x : float) : Q :=
  match Prim2SF x with
  | S754_finite s m e =>
      ((if s then - inject_Z (Zpos m) else inject_Z (Zpos m)) * 2 ^ e)%Q
  | _ => 0%Q
  end.

(** The result of an element-wise kernel whose exact result is [x], and
    the operand a Python float becomes in such a kernel. *)
Definition kernel (d : dtype) (x : Q) : Q :=
  round_to (storage d) (round_to (opmath d) x).

Definition scalar_operand (d : dtype) (c : float) : Q :=
  round_to (opmath d) (float_value c).

(** A batch of a loader: [(image_real, mask)]. *)
Definition batch : Type := tensor * tensor.

(** ** Modules, optimizers, checkpoints *)

(** Classes of [torch.nn] modules; [Subclass name base] is a class derived
    from [base]. *)
Inductive pyclass :=
| Conv2d
| ConvTranspose2d
| BatchNorm2d
| InstanceNorm2d
| Linear
| ReLU
| LeakyReLU
| Tanh
| Sigmoid
| Dropout
| Sequential
| Subclass (name : string) (base : pyclass).

#[global] Instance pyclass_eq_dec : EqDecision pyclass.
Proof. solve_decision. Defined.

Fixpoint issubclass (c base : pyclass) : bool :=
  bool_decide (c = base) ||
  match c with
  | Subclass _ b => issubclass b base
  | _ => false
  end.

(** One submodule as [init_weights] sees it: its class and its own
    parameter tensors by attribute name (["weight"], ["bias"], ...). *)
Record layer := Layer {
  layer_type : pyclass;
  layer_params : gmap string tensor
}.

(** An [nn.Module].  [parameters] is its state dict, kept by submodule: the
    entry ["weight"] of submodule ["down1.conv.0"] is the state-dict key
    ["down1.conv.0.weight"].  [module_types] lists the submodules in the
    order [Module.apply] visits them. *)
Record Model := mkModel {
  training : bool;
  module_types : list (string * pyclass);
  parameters : gmap string (gmap string tensor)
}.

Definition train_mode (m : Model) : Model :=
  mkModel true (module_types m) (parameters m).
Definition eval_mode (m : Model) : Model :=
  mkModel false (module_types m) (parameters m).
Definition with_parameters (m : Model) (p : gmap string (gmap string tensor)) : Model :=
  mkModel (training m) (module_types m) p.

(** Values of a parameter group's options. *)
Inductive pyval :=
| PyFloat (x : float)
| PyInt (n : Z)
| PyBool (b : bool)
| PyNone
| PyPair (a b : float).

(** A parameter group: the parameters it covers, by their index in the
    optimizer, and its options (["lr"], ["betas"], ...). *)
Record param_group := ParamGroup {
  pg_params : list nat;
  pg_options : gmap string pyval
}.

(** An optimizer: per-parameter state (moment buffers) and the groups.
    [optimizer.state_dict()] holds these same two components. *)
Record Optimizer := mkOptimizer {
  opt_state : gmap nat (gmap string tensor);
  param_groups : list param_group
}.

(** The bundle [save_checkpoint] writes. *)
Record checkpoint := mkCheckpoint {
  ck_state_dict : gmap string (gmap string tensor);
  ck_optimizer : Optimizer
}.

(** ** Manifests *)

(** A manifest row; a missing grade ([NaN] after [read_csv]) is [None]. *)
Record row := Row { grade : option Z; fields : list (string * string) }.

(** A data frame: the rows with their index labels. *)
Definition dataframe : Type := list (nat * row).

Inductive file :=
| CheckpointFile (c : checkpoint)
| ImageFile (t : tensor)
| CsvFile (rows : list row).

(** ** Transforms, data sets, loaders *)

Inductive transform :=
| CenterCrop (size : Z)
| RandomHorizontalFlip
| RandomVerticalFlip
| RandomRotate90.

(** [torchvision.transforms.Compose([...])]. *)
Record pipeline := Compose { steps : list transform }.

(** [UTP_Masks(df, T=, path=, target=, path_masks=, train=, device=)]. *)
Record dataset := UTP_Masks {
  ds_df : dataframe;
  ds_T : pipeline;
  ds_path : string;
  ds_target : string;
  ds_path_masks : string;
  ds_train : bool;
  ds_device : option Z
}.

(** [DataLoader(dataset, shuffle=, batch_size=, pin_memory=)]. *)
Record data_loader := DataLoader {
  dl_dataset : dataset;
  dl_shuffle : bool;
  dl_batch_size : Z;
  dl_pin_memory : bool
}.

(** What a module attribute can hold, as far as the code looks. *)
Inductive pyobj :=
| PyModule (name : string)
| PyFunction (name : string)
| PyTransformClass (instance : transform).

(** ** Configuration ([config], not among the sources: a parameter) *)

Record config := {
  SEED : Z;
  DEVICE : string;
  LEARNING_RATE : float;
  ADAM_BETA1 : float;
  ADAM_BETA2 : float;
  BATCH_SIZE : Z;
  NUM_EPOCHS : Z;
  L1_LAMBDA : Q;
  SMOOTH_POSITIVE_LABELS : bool;
  SMOOTH_NEGATIVE_LABELS : bool;
  SAVE_MODEL : bool;
  CHECKPOINT_GEN : string;
  CHECKPOINT_DISC : string;
  LOG_WANDB : bool
}.

(** ** Observable calls *)

(** The calls the two files make on the outside world, in the order they
    are made.  [EpochBegin] and [LoopEnd] are not calls: they mark, in the
    trace, the start of each iteration of the training loop of [main] and
    the point where that loop is left. *)

Inductive net := Gen | Disc.

Inductive event :=
| Print (s : string)
| SetSeed (seed : Z)
| TorchSave (filename : string)
| SaveImage (path : string)
| WandbSave (filename : string)
| WandbLog (keys : list string)
| WandbFinish
| Forward (who : net) (mode : bool)
| OptZeroGrad (who : net)
| ScalerBackward (who : net)
| ScalerStep (who : net)
| ScalerUpdate (who : net)
| SetPostfix (d_real d_fake : float)
| EpochBegin (epoch : Z)
| LoopEnd.

(** ** The numerical back end *)

Class Torch := {
  (* torch's random generator *)
  generator : Type;
  manual_seed : Z -> generator -> generator;
  rand_uniform : generator -> Q * generator;
  randn : generator -> Q * generator;
  (* the dtype of the discriminator's output, and so of the targets made
     from it with ones_like and zeros_like: float16 under CUDA autocast,
     float32 otherwise *)
  label_dtype : dtype;
  (* Generator and Discriminator (generator_model, discriminator_model) *)
  new_generator : Z -> Z -> generator -> Model * generator;
  new_discriminator : Z -> generator -> Model * generator;
  gen_forward : bool -> gmap string (gmap string tensor) -> tensor -> generator ->
                tensor * gmap string (gmap string tensor) * generator;
  disc_forward : bool -> gmap string (gmap string tensor) -> tensor -> tensor -> generator ->
                 tensor * gmap string (gmap string tensor) * generator;
  repr_model : Model -> string;
  (* criteria: nn.BCEWithLogitsLoss(), nn.L1Loss() *)
  bce_with_logits : tensor -> tensor -> tensor;
  l1_criterion : tensor -> tensor -> tensor;
  item : tensor -> float;
  sigmoid_mean_item : tensor -> float;
  (* autograd, GradScaler, optimizer arithmetic *)
  autograd : Type;
  scaler : Type;
  no_grads : autograd;
  GradScaler : scaler;
  zero_grad : Optimizer -> autograd -> autograd;
  scale_backward : scaler -> tensor -> autograd -> scaler * autograd;
  scaler_step : scaler -> Optimizer -> gmap string (gmap string tensor) -> autograd ->
                scaler * Optimizer * gmap string (gmap string tensor);
  scaler_update : scaler -> scaler;
  (* dataset.pannuke, torchvision *)
  labels : list string;
  denormalize : tensor -> tensor;
  get_img_mask : tensor -> tensor;
  make_grid : list tensor -> tensor;
  unbind : tensor -> list tensor;
  select : tensor -> nat -> tensor;
  cuda_current_device : Z;
  (* the batches one pass over a loader yields *)
  iterate : data_loader -> generator -> list batch * generator
}.

(** ** Process state and the monad *)

Record env `{Torch} := mkEnv {
  fs : gmap string file;
  dirs : gset string;
  out : list event;
  rng : generator
}.
Arguments mkEnv {_} _ _ _ _.

Section Monad.
Context `{Torch}.

Definition M (A : Type) : Type := env -> result (A * env).

Definition ret {A} (a : A) : M A := fun e => Ok (a, e).

Definition bind {A B} (m : M A) (k : A -> M B) : M B :=
  fun e => match m e with
           | Ok (a, e') => k a e'
           | Raise x => Raise x
           end.

Definition raise {A} (x : exn) : M A := fun _ => Raise x.

Definition lift {A} (r : result A) : M A :=
  fun e => match r with Ok a => Ok (a, e) | Raise x => Raise x end.

Definition emit (ev : event) : M unit :=
  fun e => Ok (tt, mkEnv (fs e) (dirs e) (out e ++ [ev]) (rng e)).

(** A call that draws from torch's generator. *)
Definition with_rng {A} (f : generator -> A * generator) : M A :=
  fun e => let '(a, g) := f (rng e) in Ok (a, mkEnv (fs e) (dirs e) (out e) g).

Definition write_file (path : string) (f : file) : M unit :=
  fun e => Ok (tt, mkEnv (<[path := f]> (fs e)) (dirs e) (out e) (rng e)).

Definition read_file (path : string) : M (option file) :=
  fun e => Ok (fs e !! path, e).
End Monad.

Notation "'do' x <- m ; k" := (bind m (fun x => k))
  (at level 10, x name, m at level 100, k at level 200).
Notation "'do' ' p <- m ; k" := (bind m (fun x => let 'p := x in k))
  (at level 10, p pattern, m at level 100, k at level 200).
Notation "'run' m ; k" := (bind m (fun _ => k))
  (at level 10, m at level 100, k at level 200).

(** ** Library calls used by both files *)

Section Library.
Context `{Torch}.

Definition print (s : string) : M unit := emit (Print s).

(** [next(iter(loader))]. *)
Definition next_iter (loader : list batch) : M batch :=
  match loader with
  | b :: _ => ret b
  | [] => raise StopIteration
  end.

(** [gen(mask)]: the forward pass reads the mode flag and the parameters,
    may update buffers and draw from the generator (dropout). *)
Definition call_gen (gen : Model) (mask : tensor) : M (tensor * Model) :=
  run emit (Forward Gen (training gen));
  do '(y, p) <- with_rng (fun g =>
      let '(y, p, g') := gen_forward (training gen) (parameters gen) mask g in
      ((y, p), g'));
  ret (y, with_parameters gen p).

(** [disc(mask, image)]. *)
Definition call_disc (disc : Model) (mask image : tensor) : M (tensor * Model) :=
  run emit (Forward Disc (training disc));
  do '(y, p) <- with_rng (fun g =>
      let '(y, p, g') := disc_forward (training disc) (parameters disc) mask image g in
      ((y, p), g'));
  ret (y, with_parameters disc p).

Fixpoint draw (next : generator -> Q * generator) (n : nat) (g : generator)
  : list Q * generator :=
  match n with
  | O => ([], g)
  | S n' =>
      let '(x, g1) := next g in
      let '(xs, g2) := draw next n' g1 in
      (x :: xs, g2)
  end.

(** [torch.rand_like(t)]: uniform draws, one per entry, in the shape of [t]. *)
Definition rand_like (t : tensor) : M tensor :=
  with_rng (fun g =>
    let '(xs, g') := draw rand_uniform (length (data t)) g in
    (Tensor (shape t) xs, g')).

(** [t - c], [t * c] and [a + b] on label tensors, [c] a Python float:
    the exact result entry by entry, rounded by the kernel. *)
Definition labels_sub_scalar (t : tensor) (c : float) : tensor :=
  tensor_map (fun x => kernel label_dtype (x - scalar_operand label_dtype c)) t.

Definition labels_mul_scalar (t : tensor) (c : float) : tensor :=
  tensor_map (fun x => kernel label_dtype (x * scalar_operand label_dtype c)) t.

Definition labels_add (a b : tensor) : tensor :=
  Tensor (shape a) (zip_with (fun x y => kernel label_dtype (x + y)%Q) (data a) (data b)).

(** [nn.init.normal_(t, mean, std)]: every entry redrawn as
    [mean + std * z], [z] standard normal. *)
Definition normal_ (t : tensor) (mean std : Q) : M tensor :=
  with_rng (fun g =>
    let '(zs, g') := draw randn (length (data t)) g in
    (Tensor (shape t) (map (fun z => (mean + std * z)%Q) zs), g')).

(** [torch.save(obj, f)], [torch.load(f)]. *)
Definition torch_save (c : checkpoint) (filename : string) : M unit :=
  run write_file filename (CheckpointFile c);
  emit (TorchSave filename).

Definition torch_load (filename : string) : M checkpoint :=
  do f <- read_file filename;
  match f with
  | Some (CheckpointFile c) => ret c
  | Some _ => raise (UnpicklingError filename)
  | None => raise (FileNotFoundError filename)
  end.

(** [save_image(t, path)]. *)
Definition save_image (t : tensor) (path : string) : M unit :=
  run write_file path (ImageFile t);
  emit (SaveImage path).

Definition path_exists (path : string) : M bool :=
  fun e => Ok (bool_decide (path ∈ dirs e) || bool_decide (is_Some (fs e !! path)), e).

Definition makedirs (path : string) : M unit :=
  fun e => Ok (tt, mkEnv (fs e) ({[path]} ∪ dirs e) (out e) (rng e)).

(** [model.state_dict()]. *)
Definition model_state_dict (m : Model) : gmap string (gmap string tensor) :=
  parameters m.

Definition shapes_of (sd : gmap string (gmap string tensor))
  : gmap string (gmap string (list nat)) :=
  (fun ps : gmap string tensor => shape <$> ps) <$> sd.

(** [model.load_state_dict(sd)] (strict): the keys and the shapes have to
    be those of the model; the values are copied in, the mode is kept. *)
Definition load_state_dict (m : Model) (sd : gmap string (gmap string tensor))
  : result Model :=
  if bool_decide (shapes_of sd = shapes_of (parameters m))
  then Ok (with_parameters m sd)
  else Raise (RuntimeError "Error(s) in loading state_dict").

(** [optimizer.state_dict()]. *)
Definition optimizer_state_dict (o : Optimizer) : Optimizer :=
  mkOptimizer (opt_state o) (param_groups o).

(** [optimizer.load_state_dict(sd)]: the number of groups and the size of
    each group have to agree; each group takes the saved options and keeps
    the optimizer's own parameters, the state is the saved state. *)
Definition optimizer_load_state_dict (o : Optimizer) (sd : Optimizer)
  : result Optimizer :=
  if bool_decide (length (param_groups o) = length (param_groups sd)) then
    if bool_decide (map (fun g => length (pg_params g)) (param_groups o)
                    = map (fun g => length (pg_params g)) (param_groups sd))
    then Ok (mkOptimizer (opt_state sd)
               (zip_with (fun g saved => ParamGroup (pg_params g) (pg_options saved))
                  (param_groups o) (param_groups sd)))
    else Raise (ValueError "loaded state dict contains a parameter group that doesn't match the size of optimizer's group")
  else Raise (ValueError "loaded state dict has a different number of parameter groups").

(** numpy's summation of a contiguous array ([add.reduce]), over any
    addition: fewer than 8 values are added one after the other; up to 128
    values go into eight running sums, one group of eight at a time, the
    eight sums are added in pairs and the values after the last whole
    group are added one after the other; more than 128 values are cut in
    two, the first part a multiple of 8 long, and the two sums added. *)
Fixpoint add_groups {T} (add : T -> T -> T) (groups : nat) (r a : list T) : list T :=
  match groups with
  | O => r
  | S k => add_groups add k (zip_with add r (firstn 8 a)) (skipn 8 a)
  end.

Definition combine8 {T} (add : T -> T -> T) (zero : T) (r : list T) : T :=
  match r with
  | [r0; r1; r2; r3; r4; r5; r6; r7] =>
      add (add (add r0 r1) (add r2 r3)) (add (add r4 r5) (add r6 r7))
  | _ => zero
  end.

Definition block_sum {T} (add : T -> T -> T) (zero : T) (a : list T) : T :=
  let groups := (length a / 8)%nat in
  let r := add_groups add (groups - 1) (firstn 8 a) (skipn 8 a) in
  fold_left add (skipn (8 * groups) a) (combine8 add zero r).

(** [fuel] bounds the depth of the cuts; [length a] is enough. *)
Fixpoint pairwise_sum {T} (add : T -> T -> T) (zero : T) (fuel : nat) (a : list T) : T :=
  let n := length a in
  if (n <? 8)%nat then fold_left add a zero
  else if (n <=? 128)%nat then block_sum add zero a
  else
    match fuel with
    | O => block_sum add zero a
    | S fuel' =>
        let n2 := (n / 2 - (n / 2) mod 8)%nat in
        add (pairwise_sum add zero fuel' (firstn n2 a))
            (pairwise_sum add zero fuel' (skipn n2 a))
    end.

(** [np.mean] of a list of Python floats, in binary64: the reduction starts
    from 0 and adds the pairwise sum, the mean is the sum over the count;
    on the empty list this is [0/0]. *)
Definition np_sum (l : list float) : float :=
  PrimFloat.add 0%float (pairwise_sum PrimFloat.add 0%float (length l) l).

Definition np_mean (l : list float) : float :=
  PrimFloat.div (np_sum l) (PrimFloat.of_uint63 (Uint63.of_Z (Z.of_nat (length l)))).

(** [range(n)]. *)
Definition range (n : Z) : list Z := map Z.of_nat (seq 0 (Z.to_nat n)).
End Library.

(** ** utils.py *)

Module Utils.
Section Utils.
Context `{Torch}.

(** The names bound in the module [utils] once it is imported: its
    imports and its seven functions. *)
Definition attributes : gmap string pyobj :=
  list_to_map [
    ("torch", PyModule "torch");
    ("nn", PyModule "torch.nn");
    ("config", PyModule "config");
    ("save_image", PyFunction "torchvision.utils.save_image");
    ("os", PyModule "os");
    ("denormalize", PyFunction "dataset.pannuke.denormalize");
    ("random", PyModule "random");
    ("np", PyModule "numpy");
    ("save_some_examples", PyFunction "utils.save_some_examples");
    ("save_checkpoint", PyFunction "utils.save_checkpoint");
    ("load_checkpoint", PyFunction "utils.load_checkpoint");
    ("set_seed", PyFunction "utils.set_seed");
    ("init_weights", PyFunction "utils.init_weights");
    ("smooth_positive_labels", PyFunction "utils.smooth_positive_labels");
    ("smooth_negative_labels", PyFunction "utils.smooth_negative_labels")
  ].

Definition save_some_examples (gen : Model) (val_loader : list batch)
    (epoch : Z) (folder : string) : M Model :=
  do present <- path_exists folder;
  run (if present then ret tt else makedirs folder);
  do '(image_real, mask) <- next_iter val_loader;
  let gen := eval_mode gen in
  do '(y_fake, gen) <- call_gen gen mask;
  run save_image (denormalize y_fake) (folder +:+ "/y_gen_" +:+ pretty epoch +:+ ".png");
  run (if (epoch =? 0)%Z
       then save_image (denormalize image_real)
              (folder +:+ "/label_" +:+ pretty epoch +:+ ".png")
       else ret tt);
  ret (train_mode gen).

(** The default of [filename]. *)
Definition default_filename : string := "./model.pth".

Definition save_checkpoint (model : Model) (optimizer : Optimizer)
    (filename : string) : M unit :=
  run print "=> Saving model";
  let checkpoint :=
    mkCheckpoint (model_state_dict model) (optimizer_state_dict optimizer) in
  torch_save checkpoint filename.

(** [param_group["lr"] = lr] for every group of the optimizer. *)
Definition set_lr (lr : float) (optimizer : Optimizer) : Optimizer :=
  mkOptimizer (opt_state optimizer)
    (map (fun param_group =>
            ParamGroup (pg_params param_group)
              (<["lr" := PyFloat lr]> (pg_options param_group)))
       (param_groups optimizer)).

Definition load_checkpoint (checkpoint_file : string) (model : Model)
    (optimizer : Optimizer) (lr : float) : M (Model * Optimizer) :=
  run print ("=> Loading checkpoint " +:+ checkpoint_file);
  do checkpoint <- torch_load checkpoint_file;
  do model <- lift (load_state_dict model (ck_state_dict checkpoint));
  do optimizer <- lift (optimizer_load_state_dict optimizer (ck_optimizer checkpoint));
  ret (model, set_lr lr optimizer).

(** The seeds of [random], [numpy] and the CUDA generators, the
    environment variable and the two cudnn flags are recorded as one
    event; torch's generator is reseeded.  [np.random.seed] (line 51)
    takes a seed from 0 to 2**32 - 1 and raises [ValueError] on any
    other. *)
Definition set_seed (seed : Z) : M unit :=
  if (0 <=? seed)%Z && (seed <? 2 ^ 32)%Z
  then
    run emit (SetSeed seed);
    with_rng (fun g => (tt, manual_seed seed g))
  else raise (ValueError "Seed must be between 0 and 2**32 - 1").

Definition init_weights (m : layer) : M layer :=
  if bool_decide (layer_type m = Conv2d) || bool_decide (layer_type m = ConvTranspose2d)
  then
    match layer_params m !! "weight" with
    | Some weight =>
        do weight <- normal_ weight 0 (2 # 100);
        ret (Layer (layer_type m) (<["weight" := weight]> (layer_params m)))
    | None => raise (AttributeError "Module" "weight")
    end
  else ret m.

(* smoothing class=1 to [0.7, 1.2] *)
Definition smooth_positive_labels (label : tensor) : M tensor :=
  let shifted := labels_sub_scalar label 0x1.3333333333333p-2%float in (* 0.3 *)
  do noise <- rand_like label;
  ret (labels_add shifted (labels_mul_scalar noise 0.5%float)).

(* smoothing class=0 to [0.0, 0.3] *)
Definition smooth_negative_labels (label : tensor) : M tensor :=
  do noise <- rand_like label;
  ret (labels_add label (labels_mul_scalar noise 0x1.3333333333333p-2%float (* 0.3 *))).
End Utils.
End Utils.


(** ** train_utp.py *)

(** The objects [train_fn] receives and mutates: the two networks, their
    optimizers and gradient scalers, and the gradient buffers autograd keeps
    for them. *)
Record trainer `{Torch} := mkTrainer {
  t_disc : Model;
  t_gen : Model;
  t_opt_disc : Optimizer;
  t_opt_gen : Optimizer;
  t_g_scaler : scaler;
  t_d_scaler : scaler;
  t_grads : autograd
}.
Arguments mkTrainer {_} _ _ _ _ _ _ _.

(** The three values one step appends to [disc_losses], [gen_l1_losses]
    and [gen_adv_losses]. *)
Record step_losses := StepLosses {
  step_disc : float;
  step_l1 : float;
  step_adv : float
}.

(** The three lists [train_fn] keeps during an epoch. *)
Record history := History {
  disc_losses : list float;
  gen_l1_losses : list float;
  gen_adv_losses : list float
}.

Module TrainUtp.
Section TrainUtp.
Context `{Torch}.

(** *** pandas, os.path, wandb, tqdm *)

Definition path_join (a b : string) : string := a +:+ "/" +:+ b.

(** [pd.read_csv(path)]: the rows get the index labels 0, 1, 2, ... *)
Definition read_csv (path : string) : M dataframe :=
  do f <- read_file path;
  match f with
  | Some (CsvFile rows) => ret (imap (fun i r => (i, r)) rows)
  | Some _ => raise (ValueError "Error tokenizing data")
  | None => raise (FileNotFoundError path)
  end.

(** [df.grade >= c]: one boolean per row; a missing grade compares false. *)
Definition grade_ge (df : dataframe) (c : Z) : list bool :=
  map (fun ir : nat * row =>
         match grade (snd ir) with
         | Some g => (c <=? g)%Z
         | None => false
         end) df.

(** [df[mask]]: the rows whose mask entry is true, labels kept. *)
Fixpoint getitem_mask (df : dataframe) (mask : list bool) : dataframe :=
  match df, mask with
  | r :: df', b :: mask' =>
      if b then r :: getitem_mask df' mask' else getitem_mask df' mask'
  | _, _ => []
  end.

Definition copy (df : dataframe) : dataframe := df.

(** [getattr(module, name)]. *)
Definition getattr (module : string) (ns : gmap string pyobj) (name : string) : M pyobj :=
  match ns !! name with
  | Some o => ret o
  | None => raise (AttributeError module name)
  end.

(** [o()] for an attribute [o] used as a transform class. *)
Definition call_class (o : pyobj) : M transform :=
  match o with
  | PyTransformClass t => ret t
  | PyFunction name => raise (TypeError (name +:+ "() missing required positional arguments"))
  | PyModule _ => raise (TypeError "'module' object is not callable")
  end.

Definition wandb_log (keys : list string) : M unit := emit (WandbLog keys).
Definition wandb_save (filename : string) : M unit := emit (WandbSave filename).
Definition wandb_finish : M unit := emit WandbFinish.

Definition set_postfix (d_real d_fake : float) : M unit := emit (SetPostfix d_real d_fake).

Definition opt_zero_grad (who : net) (opt : Optimizer) (grads : autograd) : M autograd :=
  run emit (OptZeroGrad who);
  ret (zero_grad opt grads).

(** [scaler.scale(loss).backward()]. *)
Definition scaler_scale_backward (who : net) (s : scaler) (loss : tensor)
    (grads : autograd) : M (scaler * autograd) :=
  run emit (ScalerBackward who);
  ret (scale_backward s loss grads).

(** [scaler.step(opt)]: the optimizer updates the parameters it holds. *)
Definition scaler_step_opt (who : net) (s : scaler) (opt : Optimizer) (m : Model)
    (grads : autograd) : M (scaler * Optimizer * Model) :=
  run emit (ScalerStep who);
  let '(s', opt', p) := scaler_step s opt (parameters m) grads in
  ret (s', opt', with_parameters m p).

Definition scaler_update_ (who : net) (s : scaler) : M scaler :=
  run emit (ScalerUpdate who);
  ret (scaler_update s).

(** [optim.Adam(model.parameters(), lr=lr, betas=betas)]: one group over
    all parameter tensors, torch's defaults for the other options. *)
Definition Adam (m : Model) (lr : float) (betas : float * float) : Optimizer :=
  let n := map_fold (fun _ (ps : gmap string tensor) acc => (size ps + acc)%nat) 0%nat (parameters m) in
  mkOptimizer ∅
    [ParamGroup (seq 0 n)
       (list_to_map [("lr", PyFloat lr);
                     ("betas", PyPair (fst betas) (snd betas));
                     ("eps", PyFloat 0x1.5798ee2308c3ap-27%float);  (* 1e-08 *)
                     ("weight_decay", PyInt 0);
                     ("amsgrad", PyBool false)])].

(** [model.apply(fn)]: [fn] on every submodule, in the order of
    [module_types]. *)
Fixpoint apply_modules (fn : layer -> M layer) (mods : list (string * pyclass))
    (params : gmap string (gmap string tensor)) : M (gmap string (gmap string tensor)) :=
  match mods with
  | [] => ret params
  | (name, c) :: rest =>
      do l <- fn (Layer c (default ∅ (params !! name)));
      apply_modules fn rest (<[name := layer_params l]> params)
  end.

Definition apply (fn : layer -> M layer) (m : Model) : M Model :=
  do p <- apply_modules fn (module_types m) (parameters m);
  ret (with_parameters m p).

(** *** load_dataset_UTP *)

Definition path : string := "../data/unitopath-public/800".
Definition path_masks : string := "../data/unitopath-public/generated".
Definition crop : Z := 256.

(** Lines 174-179.  The list display is evaluated left to right; the first
    three constructors have no effect, the fourth element looks
    [RandomRotate90] up in the module [utils] and calls it. *)
Definition transform_train (utils : gmap string pyobj) : M pipeline :=
  let t1 := CenterCrop crop in
  let t2 := RandomHorizontalFlip in
  let t3 := RandomVerticalFlip in
  do cls <- getattr "utils" utils "RandomRotate90";
  do t4 <- call_class cls;
  ret (Compose [t1; t2; t3; t4]).

(** Lines 187-189. *)
Definition transform_test : pipeline := Compose [CenterCrop crop].

(** Lines 180-181 and again 190-191:
    [df = pd.read_csv(os.path.join(path, name)); df = df[df.grade >= 0].copy()]. *)
Definition load_manifest (name : string) : M dataframe :=
  do df <- read_csv (path_join path name);
  ret (copy (getitem_mask df (grade_ge df 0))).

Definition load_dataset_UTP (utils : gmap string pyobj) (cfg : config)
    : M (data_loader * data_loader) :=
  (* training set *)
  do transform_train <- transform_train utils;
  do df <- load_manifest "train.csv";
  let train_dataset :=
    UTP_Masks df transform_train path "grade" path_masks true (Some cuda_current_device) in
  let train_loader := DataLoader train_dataset true (BATCH_SIZE cfg) false in
  (* test set *)
  do df <- load_manifest "test.csv";
  let test_dataset := UTP_Masks df transform_test path "grade" path_masks false None in
  let test_loader := DataLoader test_dataset false (BATCH_SIZE cfg) true in
  ret (train_loader, test_loader).

(** *** wandb_log_generated_images *)

(** The loop of lines 89-102 over the batches the loader yields. *)
Fixpoint log_batches (gen : Model) (loader : list batch) (idx_batch : Z)
    (batch_to_log : Z) (images_to_log : list tensor) : M (list tensor * Model) :=
  match loader with
  | [] => ret (images_to_log, gen)
  | (images_real, masks) :: rest =>
      do '(fakes, gen) <- call_gen gen masks;
      let grids :=
        imap (fun idx_sample fake_img =>
                let real := denormalize (select images_real idx_sample) in
                let mask := get_img_mask (select masks idx_sample) in
                let fake := denormalize fake_img in
                make_grid [mask; real; fake])
          (unbind fakes) in
      let images_to_log := images_to_log ++ grids in
      if (idx_batch + 1 =? batch_to_log)%Z
      then ret (images_to_log, gen)
      else log_batches gen rest (idx_batch + 1) batch_to_log images_to_log
  end.

(** The default of [batch_to_log]. *)
Definition default_batch_to_log : Z := 5.

Definition wandb_log_generated_images (gen : Model) (loader : list batch)
    (batch_to_log : Z) : M Model :=
  let images_to_log := [] in
  let gen := eval_mode gen in
  do '(images_to_log, gen) <- log_batches gen loader 0 batch_to_log images_to_log;
  run wandb_log ["Generated_images (mask-real-fake)"];
  ret (train_mode gen).

(** *** train_fn *)

(** The body of the loop of lines 116-163 for the batch at position [idx];
    it returns the three [.item()] values it records. *)
Definition train_batch (cfg : config) (l1_loss bce : tensor -> tensor -> tensor)
    (idx : nat) (b : batch) (t : trainer) : M (step_losses * trainer) :=
  let '(image_real, mask) := b in
  (* Train Discriminator *)
  do '(image_fake, gen) <- call_gen (t_gen t) mask;
  do '(d_real, disc) <- call_disc (t_disc t) mask image_real;
  let target := ones_like d_real in
  do target <- (if SMOOTH_POSITIVE_LABELS cfg
                then Utils.smooth_positive_labels target else ret target);
  let d_real_loss := bce d_real target in
  do '(d_fake, disc) <- call_disc disc mask (detach image_fake);
  let target := zeros_like d_fake in
  do target <- (if SMOOTH_NEGATIVE_LABELS cfg
                then Utils.smooth_negative_labels target else ret target);
  let d_fake_loss := bce d_fake target in
  let d_loss := tensor_div_scalar (tensor_add d_real_loss d_fake_loss) 2 in
  let recorded_disc := item d_loss in
  do grads <- opt_zero_grad Disc (t_opt_disc t) (t_grads t);
  do '(d_scaler, grads) <- scaler_scale_backward Disc (t_d_scaler t) d_loss grads;
  do '(d_scaler, opt_disc, disc) <- scaler_step_opt Disc d_scaler (t_opt_disc t) disc grads;
  do d_scaler <- scaler_update_ Disc d_scaler;
  (* Train generator *)
  do '(d_fake, disc) <- call_disc disc mask image_fake;
  let g_fake_loss := bce d_fake (ones_like d_fake) in
  let l1 := tensor_mul_scalar (l1_loss image_fake image_real) (L1_LAMBDA cfg) in
  let g_loss := tensor_add g_fake_loss l1 in
  let recorded_l1 := item l1 in
  let recorded_adv := item g_fake_loss in
  do grads <- opt_zero_grad Gen (t_opt_gen t) grads;
  do '(g_scaler, grads) <- scaler_scale_backward Gen (t_g_scaler t) g_loss grads;
  do '(g_scaler, opt_gen, gen) <- scaler_step_opt Gen g_scaler (t_opt_gen t) gen grads;
  do g_scaler <- scaler_update_ Gen g_scaler;
  run (if ((idx + 1) mod 10 =? 0)%nat
       then set_postfix (sigmoid_mean_item d_real) (sigmoid_mean_item d_fake)
       else ret tt);
  ret (StepLosses recorded_disc recorded_l1 recorded_adv,
       mkTrainer disc gen opt_disc opt_gen g_scaler d_scaler grads).

Definition record_step (s : step_losses) (h : history) : history :=
  History (disc_losses h ++ [step_disc s])
          (gen_l1_losses h ++ [step_l1 s])
          (gen_adv_losses h ++ [step_adv s]).

(** [for idx, (image_real, mask) in enumerate(loop)], from position [idx]. *)
Fixpoint train_loop (cfg : config) (l1_loss bce : tensor -> tensor -> tensor)
    (idx : nat) (loader : list batch) (t : trainer) (h : history)
    : M (history * trainer) :=
  match loader with
  | [] => ret (h, t)
  | b :: rest =>
      do '(s, t) <- train_batch cfg l1_loss bce idx b t;
      train_loop cfg l1_loss bce (S idx) rest t (record_step s h)
  end.

(** [gen.train(); disc.train()]. *)
Definition set_train (t : trainer) : trainer :=
  mkTrainer (train_mode (t_disc t)) (train_mode (t_gen t))
    (t_opt_disc t) (t_opt_gen t) (t_g_scaler t) (t_d_scaler t) (t_grads t).

Definition train_fn (cfg : config) (t : trainer) (loader : list batch)
    (l1_loss bce : tensor -> tensor -> tensor) : M (float * float * float * trainer) :=
  let h := History [] [] [] in
  let t := set_train t in
  do '(h, t) <- train_loop cfg l1_loss bce 0 loader t h;
  ret (np_mean (gen_adv_losses h), np_mean (gen_l1_losses h), np_mean (disc_losses h), t).


(** *** main *)

Definition with_gen (t : trainer) (gen : Model) : trainer :=
  mkTrainer (t_disc t) gen (t_opt_disc t) (t_opt_gen t)
    (t_g_scaler t) (t_d_scaler t) (t_grads t).

(** Lines 56-74: the body of the training loop at [epoch].
    [test_batch_masks] is bound (line 48) exactly when [LOG_WANDB] holds. *)
Definition epoch_body (cfg : config) (train_loader : data_loader)
    (test_batch_masks : tensor) (epoch : Z) (t : trainer) : M trainer :=
  do batches <- with_rng (iterate train_loader);
  do '(g_adv_loss, g_l1_loss, d_loss, t) <-
     train_fn cfg t batches l1_criterion bce_with_logits;
  run (if SAVE_MODEL cfg && (epoch mod 5 =? 0)%Z
       then
         run Utils.save_checkpoint (t_gen t) (t_opt_gen t) (CHECKPOINT_GEN cfg);
         run Utils.save_checkpoint (t_disc t) (t_opt_disc t) (CHECKPOINT_DISC cfg);
         if LOG_WANDB cfg
         then run wandb_save (CHECKPOINT_GEN cfg); wandb_save (CHECKPOINT_DISC cfg)
         else ret tt
       else ret tt);
  if LOG_WANDB cfg
  then
    let gen := eval_mode (t_gen t) in
    do '(fakes, gen) <- call_gen gen test_batch_masks;
    let fakes := denormalize fakes in
    run wandb_log ["generator_adv_loss"; "generator_l1_loss"; "discriminator_loss"; "Fakes"];
    ret (with_gen t (train_mode gen))
  else ret t.

(** [for epoch in range(...)]; each iteration is marked in the trace. *)
Fixpoint for_epochs (body : Z -> trainer -> M trainer) (epochs : list Z)
    (t : trainer) : M trainer :=
  match epochs with
  | [] => ret t
  | epoch :: rest =>
      run emit (EpochBegin epoch);
      do t <- body epoch t;
      for_epochs body rest t
  end.

(** Lines 54-82: the training loop and what follows it; [LoopEnd] marks
    the point between the two. *)
Definition main_training (cfg : config) (train_loader test_loader : data_loader)
    (test_batch_masks : tensor) (t : trainer) : M trainer :=
  (* training loop *)
  do t <- for_epochs (epoch_body cfg train_loader test_batch_masks)
            (range (NUM_EPOCHS cfg)) t;
  run emit LoopEnd;
  (* save gen and disc models *)
  run Utils.save_checkpoint (t_gen t) (t_opt_gen t) (CHECKPOINT_GEN cfg);
  run Utils.save_checkpoint (t_disc t) (t_opt_disc t) (CHECKPOINT_DISC cfg);
  if LOG_WANDB cfg
  then
    do batches <- with_rng (iterate test_loader);
    do gen <- wandb_log_generated_images (t_gen t) batches default_batch_to_log;
    run wandb_finish;
    ret (with_gen t gen)
  else ret t.

(** [main()], with the module [utils] as the import bound it.  Where
    [LOG_WANDB] is off, [test_batch_masks] stays unbound and is never read;
    the empty tensor stands for it. *)
Definition main (utils : gmap string pyobj) (cfg : config) : M unit :=
  run Utils.set_seed (SEED cfg);
  let num_classes := Z.of_nat (length labels) in
  do disc <- with_rng (new_discriminator (3 + num_classes));
  do gen <- with_rng (new_generator num_classes 64);
  let opt_disc := Adam disc (LEARNING_RATE cfg) (ADAM_BETA1 cfg, ADAM_BETA2 cfg) in
  let opt_gen := Adam gen (LEARNING_RATE cfg) (ADAM_BETA1 cfg, ADAM_BETA2 cfg) in
  run print (repr_model disc);
  run print (repr_model gen);
  (* weight initalization *)
  do disc <- apply Utils.init_weights disc;
  do gen <- apply Utils.init_weights gen;
  (* load dataset *)
  do '(train_loader, test_loader) <- load_dataset_UTP utils cfg;
  (* GradScaler *)
  let g_scaler := GradScaler in
  let d_scaler := GradScaler in
  do test_batch_masks <-
     (if LOG_WANDB cfg
      then
        do batches <- with_rng (iterate test_loader);
        do '(test_batch_im, test_batch_masks) <- next_iter batches;
        let test_batch_im := denormalize test_batch_im in
        run wandb_log ["Real"; "Masks"];
        ret test_batch_masks
      else ret (Tensor [] []));
  let t := mkTrainer disc gen opt_disc opt_gen g_scaler d_scaler no_grads in
  run main_training cfg train_loader test_loader test_batch_masks t;
  ret tt.

End TrainUtp.
End TrainUtp.


(** ** A small back end for examples *)

(** Deterministic stand-ins: the uniform draws cycle through 0, 1/4, 1/2,
    3/4; the generator network returns its mask, the discriminator its
    image; the criteria return their first argument; [.item()] reads the
    integer part of the first entry; a loader yields one fixed batch per
    row of its data set. *)
Definition toy_item (t : tensor) : float :=
  match data t with
  | q :: _ => PrimFloat.of_uint63 (Uint63.of_Z (Qnum q / Zpos (Qden q)))
  | [] => 0%float
  end.

Definition scalar (q : Q) : tensor := Tensor [] [q].

Definition toy_model : Model :=
  mkModel true [("conv", Conv2d); ("norm", BatchNorm2d)]
    (<["conv" := {[ "weight" := Tensor [2%nat] [1%Q; 1%Q] ]}]>
       (<["norm" := {[ "weight" := Tensor [1%nat] [1%Q] ]}]> ∅)).

Definition toy : Torch := {|
  generator := nat;
  manual_seed := fun seed _ => Z.to_nat seed;
  rand_uniform := fun g => (Z.of_nat (g mod 4) # 4, S g);
  randn := fun g => (Z.of_nat g - 2 # 1, S g);
  label_dtype := float64;
  new_generator := fun _ _ g => (toy_model, g);
  new_discriminator := fun _ g => (toy_model, g);
  gen_forward := fun _ p mask g => (mask, p, g);
  disc_forward := fun _ p _ image g => (image, p, g);
  repr_model := fun _ => "Model()";
  bce_with_logits := fun x _ => x;
  l1_criterion := fun x _ => x;
  item := toy_item;
  sigmoid_mean_item := toy_item;
  autograd := unit;
  scaler := unit;
  no_grads := tt;
  GradScaler := tt;
  zero_grad := fun _ a => a;
  scale_backward := fun s _ a => (s, a);
  scaler_step := fun s o p _ => (s, o, p);
  scaler_update := fun s => s;
  labels := ["a"; "b"];
  denormalize := fun t => t;
  get_img_mask := fun t => t;
  make_grid := fun ts => default (Tensor [] []) (head ts);
  unbind := fun t => [t];
  select := fun t _ => t;
  cuda_current_device := 0;
  iterate := fun l g => (map (fun _ => (scalar 4, scalar 2)) (ds_df (dl_dataset l)), g)
|}.

Definition toy_env : @env toy := mkEnv ∅ ∅ [] (0%nat : @generator toy).

Definition toy_config : config := {|
  SEED := 42;
  DEVICE := "cpu";
  LEARNING_RATE := 0.5%float;
  ADAM_BETA1 := 0.5%float;
  ADAM_BETA2 := 0.5%float;
  BATCH_SIZE := 1;
  NUM_EPOCHS := 12;
  L1_LAMBDA := 100;
  SMOOTH_POSITIVE_LABELS := true;
  SMOOTH_NEGATIVE_LABELS := true;
  SAVE_MODEL := true;
  CHECKPOINT_GEN := "gen.pth.tar";
  CHECKPOINT_DISC := "disc.pth.tar";
  LOG_WANDB := true
|}.

Definition toy_batches : list batch :=
  [(scalar 4, scalar 2); (scalar 6, scalar 4); (scalar 8, scalar 6)].

Definition toy_optimizer : Optimizer :=
  TrainUtp.Adam toy_model 0.5%float (0.5%float, 0.75%float).

Definition toy_trainer : @trainer toy :=
  mkTrainer (H:=toy) (eval_mode toy_model) (eval_mode toy_model)
    toy_optimizer toy_optimizer tt tt tt.

Definition toy_loader : data_loader :=
  DataLoader
    (UTP_Masks [(0%nat, Row (Some 1%Z) [])] TrainUtp.transform_test TrainUtp.path
       "grade" TrainUtp.path_masks false None)
    false 1 false.

(** A second network of the same architecture with other values, and
    optimizers for the two: one that has taken steps, one fresh with
    another learning rate. *)
Definition fresh_model : Model :=
  mkModel true [("conv", Conv2d); ("norm", BatchNorm2d)]
    (<["conv" := {[ "weight" := Tensor [2%nat] [0%Q; 5%Q] ]}]>
       (<["norm" := {[ "weight" := Tensor [1%nat] [7%Q] ]}]> ∅)).

Definition saved_optimizer : Optimizer :=
  mkOptimizer (<[0%nat := {[ "exp_avg" := Tensor [2%nat] [3%Q; 4%Q] ]}]> ∅)
    (param_groups toy_optimizer).

Definition fresh_optimizer : Optimizer :=
  TrainUtp.Adam fresh_model 0.125%float (0.5%float, 0.75%float).

(** A manifest with the grades -1, 0, 2, -5, 3. *)
Definition sample_rows : list row :=
  [Row (Some (-1)%Z) []; Row (Some 0%Z) []; Row (Some 2%Z) [];
   Row (Some (-5)%Z) []; Row (Some 3%Z) []].

Definition sample_env : @env toy :=
  mkEnv (<[TrainUtp.path_join TrainUtp.path "train.csv" := CsvFile sample_rows]> ∅)
    ∅ [] (0%nat : @generator toy).

(** ** Vocabulary of the statements *)

Section Vocabulary.
Context `{Torch}.

(** [yields m e P Q]: from [e], [m] returns a value in [Q], and the events
    it adds to the trace are all in [P]. *)
Definition yields {A} (m : M A) (e : env) (P : event -> Prop) (Q : A -> Prop) : Prop :=
  exists a e' evs, m e = Ok (a, e') /\ out e' = out e ++ evs /\ Forall P evs /\ Q a.

(** Every forward pass among the events runs in mode [mode]. *)
Definition forward_in_mode (mode : bool) (ev : event) : Prop :=
  forall who m, ev = Forward who m -> m = mode.

(** Events of a training step with the generator in mode [tg] and the
    discriminator in mode [td]. *)
Definition step_event (tg td : bool) (ev : event) : Prop :=
  match ev with
  | Forward Gen mode => mode = tg
  | Forward Disc mode => mode = td
  | OptZeroGrad _ | ScalerBackward _ | ScalerStep _ | ScalerUpdate _
  | SetPostfix _ _ => True
  | _ => False
  end.

(** Events of an inference-only section: forward passes of the generator
    in evaluation mode, and the export of their results. *)
Definition eval_event (ev : event) : Prop :=
  match ev with
  | Forward Gen mode => mode = false
  | SaveImage _ | WandbLog _ => True
  | _ => False
  end.

(** The part of a trace that concerns checkpoints: the [torch.save] calls
    and the marks of the loop. *)
Definition checkpoint_event (ev : event) : bool :=
  match ev with
  | TorchSave _ | EpochBegin _ | LoopEnd => true
  | _ => false
  end.

Definition checkpoint_trace (evs : list event) : list event :=
  List.filter checkpoint_event evs.

(** [shows m e l]: from [e], [m] returns and adds exactly [l] to the
    checkpoint trace. *)
Definition shows {A} (m : M A) (e : env) (l : list event) : Prop :=
  exists a e', m e = Ok (a, e') /\
    checkpoint_trace (out e') = checkpoint_trace (out e) ++ l.

(** The saves of the loop iteration [epoch] when checkpointing is on. *)
Definition epoch_saves (cfg : config) (epoch : Z) : list event :=
  if (epoch mod 5 =? 0)%Z
  then [TorchSave (CHECKPOINT_GEN cfg); TorchSave (CHECKPOINT_DISC cfg)]
  else [].

(** What a run of [n] epochs adds to the checkpoint trace. *)
Definition cadence (cfg : config) (n : Z) : list event :=
  flat_map (fun epoch => EpochBegin epoch :: epoch_saves cfg epoch) (range n)
  ++ [LoopEnd; TorchSave (CHECKPOINT_GEN cfg); TorchSave (CHECKPOINT_DISC cfg)].

(** [type(m) == nn.Conv2d or type(m) == nn.ConvTranspose2d]. *)
Definition exact_conv (c : pyclass) : bool :=
  bool_decide (c = Conv2d) || bool_decide (c = ConvTranspose2d).

(** The tensor [normal_(w, mean=0.0, std=0.02)] leaves in place of [w], and
    the state after its draws. *)
Definition resampled (w : tensor) (e : env) : tensor :=
  Tensor (shape w)
    (map (fun z => (0 + (2 # 100) * z)%Q) (draw randn (length (data w)) (rng e)).1).

Definition after_draws (w : tensor) (e : env) : env :=
  mkEnv (fs e) (dirs e) (out e) (draw randn (length (data w)) (rng e)).2.

(** A row whose grade is present and not negative. *)
Definition grade_nonneg (ir : nat * row) : bool :=
  match grade ir.2 with
  | Some g => (0 <=? g)%Z
  | None => false
  end.

(** The entry [smooth_positive_labels] computes from the label entry [l]
    and the draw [u] in the dtype [d], [l - 0.3 + u * 0.5], and the entry
    [smooth_negative_labels] computes, [l + u * 0.3]. *)
Definition positive_entry (d : dtype) (l u : Q) : Q :=
  kernel d (kernel d (l - scalar_operand d 0x1.3333333333333p-2)
            + kernel d (u * scalar_operand d 0.5)).

Definition negative_entry (d : dtype) (l u : Q) : Q :=
  kernel d (l + kernel d (u * scalar_operand d 0x1.3333333333333p-2)).


Definition mean_with {T} (add div : T -> T -> T) (zero : T) (count : nat -> T)
    (l : list T) : T :=
  div (add zero (pairwise_sum add zero (length l) l)) (count (length l)).



(** The three means of a returned [train_fn]. *)
Definition losses_of (r : result (float * float * float * trainer * env))
    : option (float * float * float) :=
  match r with
  | Ok (x, _, _) => Some x
  | Raise _ => None
  end.

End Vocabulary.

(** ** Vocabulary of the further statements *)

Section Views.
Context `{Torch}.

(** The sizes of the parameter groups of an optimizer, as
    [optimizer.load_state_dict] compares them. *)
Definition group_sizes (o : Optimizer) : list nat :=
  map (fun g => length (pg_params g)) (param_groups o).

(** The file a checkpoint of [m] and [o] is. *)
Definition checkpoint_of (m : Model) (o : Optimizer) : file :=
  CheckpointFile (mkCheckpoint (parameters m) o).

(** [ps'] has the attributes of [ps], with the same values except possibly
    at ["weight"], and with the same shapes and sizes everywhere. *)
Definition same_but_weight_values (ps ps' : gmap string tensor) : Prop :=
  (forall k, k <> "weight" -> ps' !! k = ps !! k) /\
  (forall k, shape <$> (ps' !! k) = shape <$> (ps !! k)) /\
  (forall k, (fun t => length (data t)) <$> (ps' !! k)
             = (fun t => length (data t)) <$> (ps !! k)).

(** The parameters of the submodule [name] in a state dict. *)
Definition params_of (p : gmap string (gmap string tensor)) (name : string)
    : gmap string tensor :=
  default ∅ (p !! name).

(** [adds view m e l Q]: from [e], [m] returns a value in [Q], and the
    events it adds to the trace are, seen through [view], exactly [l]. *)
Definition adds {A K} (view : event -> option K) (m : M A) (e : env)
    (l : list K) (Q : A -> Prop) : Prop :=
  exists a e' evs, m e = Ok (a, e') /\ out e' = out e ++ evs /\ omap view evs = l /\ Q a.

(** [keeps_disk m]: whenever [m] returns, files and directories are as
    before. *)
Definition keeps_disk {A} (m : M A) : Prop :=
  forall e a e', m e = Ok (a, e') -> fs e' = fs e /\ dirs e' = dirs e.

(** The view of the trace that keeps every event. *)
Definition every_event (ev : event) : option event := Some ev.

(** An event with the numbers of a progress report blanked, and the view
    that blanks them. *)
Definition blank (ev : event) : event :=
  match ev with
  | SetPostfix _ _ => SetPostfix 0%float 0%float
  | _ => ev
  end.

Definition blank_postfix (ev : event) : option event := Some (blank ev).

(** The calls of the training step at position [idx], generator in mode
    [tg] and discriminator in mode [td]: lines 122-163 in their order. *)
Definition step_calls (tg td : bool) (idx : nat) : list event :=
  [Forward Gen tg; Forward Disc td; Forward Disc td;
   OptZeroGrad Disc; ScalerBackward Disc; ScalerStep Disc; ScalerUpdate Disc;
   Forward Disc td;
   OptZeroGrad Gen; ScalerBackward Gen; ScalerStep Gen; ScalerUpdate Gen]
  ++ (if ((idx + 1) mod 10 =? 0)%nat then [SetPostfix 0%float 0%float] else []).

(** Two events are the same call: same function, same network, same mode;
    the numbers of a progress report are not compared. *)
Definition same_call (a b : event) : bool :=
  match a, b with
  | Forward Gen m, Forward Gen m' | Forward Disc m, Forward Disc m' => Bool.eqb m m'
  | OptZeroGrad Gen, OptZeroGrad Gen | OptZeroGrad Disc, OptZeroGrad Disc
  | ScalerBackward Gen, ScalerBackward Gen | ScalerBackward Disc, ScalerBackward Disc
  | ScalerStep Gen, ScalerStep Gen | ScalerStep Disc, ScalerStep Disc
  | ScalerUpdate Gen, ScalerUpdate Gen | ScalerUpdate Disc, ScalerUpdate Disc
  | SetPostfix _ _, SetPostfix _ _ => true
  | _, _ => false
  end.

Definition count_calls (call : event) (evs : list event) : nat :=
  length (List.filter (same_call call) evs).

(** The number of batches the loop of [wandb_log_generated_images] runs
    through the generator when it starts at position [idx_batch] with [n]
    batches to come: it stops after the batch at which
    [idx_batch + 1 == batch_to_log], if there is one. *)
Definition logged_from (idx_batch : Z) (n : nat) (batch_to_log : Z) : nat :=
  if ((idx_batch + 1 <=? batch_to_log) && (batch_to_log <=? idx_batch + Z.of_nat n))%Z
  then Z.to_nat (batch_to_log - idx_batch)
  else n.

Definition batches_logged (n : nat) (batch_to_log : Z) : nat :=
  logged_from 0 n batch_to_log.

(** The view that keeps the checkpoint saves and the loop marks, and the
    one that keeps the uploads to the tracking service and the loop marks. *)
Definition saves_view (ev : event) : option event :=
  match ev with
  | TorchSave _ | EpochBegin _ | LoopEnd => Some ev
  | _ => None
  end.

Definition uploads_view (ev : event) : option event :=
  match ev with
  | WandbSave _ | EpochBegin _ | LoopEnd => Some ev
  | _ => None
  end.

(** A view that sees nothing but saves, uploads and loop marks. *)
Definition silent_view {K} (view : event -> option K) : Prop :=
  forall ev,
    match ev with
    | TorchSave _ | WandbSave _ | EpochBegin _ | LoopEnd => True
    | _ => view ev = None
    end.

(** The checkpoint saves and uploads of the loop iteration [epoch] of
    [main] (lines 58-63), the iteration with its mark, and the whole of
    lines 54-78. *)
Definition epoch_calls (cfg : config) (epoch : Z) : list event :=
  if SAVE_MODEL cfg && (epoch mod 5 =? 0)%Z
  then [TorchSave (CHECKPOINT_GEN cfg); TorchSave (CHECKPOINT_DISC cfg)]
       ++ (if LOG_WANDB cfg
           then [WandbSave (CHECKPOINT_GEN cfg); WandbSave (CHECKPOINT_DISC cfg)]
           else [])
  else [].

Definition epoch_io (cfg : config) (epoch : Z) : list event :=
  EpochBegin epoch :: epoch_calls cfg epoch.

Definition run_io (cfg : config) : list event :=
  flat_map (epoch_io cfg) (range (NUM_EPOCHS cfg))
  ++ [LoopEnd; TorchSave (CHECKPOINT_GEN cfg); TorchSave (CHECKPOINT_DISC cfg)].

(** An event other than a forward pass of the discriminator in evaluation
    mode. *)
Definition not_disc_eval (ev : event) : Prop := ev <> Forward Disc false.

Definition both_training (t : trainer) : Prop :=
  training (t_gen t) = true /\ training (t_disc t) = true.

(** The two manifests. *)
Definition train_csv : string := TrainUtp.path_join TrainUtp.path "train.csv".
Definition test_csv : string := TrainUtp.path_join TrainUtp.path "test.csv".

End Views.

(** A state of the small back end in which the checkpoint of [toy_model]
    and [saved_optimizer] is on disk, and a configuration with
    checkpointing off. *)
Definition saved_env : @env toy :=
  mkEnv (<["gen.pth.tar" := checkpoint_of toy_model saved_optimizer]> ∅)
    ∅ [] (0%nat : @generator toy).

Definition toy_config_no_save : config := {|
  SEED := 42;
  DEVICE := "cpu";
  LEARNING_RATE := 0.5%float;
  ADAM_BETA1 := 0.5%float;
  ADAM_BETA2 := 0.5%float;
  BATCH_SIZE := 1;
  NUM_EPOCHS := 3;
  L1_LAMBDA := 100;
  SMOOTH_POSITIVE_LABELS := false;
  SMOOTH_NEGATIVE_LABELS := false;
  SAVE_MODEL := false;
  CHECKPOINT_GEN := "gen.pth.tar";
  CHECKPOINT_DISC := "disc.pth.tar";
  LOG_WANDB := false
|}.

(** * Properties *)

(** ** Running [M] *)

Section Running.
Context `{Torch}.

Lemma bind_Ok {A B} (m : M A) (k : A -> M B) e b e2 :
  bind m k e = Ok (b, e2) ->
  exists a e1, m e = Ok (a, e1) /\ k a e1 = Ok (b, e2).
Proof.
  unfold bind. destruct (m e) as [[a e1]|x]; [eauto | done].
Qed.

Lemma bind_Raise {A B} (m : M A) (k : A -> M B) e x :
  m e = Raise x -> bind m k e = Raise x.
Proof. unfold bind. by intros ->. Qed.

Lemma bind_not_ok {A B} (m : M A) (k : A -> M B) e :
  (forall a e1, is_ok (k a e1) = false) -> is_ok (bind m k e) = false.
Proof.
  intros Hk. unfold bind. destruct (m e) as [[a e1]|x]; [apply Hk|done].
Qed.

Lemma yields_ret {A} (a : A) e P (Q : A -> Prop) : Q a -> yields (ret a) e P Q.
Proof. intros HQ. exists a, e, []. by rewrite app_nil_r. Qed.

Lemma yields_bind {A B} (m : M A) (k : A -> M B) e P (Q1 : A -> Prop) (Q : B -> Prop) :
  yields m e P Q1 ->
  (forall a e1, Q1 a -> yields (k a) e1 P Q) ->
  yields (bind m k) e P Q.
Proof.
  intros (a & e1 & evs1 & Hm & Ho1 & HP1 & HQ1) Hk.
  destruct (Hk a e1 HQ1) as (b & e2 & evs2 & Hkb & Ho2 & HP2 & HQ2).
  exists b, e2, (evs1 ++ evs2). unfold bind. rewrite Hm.
  split; [done|]. split; [by rewrite Ho2, Ho1, app_assoc|].
  split; [by apply Forall_app|done].
Qed.

Lemma yields_emit ev e (P : event -> Prop) : P ev -> yields (emit ev) e P (fun _ => True).
Proof. intros HP. eexists tt, _, [ev]. split; [reflexivity|]. simpl. auto. Qed.

Lemma yields_with_rng {A} (f : generator -> A * generator) e P :
  yields (with_rng f) e P (fun _ => True).
Proof.
  unfold yields, with_rng. destruct (f (rng e)) as [a g].
  eexists a, _, []. split; [reflexivity|]. simpl. by rewrite app_nil_r.
Qed.

Lemma yields_if {A} (b : bool) (m1 m2 : M A) e P Q :
  yields m1 e P Q -> yields m2 e P Q -> yields (if b then m1 else m2) e P Q.
Proof. by destruct b. Qed.

Lemma yields_logged {A} ev (a : A) e (P : event -> Prop) :
  P ev -> yields (run emit ev; ret a) e P (fun _ => True).
Proof.
  intros HP. eapply yields_bind; [by apply yields_emit|]. intros _ e1 _.
  by apply yields_ret.
Qed.

Lemma yields_call_gen gen mask e (P : event -> Prop) :
  P (Forward Gen (training gen)) ->
  yields (call_gen gen mask) e P (fun r => training r.2 = training gen).
Proof.
  intros HP. unfold call_gen.
  eapply yields_bind; [by apply yields_emit|]. intros _ e1 _.
  eapply yields_bind; [apply yields_with_rng|]. intros [y p] e2 _.
  by apply yields_ret.
Qed.

Lemma yields_call_disc disc mask image e (P : event -> Prop) :
  P (Forward Disc (training disc)) ->
  yields (call_disc disc mask image) e P (fun r => training r.2 = training disc).
Proof.
  intros HP. unfold call_disc.
  eapply yields_bind; [by apply yields_emit|]. intros _ e1 _.
  eapply yields_bind; [apply yields_with_rng|]. intros [y p] e2 _.
  by apply yields_ret.
Qed.

Lemma shows_bind {A B} (m : M A) (k : A -> M B) e l1 l2 :
  shows m e l1 -> (forall a e1, shows (k a) e1 l2) -> shows (bind m k) e (l1 ++ l2).
Proof.
  intros (a & e1 & Hm & H1) Hk. destruct (Hk a e1) as (b & e2 & Hkb & H2).
  exists b, e2. unfold bind. rewrite Hm. split; [done|].
  by rewrite H2, H1, app_assoc.
Qed.

Lemma shows_ret {A} (a : A) e : shows (ret a) e [].
Proof. exists a, e. by rewrite app_nil_r. Qed.

Lemma shows_emit ev e :
  shows (emit ev) e (if checkpoint_event ev then [ev] else []).
Proof.
  eexists tt, _. split; [reflexivity|]. simpl.
  unfold checkpoint_trace. rewrite List.filter_app. simpl.
  by destruct (checkpoint_event ev).
Qed.

Lemma yields_shows {A} (m : M A) e (P : event -> Prop) (Q : A -> Prop) :
  yields m e P Q -> (forall ev, P ev -> checkpoint_event ev = false) -> shows m e [].
Proof.
  intros (a & e' & evs & Hm & Hout & HP & _) Hinv.
  exists a, e'. split; [done|]. rewrite Hout. unfold checkpoint_trace.
  rewrite List.filter_app. f_equal. clear Hout.
  induction HP as [|ev evs Hev _ IH]; simpl; [done|].
  by rewrite (Hinv ev Hev).
Qed.

Lemma shows_with_rng {A} (f : generator -> A * generator) e : shows (with_rng f) e [].
Proof.
  apply (yields_shows _ _ (fun _ => False) (fun _ => True)); [apply yields_with_rng|done].
Qed.

Lemma step_event_hidden tg td ev : step_event tg td ev -> checkpoint_event ev = false.
Proof. by destruct ev. Qed.

Lemma eval_event_hidden ev : eval_event ev -> checkpoint_event ev = false.
Proof. by destruct ev. Qed.

End Running.

(** ** Checkpoints *)

Section Checkpoint.
Context `{Torch}.

Lemma save_checkpoint_returns model optimizer filename e :
  Utils.save_checkpoint model optimizer filename e =
    Ok (tt, mkEnv (<[filename := CheckpointFile (mkCheckpoint (parameters model) optimizer)]> (fs e))
              (dirs e) (out e ++ [Print "=> Saving model"; TorchSave filename]) (rng e)).
Proof.
  unfold Utils.save_checkpoint, torch_save, print, write_file, emit, bind. simpl.
  unfold optimizer_state_dict, model_state_dict. destruct optimizer; simpl.
  by rewrite <- app_assoc.
Qed.

Lemma torch_load_saved filename c e :
  fs e !! filename = Some (CheckpointFile c) -> torch_load filename e = Ok (c, e).
Proof. unfold torch_load, read_file, bind. by intros ->. Qed.

(** C1: saving a model and its optimizer to a file and loading the file
    into a second model and optimizer of the same architecture, with a
    learning rate [lr], returns; the second model then holds exactly the
    saved parameters, the second optimizer exactly the saved state and, in
    every group, the saved options except that ["lr"] is [lr]. *)
Theorem checkpoint_roundtrip
    (model model' : Model) (optimizer optimizer' : Optimizer)
    (filename : string) (lr : float) (e : env) :
  shapes_of (parameters model') = shapes_of (parameters model) ->
  map (fun g => length (pg_params g)) (param_groups optimizer')
    = map (fun g => length (pg_params g)) (param_groups optimizer) ->
  exists e1 e2 m2 o2,
    Utils.save_checkpoint model optimizer filename e = Ok (tt, e1) /\
    Utils.load_checkpoint filename model' optimizer' lr e1 = Ok ((m2, o2), e2) /\
    parameters m2 = parameters model /\
    training m2 = training model' /\
    opt_state o2 = opt_state optimizer /\
    length (param_groups o2) = length (param_groups optimizer) /\
    (forall i saved, param_groups optimizer !! i = Some saved ->
       exists g2 g', param_groups o2 !! i = Some g2 /\
         param_groups optimizer' !! i = Some g' /\
         pg_params g2 = pg_params g' /\
         pg_options g2 = <["lr" := PyFloat lr]> (pg_options saved) /\
         pg_options g2 !! "lr" = Some (PyFloat lr) /\
         (forall k, k <> "lr" -> pg_options g2 !! k = pg_options saved !! k)).
Proof.
  intros Hshapes Hgroups.
  assert (Hlen : length (param_groups optimizer') = length (param_groups optimizer)).
  { apply (f_equal length) in Hgroups. by rewrite !length_map in Hgroups. }
  eexists _, _, _, _. split; [apply save_checkpoint_returns|].
  split.
  { unfold Utils.load_checkpoint.
    unfold bind at 1. unfold print, emit.
    unfold bind at 1. erewrite torch_load_saved; [|simpl; apply lookup_insert_eq].
    unfold bind at 1. unfold load_state_dict, lift. simpl.
    rewrite bool_decide_eq_true_2 by done.
    unfold bind at 1. unfold optimizer_load_state_dict. simpl.
    rewrite bool_decide_eq_true_2 by done.
    rewrite bool_decide_eq_true_2 by done.
    reflexivity. }
  split; [done|]. split; [done|]. split; [done|].
  split.
  { simpl. rewrite length_map, length_zip_with. lia. }
  intros i saved Hi.
  destruct (lookup_lt_is_Some_2 (param_groups optimizer') i) as [g' Hg'].
  { rewrite Hlen. by apply lookup_lt_Some with saved. }
  exists (ParamGroup (pg_params g') (<["lr" := PyFloat lr]> (pg_options saved))), g'.
  split.
  { simpl. rewrite list_lookup_fmap, lookup_zip_with, Hg'. simpl. by rewrite Hi. }
  split; [done|]. split; [done|]. split; [done|]. simpl.
  split; [apply lookup_insert_eq|].
  intros k Hk. by apply lookup_insert_ne.
Qed.

End Checkpoint.

Lemma checkpoint_roundtrip_witness :
  exists e1 e2 m2 o2,
    Utils.save_checkpoint (H:=toy) toy_model saved_optimizer "gen.pth.tar" toy_env
      = Ok (tt, e1) /\
    Utils.load_checkpoint "gen.pth.tar" fresh_model fresh_optimizer 0.25%float e1
      = Ok ((m2, o2), e2) /\
    parameters m2 = parameters toy_model /\
    opt_state o2 = opt_state saved_optimizer.
Proof.
  destruct (checkpoint_roundtrip (H:=toy) toy_model fresh_model saved_optimizer
              fresh_optimizer "gen.pth.tar" 0.25%float toy_env eq_refl eq_refl)
    as (e1 & e2 & m2 & o2 & Hsave & Hload & Hp & _ & Hs & _).
  exists e1, e2, m2, o2. repeat split; assumption.
Defined.

(** The saved optimizer ran at 0.5 and the fresh one was built with 0.125;
    after the load every group runs at the 0.25 passed in. *)
Example load_checkpoint_overrides_lr :
  match Utils.save_checkpoint (H:=toy) toy_model saved_optimizer "gen.pth.tar" toy_env with
  | Ok (_, e1) =>
      match Utils.load_checkpoint "gen.pth.tar" fresh_model fresh_optimizer 0.25%float e1 with
      | Ok ((m2, o2), _) =>
          parameters m2 = parameters toy_model /\
          opt_state o2 = opt_state saved_optimizer /\
          map (fun g => pg_options g !! "lr") (param_groups saved_optimizer)
            = [Some (PyFloat 0.5%float)] /\
          map (fun g => pg_options g !! "lr") (param_groups o2)
            = [Some (PyFloat 0.25%float)] /\
          map (fun g => pg_options g !! "betas") (param_groups o2)
            = [Some (PyPair 0.5%float 0.75%float)]
      | Raise _ => False
      end
  | Raise _ => False
  end.
Proof. vm_compute. repeat split. Qed.

(** A file that was never written cannot be loaded. *)
Example load_checkpoint_missing_file :
  Utils.load_checkpoint (H:=toy) "gen.pth.tar" fresh_model fresh_optimizer 0.25%float toy_env
  = Raise (FileNotFoundError "gen.pth.tar").
Proof. reflexivity. Qed.

(** ** Rounding to a format *)

Section Rounding.
Local Open Scope Q_scope.

Lemma pow2_pos e : 0 < 2 ^ e.
Proof. by apply Qpower_0_lt. Qed.

Lemma pow2_le a b : (a <= b)%Z -> 2 ^ a <= 2 ^ b.
Proof. intros Hab. by apply Qpower_le_compat_l. Qed.

Lemma pow2_add a b : 2 ^ (a + b) == 2 ^ a * 2 ^ b.
Proof. by apply Qpower_plus. Qed.

Lemma pow2_nonneg_Z a : (0 <= a)%Z -> 2 ^ a == inject_Z (2 ^ a).
Proof.
  revert a. apply natlike_ind; [done|]. intros a Ha IH.
  replace (Z.succ a) with (a + 1)%Z by lia.
  rewrite pow2_add, IH, Z.pow_add_r, inject_Z_mult by lia. reflexivity.
Qed.

(** [Qlog2 q] is the exponent of the binade of [q]. *)
Lemma Qlog2_spec q : 0 < q -> 2 ^ Qlog2 q <= q /\ q < 2 ^ (Qlog2 q + 1).
Proof.
  intros Hq. unfold Qlog2.
  set (n := Qnum q). set (d := Zpos (Qden q)).
  assert (Hn : (0 < n)%Z) by (unfold n; destruct q as [[|?|?] ?]; done).
  assert (Hd : (0 < d)%Z) by done.
  destruct (Z.log2_spec n Hn) as [Hn1 Hn2].
  destruct (Z.log2_spec d Hd) as [Hd1 Hd2].
  assert (Hln : (0 <= Z.log2 n)%Z) by apply Z.log2_nonneg.
  assert (Hld : (0 <= Z.log2 d)%Z) by apply Z.log2_nonneg.
  assert (Hqd : q * inject_Z d == inject_Z n).
  { unfold n, d. destruct q as [qn qd]. unfold Qeq. simpl. lia. }
  rewrite Zle_Qle, <- pow2_nonneg_Z in Hn1, Hd1 by lia.
  rewrite Zlt_Qlt, <- pow2_nonneg_Z in Hn2, Hd2 by lia.
  replace (Z.succ (Z.log2 n)) with (Z.log2 n + 1)%Z in Hn2 by lia.
  replace (Z.succ (Z.log2 d)) with (Z.log2 d + 1)%Z in Hd2 by lia.
  set (e := (Z.log2 n - Z.log2 d)%Z).
  assert (He1 : 2 ^ (e + 1) * 2 ^ Z.log2 d == 2 ^ (Z.log2 n + 1)).
  { rewrite <- pow2_add. by replace (e + 1 + Z.log2 d)%Z with (Z.log2 n + 1)%Z by lia. }
  assert (He0 : 2 ^ (e - 1) * 2 ^ (Z.log2 d + 1) == 2 ^ Z.log2 n).
  { rewrite <- pow2_add. by replace (e - 1 + (Z.log2 d + 1))%Z with (Z.log2 n) by lia. }
  pose proof (pow2_pos (e + 1)) as P1. pose proof (pow2_pos (e - 1)) as P0.
  pose proof (pow2_pos (Z.log2 d)) as Pd.
  assert (Hup : q < 2 ^ (e + 1)).
  { apply Qnot_le_lt. intros Hle.
    assert (Hprod : 2 ^ (e + 1) * 2 ^ Z.log2 d <= q * inject_Z d).
    { apply Qle_trans with (q * 2 ^ Z.log2 d).
      - apply Qmult_le_compat_r; [done|by apply Qlt_le_weak].
      - apply Qmult_le_l; done. }
    rewrite He1, Hqd in Hprod. by apply Qle_not_lt in Hprod. }
  assert (Hlo : 2 ^ (e - 1) <= q).
  { apply Qnot_lt_le. intros Hlt.
    assert (Hprod : q * inject_Z d < 2 ^ (e - 1) * 2 ^ (Z.log2 d + 1)).
    { apply Qle_lt_trans with (2 ^ (e - 1) * inject_Z d).
      - apply Qmult_le_compat_r; [by apply Qlt_le_weak|].
        apply Qle_trans with (2 ^ Z.log2 d); [by apply Qlt_le_weak|done].
      - apply Qmult_lt_l; done. }
    rewrite He0, Hqd in Hprod. by apply Qlt_not_le in Hprod. }
  destruct (Qle_bool (2 ^ e) q) eqn:Hb.
  - apply Qle_bool_iff in Hb. done.
  - replace (e - 1 + 1)%Z with e by lia. split; [done|].
    apply Qnot_le_lt. intros Hle. apply Qle_bool_iff in Hle. congruence.
Qed.

Lemma Qlog2_mono x y : 0 < x -> x <= y -> (Qlog2 x <= Qlog2 y)%Z.
Proof.
  intros Hx Hxy.
  destruct (Qlog2_spec x Hx) as [Hx1 _].
  destruct (Qlog2_spec y (Qlt_le_trans _ _ _ Hx Hxy)) as [_ Hy2].
  assert (Hlt : 2 ^ Qlog2 x < 2 ^ (Qlog2 y + 1)).
  { eapply Qle_lt_trans; [exact Hx1|]. eapply Qle_lt_trans; [exact Hxy|exact Hy2]. }
  apply Qpower_lt_compat_l_inv in Hlt; [lia|done].
Qed.

Lemma round_even_floor r : (Qfloor r <= round_even r <= Qfloor r + 1)%Z.
Proof.
  unfold round_even. destruct (r - inject_Z (Qfloor r) ?= 1 # 2); [|lia|lia].
  destruct (Z.even (Qfloor r)); lia.
Qed.

(** An integer below [r] is below its rounding, an integer above [r] is
    above it. *)
Lemma round_even_ge (n : Z) r : inject_Z n <= r -> (n <= round_even r)%Z.
Proof.
  intros Hn. pose proof (round_even_floor r) as [Hf _].
  apply Qfloor_resp_le in Hn. rewrite Qfloor_Z in Hn. lia.
Qed.

Lemma round_even_le (n : Z) r : r <= inject_Z n -> (round_even r <= n)%Z.
Proof.
  intros Hn. pose proof (Qfloor_resp_le _ _ Hn) as Hf. rewrite Qfloor_Z in Hf.
  pose proof (Qfloor_le r) as Hfl.
  unfold round_even.
  destruct (Qcompare_spec (r - inject_Z (Qfloor r)) (1 # 2)) as [Heq|Hlt|Hgt].
  - assert (Hne : (Qfloor r < n)%Z) by (rewrite Zlt_Qlt; lra).
    destruct (Z.even (Qfloor r)); lia.
  - done.
  - assert (Hne : (Qfloor r < n)%Z) by (rewrite Zlt_Qlt; lra).
    lia.
Qed.

Lemma round_even_mono r1 r2 : r1 <= r2 -> (round_even r1 <= round_even r2)%Z.
Proof.
  intros Hr. pose proof (Qfloor_resp_le _ _ Hr) as Hf.
  destruct (Z.eq_dec (Qfloor r1) (Qfloor r2)) as [Heq|Hne].
  - unfold round_even. rewrite Heq.
    destruct (Qcompare_spec (r1 - inject_Z (Qfloor r2)) (1 # 2)) as [H1|H1|H1];
      destruct (Qcompare_spec (r2 - inject_Z (Qfloor r2)) (1 # 2)) as [H2|H2|H2];
      try lia; try (destruct (Z.even (Qfloor r2)); lia); exfalso; lra.
  - pose proof (round_even_floor r1) as [_ H1].
    pose proof (round_even_floor r2) as [H2 _]. lia.
Qed.

Lemma scaled_le x y c : x <= y -> x / 2 ^ c <= y / 2 ^ c.
Proof.
  intros Hxy. unfold Qdiv. apply Qmult_le_compat_r; [done|].
  apply Qlt_le_weak, Qinv_lt_0_compat, pow2_pos.
Qed.

Lemma scaled_pow2 a c : 2 ^ a / 2 ^ c == 2 ^ (a - c).
Proof.
  unfold Qdiv. rewrite <- Qpower_opp, <- pow2_add.
  by replace (a + - c)%Z with (a - c)%Z by lia.
Qed.

(** Rounding does not cross a power of two that is a number of the format. *)
Lemma round_pos_le_pow2 f x b :
  x <= 2 ^ b -> (ulp_exponent f x <= b)%Z -> round_pos f x <= 2 ^ b.
Proof.
  intros Hx Hc. unfold round_pos. set (c := ulp_exponent f x) in *.
  assert (Hr : (round_even (x / 2 ^ c) <= 2 ^ (b - c))%Z).
  { apply round_even_le. rewrite <- pow2_nonneg_Z by lia.
    rewrite <- scaled_pow2. by apply scaled_le. }
  rewrite Zle_Qle, <- pow2_nonneg_Z in Hr by lia.
  assert (Hb : 2 ^ b == 2 ^ (b - c) * 2 ^ c).
  { rewrite <- pow2_add. by replace (b - c + c)%Z with b by lia. }
  rewrite Hb. apply Qmult_le_compat_r; [done|apply Qlt_le_weak, pow2_pos].
Qed.

Lemma round_pos_ge_pow2 f x b :
  2 ^ b <= x -> (ulp_exponent f x <= b)%Z -> 2 ^ b <= round_pos f x.
Proof.
  intros Hx Hc. unfold round_pos. set (c := ulp_exponent f x) in *.
  assert (Hr : (2 ^ (b - c) <= round_even (x / 2 ^ c))%Z).
  { apply round_even_ge. rewrite <- pow2_nonneg_Z by lia.
    rewrite <- scaled_pow2. by apply scaled_le. }
  rewrite Zle_Qle, <- pow2_nonneg_Z in Hr by lia.
  assert (Hb : 2 ^ b == 2 ^ (b - c) * 2 ^ c).
  { rewrite <- pow2_add. by replace (b - c + c)%Z with b by lia. }
  rewrite Hb. apply Qmult_le_compat_r; [done|apply Qlt_le_weak, pow2_pos].
Qed.

Lemma round_pos_nonneg f x : 0 <= x -> 0 <= round_pos f x.
Proof.
  intros Hx. unfold round_pos. apply Qmult_le_0_compat; [|apply Qlt_le_weak, pow2_pos].
  change 0 with (inject_Z 0). rewrite <- Zle_Qle. apply round_even_ge.
  unfold Qdiv. apply Qmult_le_0_compat; [done|].
  apply Qlt_le_weak, Qinv_lt_0_compat, pow2_pos.
Qed.

(** Two positive numbers with the same unit in the last place are rounded
    on one grid; otherwise a power of two of the format lies between them,
    and neither rounding crosses it. *)
Lemma round_pos_mono f x y : 0 < x -> x <= y -> round_pos f x <= round_pos f y.
Proof.
  intros Hx Hxy.
  assert (Hy : 0 < y) by (eapply Qlt_le_trans; [exact Hx|exact Hxy]).
  pose proof (Qlog2_mono x y Hx Hxy) as He.
  destruct (Qlog2_spec x Hx) as [_ Hx2]. destruct (Qlog2_spec y Hy) as [Hy1 _].
  destruct (Z.eq_dec (ulp_exponent f x) (ulp_exponent f y)) as [Heq|Hne].
  - unfold round_pos. rewrite Heq.
    apply Qmult_le_compat_r; [|apply Qlt_le_weak, pow2_pos].
    rewrite <- Zle_Qle. by apply round_even_mono, scaled_le.
  - unfold ulp_exponent in Hne.
    apply Qle_trans with (2 ^ Qlog2 y).
    + apply round_pos_le_pow2.
      * apply Qlt_le_weak. eapply Qlt_le_trans; [exact Hx2|]. apply pow2_le. lia.
      * unfold ulp_exponent. lia.
    + apply round_pos_ge_pow2; [done|]. unfold ulp_exponent. lia.
Qed.

Lemma round_to_nonneg f x : 0 <= x -> 0 <= round_to f x.
Proof.
  intros Hx. unfold round_to. destruct (Qcompare_spec x 0) as [H0|H0|H0].
  - done.
  - exfalso. lra.
  - by apply round_pos_nonneg.
Qed.

Lemma round_to_nonpos f x : x <= 0 -> round_to f x <= 0.
Proof.
  intros Hx. unfold round_to. destruct (Qcompare_spec x 0) as [H0|H0|H0].
  - done.
  - pose proof (round_pos_nonneg f (- x)) as Hr. lra.
  - exfalso. lra.
Qed.

(** Rounding to nearest is monotone. *)
Lemma round_to_mono f x y : x <= y -> round_to f x <= round_to f y.
Proof.
  intros Hxy.
  destruct (Qlt_le_dec 0 x) as [Hx|Hx]; [|destruct (Qlt_le_dec y 0) as [Hy|Hy]].
  - unfold round_to.
    destruct (Qcompare_spec x 0) as [H0|H0|H0]; try (exfalso; lra).
    destruct (Qcompare_spec y 0) as [H1|H1|H1]; try (exfalso; lra).
    by apply round_pos_mono.
  - unfold round_to.
    destruct (Qcompare_spec x 0) as [H0|H0|H0]; try (exfalso; lra).
    destruct (Qcompare_spec y 0) as [H1|H1|H1]; try (exfalso; lra).
    apply Qopp_le_compat. apply round_pos_mono; lra.
  - apply Qle_trans with 0; [by apply round_to_nonpos|by apply round_to_nonneg].
Qed.

Lemma kernel_mono d x y : x <= y -> kernel d x <= kernel d y.
Proof. intros Hxy. unfold kernel. by do 2 apply round_to_mono. Qed.

Lemma kernel_nonneg d x : 0 <= x -> 0 <= kernel d x.
Proof. intros Hx. unfold kernel. by do 2 apply round_to_nonneg. Qed.

Lemma scalar_operand_nonneg d c : 0 <= float_value c -> 0 <= scalar_operand d c.
Proof. apply round_to_nonneg. Qed.

(** The entry of a smoothed label grows with the draw. *)
Lemma positive_entry_mono d l u1 u2 :
  u1 <= u2 -> positive_entry d l u1 <= positive_entry d l u2.
Proof.
  intros Hu. unfold positive_entry. apply kernel_mono.
  apply Qplus_le_r, kernel_mono, Qmult_le_compat_r; [done|].
  by apply scalar_operand_nonneg.
Qed.

Lemma negative_entry_mono d l u1 u2 :
  u1 <= u2 -> negative_entry d l u1 <= negative_entry d l u2.
Proof.
  intros Hu. unfold negative_entry. apply kernel_mono.
  apply Qplus_le_r, kernel_mono, Qmult_le_compat_r; [done|].
  by apply scalar_operand_nonneg.
Qed.

Lemma negative_entry_nonneg d u : 0 <= u -> 0 <= negative_entry d 0 u.
Proof.
  intros Hu. unfold negative_entry. apply kernel_nonneg.
  rewrite Qplus_0_l. apply kernel_nonneg, Qmult_le_0_compat; [done|].
  by apply scalar_operand_nonneg.
Qed.

End Rounding.

(** The rounding agrees with the binary64 arithmetic of the kernel on the
    sums of the smoothing. *)
Example round_to_binary64 :
  (round_to binary64 (1 - float_value 0x1.3333333333333p-2)
   == float_value (1 - 0x1.3333333333333p-2)%float)%Q /\
  (round_to binary64 (float_value 0x1.6666666666666p-1 + float_value 0.5)
   == float_value (0x1.6666666666666p-1 + 0.5)%float)%Q /\
  (round_to binary64 (1 # 3) == float_value (1 / 3)%float)%Q /\
  (round_to binary64 (float_value 0x1.3333333333333p-2 * float_value 0x1.fffffffffffffp-1)
   == float_value (0x1.3333333333333p-2 * 0x1.fffffffffffffp-1)%float)%Q.
Proof. vm_compute. done. Qed.

(** ** Label smoothing *)

Section Smoothing.
Context `{Torch}.

(** [torch.rand] draws from the interval [0, 1): the numbers of the dtype
    from 0 to the largest one below 1, [top]. *)
Variable top : Q.
Hypothesis rand_uniform_range :
  forall g, (0 <= (rand_uniform g).1)%Q /\ ((rand_uniform g).1 <= top)%Q.

Lemma draw_length next n g : length (draw next n g).1 = n.
Proof.
  revert g. induction n as [|n IH]; intros g; simpl; [done|].
  destruct (next g) as [x g1]. specialize (IH g1).
  destruct (draw next n g1) as [xs g2]. simpl in *. by rewrite IH.
Qed.

Lemma draw_uniform_range n g :
  Forall (fun x => (0 <= x)%Q /\ (x <= top)%Q) (draw rand_uniform n g).1.
Proof.
  revert g. induction n as [|n IH]; intros g; simpl; [constructor|].
  pose proof (rand_uniform_range g) as Hx.
  destruct (rand_uniform g) as [x g1]. specialize (IH g1).
  destruct (draw rand_uniform n g1) as [xs g2]. simpl in *. by constructor.
Qed.

Lemma rand_like_returns t e :
  exists r e', rand_like t e = Ok (r, e') /\ shape r = shape t /\
    length (data r) = length (data t) /\
    Forall (fun x => (0 <= x)%Q /\ (x <= top)%Q) (data r).
Proof.
  unfold rand_like, with_rng.
  pose proof (draw_length rand_uniform (length (data t)) (rng e)) as Hl.
  pose proof (draw_uniform_range (length (data t)) (rng e)) as Hr.
  destruct (draw rand_uniform (length (data t)) (rng e)) as [xs g'].
  eexists _, _. split; [reflexivity|]. simpl in *. done.
Qed.

(** Both functions work entry by entry. *)
Lemma smooth_positive_labels_entries label noise e e' :
  rand_like label e = Ok (noise, e') ->
  Utils.smooth_positive_labels label e
  = Ok (Tensor (shape label)
          (zip_with (positive_entry label_dtype) (data label) (data noise)), e').
Proof.
  intros Hr. unfold Utils.smooth_positive_labels, bind, ret. rewrite Hr.
  unfold labels_add, labels_sub_scalar, labels_mul_scalar, tensor_map. simpl. do 3 f_equal.
  generalize (data noise). induction (data label) as [|l ls IH]; intros [|u us]; simpl;
    [done|done|done|]. by rewrite IH.
Qed.

Lemma smooth_negative_labels_entries label noise e e' :
  rand_like label e = Ok (noise, e') ->
  Utils.smooth_negative_labels label e
  = Ok (Tensor (shape label)
          (zip_with (negative_entry label_dtype) (data label) (data noise)), e').
Proof.
  intros Hr. unfold Utils.smooth_negative_labels, bind, ret. rewrite Hr.
  unfold labels_add, labels_mul_scalar, tensor_map. simpl. do 3 f_equal.
  generalize (data noise). induction (data label) as [|l ls IH]; intros [|u us]; simpl;
    [done|done|done|]. by rewrite IH.
Qed.

Lemma zip_with_constant (entry : Q -> Q -> Q) (c lo hi : Q) n xs :
  length xs = n ->
  Forall (fun x => (0 <= x)%Q /\ (x <= top)%Q) xs ->
  (forall x, (0 <= x)%Q -> (x <= top)%Q -> (lo <= entry c x)%Q /\ (entry c x <= hi)%Q) ->
  Forall (fun y => (lo <= y)%Q /\ (y <= hi)%Q) (zip_with entry (replicate n c) xs).
Proof.
  intros Hn Hxs Hb. revert n Hn.
  induction Hxs as [|x xs [Hx0 Hx1] _ IH]; intros n Hn; destruct n; simpl in *; try done.
  constructor; [by apply Hb | apply IH; lia].
Qed.

(** C3, as the code computes it: for a tensor of any shape filled with 1,
    every entry of [smooth_positive_labels] lies between the value the
    formula [label - 0.3 + u * 0.5] takes at the draw 0 and the value it
    takes at the largest draw, each operation rounded to the dtype of the
    labels, both ends included; for a tensor filled with 0, every entry of
    [smooth_negative_labels] lies between 0 and the value of
    [label + u * 0.3] at the largest draw.  Both calls return a tensor of
    the shape of their argument. *)
Theorem smooth_labels_bounds (sh : list nat) (e : env) :
  (exists t e', Utils.smooth_positive_labels (full sh 1) e = Ok (t, e') /\
     shape t = sh /\ length (data t) = numel sh /\
     Forall (fun y => (positive_entry label_dtype 1 0 <= y)%Q /\
                      (y <= positive_entry label_dtype 1 top)%Q) (data t)) /\
  (exists t e', Utils.smooth_negative_labels (full sh 0) e = Ok (t, e') /\
     shape t = sh /\ length (data t) = numel sh /\
     Forall (fun y => (0 <= y)%Q /\ (y <= negative_entry label_dtype 0 top)%Q) (data t)).
Proof.
  split.
  - destruct (rand_like_returns (full sh 1) e) as (r & e' & Hr & Hs & Hl & Hin).
    eexists _, e'. split; [by apply smooth_positive_labels_entries|].
    simpl in *. rewrite length_replicate in Hl.
    split; [done|]. split.
    + rewrite length_zip_with, length_replicate. lia.
    + apply zip_with_constant; [done|done|].
      intros x Hx0 Hx1. split; by apply positive_entry_mono.
  - destruct (rand_like_returns (full sh 0) e) as (r & e' & Hr & Hs & Hl & Hin).
    eexists _, e'. split; [by apply smooth_negative_labels_entries|].
    simpl in *. rewrite length_replicate in Hl.
    split; [done|]. split.
    + rewrite length_zip_with, length_replicate. lia.
    + apply zip_with_constant; [done|done|].
      intros x Hx0 Hx1. split; [by apply negative_entry_nonneg|by apply negative_entry_mono].
Qed.

End Smoothing.

Lemma toy_uniform_range :
  forall g, (0 <= (@rand_uniform toy g).1)%Q /\ ((@rand_uniform toy g).1 <= below_one binary64)%Q.
Proof.
  intros g. simpl. unfold Qle. simpl.
  pose proof (Nat.mod_upper_bound g 4). lia.
Qed.

Lemma smooth_labels_bounds_witness :
  (exists t e', Utils.smooth_positive_labels (full [2%nat; 3%nat] 1) toy_env = Ok (t, e') /\
     shape t = [2%nat; 3%nat] /\ length (data t) = numel [2%nat; 3%nat] /\
     Forall (fun y => (positive_entry float64 1 0 <= y)%Q /\
                      (y <= positive_entry float64 1 (below_one binary64))%Q) (data t)) /\
  (exists t e', Utils.smooth_negative_labels (full [2%nat; 3%nat] 0) toy_env = Ok (t, e') /\
     shape t = [2%nat; 3%nat] /\ length (data t) = numel [2%nat; 3%nat] /\
     Forall (fun y => (0 <= y)%Q /\ (y <= negative_entry float64 0 (below_one binary64))%Q) (data t)).
Proof. exact (smooth_labels_bounds (below_one binary64) toy_uniform_range [2%nat; 3%nat] toy_env). Defined.

(** The ends in the three dtypes, each with the largest draw of its
    format: in float64 and float32 the lower end of the positive labels is
    below 7/10, in float16 their upper end is 1.2001953125; the entries of
    the negative labels stay below 3/10 in all three. *)
Example smoothing_ends :
  (positive_entry float64 1 0 == 3152519739159347 # 4503599627370496)%Q /\
  (positive_entry float64 1 (below_one binary64) == 5404319552844595 # 4503599627370496)%Q /\
  (negative_entry float64 0 (below_one binary64) == 2702159776422297 # 9007199254740992)%Q /\
  (positive_entry float32 1 0 == 11744051 # 16777216)%Q /\
  (positive_entry float32 1 (below_one binary32) == 10066329 # 8388608)%Q /\
  (negative_entry float32 0 (below_one binary32) == 10066329 # 33554432)%Q /\
  (positive_entry float16 1 0 == 717 # 1024)%Q /\
  (positive_entry float16 1 (below_one binary16) == 1229 # 1024)%Q /\
  (negative_entry float16 0 (below_one binary16) == 307 # 1024)%Q.
Proof. vm_compute. done. Qed.

(** With the draws 0, 1/4, 1/2, 3/4, 0, 1/4 a 2x3 float64 tensor of ones
    becomes the doubles next to 0.7, 0.825, 0.95, 1.075, 0.7, 0.825. *)
Example smooth_positive_labels_2x3 :
  match Utils.smooth_positive_labels (full [2%nat; 3%nat] 1) toy_env with
  | Ok (t, _) =>
      shape t = [2%nat; 3%nat] /\
      Forall2 Qeq (data t)
        (map float_value
           [0x1.6666666666666p-1; 0x1.a666666666666p-1; 0x1.e666666666666p-1;
            0x1.1333333333333p+0; 0x1.6666666666666p-1; 0x1.a666666666666p-1]%float)
  | Raise _ => False
  end.
Proof. vm_compute. split; [done|]. repeat constructor. Qed.

(** In binary64 the draw 0 takes the label 1 to the double [1 - 0.3], which
    is below 7/10: the lower end of the interval [0.7, 1.2) is not kept. *)
Lemma smooth_labels_bounds_counterexample :
  match Utils.smooth_positive_labels (full [1%nat] 1) toy_env with
  | Ok (t, _) => ~ Forall (fun y => (7 # 10 <= y)%Q /\ (y < 12 # 10)%Q) (data t)
  | Raise _ => False
  end.
Proof.
  vm_compute. intros Hall. apply Forall_inv in Hall as [Hlow _]. by apply Hlow.
Qed.

(** ** Weight initialization *)

Section InitWeights.
Context `{Torch}.

Lemma normal_returns w e :
  normal_ w 0 (2 # 100) e = Ok (resampled w e, after_draws w e).
Proof.
  unfold normal_, with_rng, resampled, after_draws.
  by destruct (draw randn (length (data w)) (rng e)).
Qed.

(** C5: [init_weights] redraws the weight of a submodule from the normal
    distribution with mean 0 and standard deviation 0.02 when the class of
    the submodule is exactly [Conv2d] or exactly [ConvTranspose2d]; a
    submodule of any other class, a class derived from these two included,
    is returned as it is and nothing is drawn; no attribute other than
    ["weight"] (so no bias) changes in any case. *)
Theorem init_weights_selective (m : layer) (e : env) :
  (exact_conv (layer_type m) = true ->
   forall w, layer_params m !! "weight" = Some w ->
     Utils.init_weights m e
       = Ok (Layer (layer_type m) (<["weight" := resampled w e]> (layer_params m)),
             after_draws w e)) /\
  (exact_conv (layer_type m) = false -> Utils.init_weights m e = Ok (m, e)) /\
  (forall name base,
     layer_type m = Subclass name base ->
     exact_conv (layer_type m) = false /\ Utils.init_weights m e = Ok (m, e)) /\
  (forall name,
     issubclass (Subclass name Conv2d) Conv2d = true /\
     issubclass (Subclass name ConvTranspose2d) ConvTranspose2d = true) /\
  (forall m' e', Utils.init_weights m e = Ok (m', e') ->
     layer_type m' = layer_type m /\
     forall k, k <> "weight" -> layer_params m' !! k = layer_params m !! k).
Proof.
  unfold Utils.init_weights, exact_conv.
  split; [|split; [|split; [|split]]].
  - intros -> w ->. unfold bind. by rewrite normal_returns.
  - by intros ->.
  - intros name base ->. done.
  - intros name. split; reflexivity.
  - intros m' e'.
    destruct (bool_decide (layer_type m = Conv2d) || bool_decide (layer_type m = ConvTranspose2d)).
    + destruct (layer_params m !! "weight") as [w|]; [|done].
      unfold bind. rewrite normal_returns. intros [= <- <-]. simpl.
      split; [done|]. intros k Hk. by apply lookup_insert_ne.
    + by intros [= <- <-].
Qed.

End InitWeights.

Lemma init_weights_selective_witness :
  let conv := Layer Conv2d
                (<["weight" := Tensor [2%nat] [1%Q; 1%Q]]>
                   (<["bias" := Tensor [1%nat] [9%Q]]> ∅)) in
  Utils.init_weights (H:=toy) conv toy_env
  = Ok (Layer Conv2d
          (<["weight" := resampled (Tensor [2%nat] [1%Q; 1%Q]) toy_env]> (layer_params conv)),
        after_draws (Tensor [2%nat] [1%Q; 1%Q]) toy_env).
Proof.
  intros conv.
  exact (proj1 (init_weights_selective (H:=toy) conv toy_env) eq_refl
           (Tensor [2%nat] [1%Q; 1%Q]) eq_refl).
Defined.

(** A convolution gets new weights and keeps its bias; a normalization
    layer and a class derived from [Conv2d] keep everything. *)
Example init_weights_on_three_layers :
  let params : gmap string tensor :=
    <["weight" := Tensor [2%nat] [1%Q; 1%Q]]> (<["bias" := Tensor [1%nat] [9%Q]]> ∅) in
  (match Utils.init_weights (H:=toy) (Layer ConvTranspose2d params) toy_env with
   | Ok (m', _) =>
       layer_params m' !! "weight"
         = Some (Tensor [2%nat] [(0 + (2 # 100) * (0 - 2 # 1))%Q; (0 + (2 # 100) * (1 - 2 # 1))%Q]) /\
       layer_params m' !! "bias" = Some (Tensor [1%nat] [9%Q])
   | Raise _ => False
   end) /\
  Utils.init_weights (H:=toy) (Layer BatchNorm2d params) toy_env
    = Ok (Layer BatchNorm2d params, toy_env) /\
  Utils.init_weights (H:=toy) (Layer (Subclass "MyConv" Conv2d) params) toy_env
    = Ok (Layer (Subclass "MyConv" Conv2d) params, toy_env).
Proof. vm_compute. repeat split. Qed.

(** ** Loading the data sets *)

Section Manifest.
Context `{Torch}.

Lemma getitem_mask_filter (p : nat * row -> bool) (df : dataframe) :
  TrainUtp.getitem_mask df (map p df) = List.filter p df.
Proof.
  induction df as [|r df IH]; simpl; [done|].
  rewrite IH. done.
Qed.

Lemma kept_rows_filter df :
  TrainUtp.copy (TrainUtp.getitem_mask df (TrainUtp.grade_ge df 0))
  = List.filter grade_nonneg df.
Proof. apply (getitem_mask_filter grade_nonneg). Qed.

Lemma filter_sublist {A} (p : A -> bool) (l : list A) : sublist (List.filter p l) l.
Proof.
  induction l as [|x l IH]; simpl; [constructor|].
  destruct (p x); by constructor.
Qed.

Lemma load_manifest_returns name rows e :
  fs e !! TrainUtp.path_join TrainUtp.path name = Some (CsvFile rows) ->
  TrainUtp.load_manifest name e
    = Ok (List.filter grade_nonneg (imap (fun i r => (i, r)) rows), e).
Proof.
  intros Hf. unfold TrainUtp.load_manifest, TrainUtp.read_csv, read_file, bind.
  rewrite Hf. unfold ret. by rewrite kept_rows_filter.
Qed.

Lemma load_manifest_inv name e df e' :
  TrainUtp.load_manifest name e = Ok (df, e') ->
  e' = e /\ exists rows,
    fs e !! TrainUtp.path_join TrainUtp.path name = Some (CsvFile rows) /\
    df = List.filter grade_nonneg (imap (fun i r => (i, r)) rows).
Proof.
  unfold TrainUtp.load_manifest, TrainUtp.read_csv, read_file, bind, ret, raise.
  destruct (fs e !! TrainUtp.path_join TrainUtp.path name) as [[c|t|rows]|] eqn:Hf; try done.
  intros [= <- <-]. split; [done|]. exists rows. by rewrite kept_rows_filter.
Qed.

Lemma transform_train_inv utils e p e' :
  TrainUtp.transform_train utils e = Ok (p, e') -> e' = e.
Proof.
  unfold TrainUtp.transform_train, TrainUtp.getattr, TrainUtp.call_class, bind, ret, raise.
  destruct (utils !! "RandomRotate90") as [[?|?|?]|]; try done.
  by intros [= _ <-].
Qed.

(** C6: [df[df.grade >= 0].copy()] keeps exactly the rows whose grade is
    present and at least 0, in their order and with their index labels; on
    the grades -1, 0, 2, -5, 3 it keeps the rows 1, 2, 4 with the grades 0,
    2, 3.  Both manifests are read through this filter, and whenever
    [load_dataset_UTP] returns, the training and the test data set hold the
    filtered rows of [train.csv] and of [test.csv]. *)
Theorem grade_filter_keeps_nonneg :
  (forall df : dataframe,
     let kept := TrainUtp.copy (TrainUtp.getitem_mask df (TrainUtp.grade_ge df 0)) in
     kept = List.filter grade_nonneg df /\
     (forall ir, In ir kept <-> In ir df /\ exists g, grade ir.2 = Some g /\ (0 <= g)%Z) /\
     sublist kept df) /\
  (let df := imap (fun i r => (i, r)) sample_rows in
   map (fun ir : nat * row => (ir.1, grade ir.2))
     (TrainUtp.copy (TrainUtp.getitem_mask df (TrainUtp.grade_ge df 0)))
   = [(1%nat, Some 0%Z); (2%nat, Some 2%Z); (4%nat, Some 3%Z)]) /\
  (forall name rows e,
     name = "train.csv" \/ name = "test.csv" ->
     fs e !! TrainUtp.path_join TrainUtp.path name = Some (CsvFile rows) ->
     TrainUtp.load_manifest name e
       = Ok (List.filter grade_nonneg (imap (fun i r => (i, r)) rows), e)) /\
  (forall utils cfg e train_loader test_loader e',
     TrainUtp.load_dataset_UTP utils cfg e = Ok ((train_loader, test_loader), e') ->
     exists train_rows test_rows,
       fs e !! TrainUtp.path_join TrainUtp.path "train.csv" = Some (CsvFile train_rows) /\
       fs e !! TrainUtp.path_join TrainUtp.path "test.csv" = Some (CsvFile test_rows) /\
       ds_df (dl_dataset train_loader)
         = List.filter grade_nonneg (imap (fun i r => (i, r)) train_rows) /\
       ds_df (dl_dataset test_loader)
         = List.filter grade_nonneg (imap (fun i r => (i, r)) test_rows)).
Proof.
  split; [|split; [|split]].
  - intros df kept. subst kept. rewrite kept_rows_filter.
    split; [done|]. split; [|apply filter_sublist].
    intros ir. rewrite filter_In. unfold grade_nonneg.
    split.
    + intros [Hin Hg]. split; [done|].
      destruct (grade ir.2) as [g|]; [|done]. exists g. split; [done|]. lia.
    + intros [Hin (g & -> & Hg)]. split; [done|]. lia.
  - reflexivity.
  - intros name rows e _. apply load_manifest_returns.
  - intros utils cfg e train_loader test_loader e' Hload.
    unfold TrainUtp.load_dataset_UTP in Hload.
    apply bind_Ok in Hload as (p & e1 & Hp & Hload).
    apply transform_train_inv in Hp as ->.
    apply bind_Ok in Hload as (df1 & e1 & H1 & Hload).
    apply load_manifest_inv in H1 as [-> (rows1 & Hf1 & ->)].
    apply bind_Ok in Hload as (df2 & e2 & H2 & Hload).
    apply load_manifest_inv in H2 as [-> (rows2 & Hf2 & ->)].
    injection Hload as <- <- <-. by exists rows1, rows2.
Qed.

Lemma load_dataset_UTP_raises cfg e :
  TrainUtp.load_dataset_UTP Utils.attributes cfg e
    = Raise (AttributeError "utils" "RandomRotate90").
Proof.
  unfold TrainUtp.load_dataset_UTP. apply bind_Raise.
  unfold TrainUtp.transform_train. apply bind_Raise.
  unfold TrainUtp.getattr.
  replace (Utils.attributes !! "RandomRotate90") with (@None pyobj)
    by (vm_compute; reflexivity).
  done.
Qed.

(** C2: the training transform is meant to be the composition of a center
    crop to 256, a random horizontal flip, a random vertical flip and a
    random quarter-turn rotation, and so it is wherever the module [utils]
    provides [RandomRotate90]; the module [utils] of this repository does
    not define that name, so building the transform raises
    [AttributeError], and with it [load_dataset_UTP], in every run. *)
Theorem load_dataset_UTP_raises_AttributeError (cfg : config) (e : env) :
  Utils.attributes !! "RandomRotate90" = None /\
  TrainUtp.transform_train Utils.attributes e
    = Raise (AttributeError "utils" "RandomRotate90") /\
  TrainUtp.load_dataset_UTP Utils.attributes cfg e
    = Raise (AttributeError "utils" "RandomRotate90") /\
  TrainUtp.transform_train
    (<["RandomRotate90" := PyTransformClass RandomRotate90]> Utils.attributes) e
    = Ok (Compose [CenterCrop 256; RandomHorizontalFlip; RandomVerticalFlip; RandomRotate90], e).
Proof.
  assert (Hnone : Utils.attributes !! "RandomRotate90" = None) by (vm_compute; reflexivity).
  split; [done|]. split; [|split].
  - unfold TrainUtp.transform_train, TrainUtp.getattr, bind. by rewrite Hnone.
  - unfold TrainUtp.load_dataset_UTP. apply bind_Raise.
    unfold TrainUtp.transform_train, TrainUtp.getattr, bind. by rewrite Hnone.
  - unfold TrainUtp.transform_train, TrainUtp.getattr, bind.
    by rewrite lookup_insert_eq.
Qed.

(** With the module [utils] as it is, [main] never gets past the loading
    of the data sets. *)
Lemma main_never_returns cfg e : is_ok (TrainUtp.main Utils.attributes cfg e) = false.
Proof.
  unfold TrainUtp.main.
  do 7 (apply bind_not_ok; intros ? ?).
  unfold bind. by rewrite load_dataset_UTP_raises.
Qed.

End Manifest.

Lemma grade_filter_keeps_nonneg_witness :
  TrainUtp.load_manifest "train.csv" sample_env
  = Ok (List.filter grade_nonneg (imap (fun i r => (i, r)) sample_rows), sample_env).
Proof.
  exact (proj1 (proj2 (proj2 (grade_filter_keeps_nonneg (H:=toy))))
           "train.csv" sample_rows sample_env (or_introl eq_refl) eq_refl).
Defined.

(** A missing grade is dropped like a negative one. *)
Example missing_grade_is_dropped :
  let df := imap (fun i r => (i, r)) [Row (Some 1%Z) []; Row None []; Row (Some 0%Z) []] in
  map fst (TrainUtp.copy (TrainUtp.getitem_mask df (TrainUtp.grade_ge df 0)))
  = [0%nat; 2%nat].
Proof. reflexivity. Qed.

(** ** One epoch of training *)

Section Training.
Context `{Torch}.

Lemma yields_smooth_positive label e P :
  yields (Utils.smooth_positive_labels label) e P (fun _ => True).
Proof.
  unfold Utils.smooth_positive_labels, rand_like.
  eapply yields_bind; [apply yields_with_rng|]. intros r e1 _. by apply yields_ret.
Qed.

Lemma yields_smooth_negative label e P :
  yields (Utils.smooth_negative_labels label) e P (fun _ => True).
Proof.
  unfold Utils.smooth_negative_labels, rand_like.
  eapply yields_bind; [apply yields_with_rng|]. intros r e1 _. by apply yields_ret.
Qed.

Lemma yields_scaler_step who s opt m grads e (P : event -> Prop) :
  P (ScalerStep who) ->
  yields (TrainUtp.scaler_step_opt who s opt m grads) e P
    (fun r => training r.2 = training m).
Proof.
  intros HP. unfold TrainUtp.scaler_step_opt.
  eapply yields_bind; [by apply yields_emit|]. intros _ e1 _.
  destruct (scaler_step s opt (parameters m) grads) as [[s' opt'] p].
  by apply yields_ret.
Qed.

(** A step returns, keeps the modes of both networks, and calls the
    networks in the modes it found them in. *)
Lemma train_batch_yields cfg l1_loss bce idx b t e :
  yields (TrainUtp.train_batch cfg l1_loss bce idx b t) e
    (step_event (training (t_gen t)) (training (t_disc t)))
    (fun r => training (t_gen r.2) = training (t_gen t) /\
              training (t_disc r.2) = training (t_disc t)).
Proof.
  destruct b as [image_real mask]. unfold TrainUtp.train_batch.
  eapply yields_bind; [by apply yields_call_gen|]. intros [image_fake gen] e1 Hg. simpl in Hg.
  eapply yields_bind; [by apply yields_call_disc|]. intros [d_real disc] e2 Hd. simpl in Hd.
  eapply yields_bind.
  { apply yields_if; [apply yields_smooth_positive | by apply yields_ret]. }
  intros target e3 _.
  eapply yields_bind; [apply yields_call_disc; simpl; congruence|].
  intros [d_fake disc2] e4 Hd2. simpl in Hd2.
  eapply yields_bind.
  { apply yields_if; [apply yields_smooth_negative | by apply yields_ret]. }
  intros target' e5 _.
  unfold TrainUtp.opt_zero_grad, TrainUtp.scaler_scale_backward, TrainUtp.scaler_update_,
    TrainUtp.set_postfix.
  eapply yields_bind; [by apply yields_logged|]. intros grads e6 _.
  eapply yields_bind; [by apply yields_logged|]. intros [d_scaler grads2] e7 _.
  eapply yields_bind; [by apply yields_scaler_step|].
  intros [[d_scaler2 opt_disc] disc3] e8 Hd3. simpl in Hd3.
  eapply yields_bind; [by apply yields_logged|]. intros d_scaler3 e9 _.
  eapply yields_bind; [apply yields_call_disc; simpl; congruence|].
  intros [d_fake2 disc4] e10 Hd4. simpl in Hd4.
  eapply yields_bind; [by apply yields_logged|]. intros grads3 e11 _.
  eapply yields_bind; [by apply yields_logged|]. intros [g_scaler grads4] e12 _.
  eapply yields_bind; [by apply yields_scaler_step|].
  intros [[g_scaler2 opt_gen] gen2] e13 Hg2. simpl in Hg2.
  eapply yields_bind; [by apply yields_logged|]. intros g_scaler3 e14 _.
  eapply yields_bind.
  { apply yields_if; [by apply yields_emit | by apply yields_ret]. }
  intros _ e15 _.
  apply yields_ret. simpl. split; congruence.
Qed.



(** *** The pairwise sum *)









(** Cutting never runs out of fuel that is at least the length. *)
Lemma pairwise_sum_fuel {T} (add : T -> T -> T) zero fuel1 : forall fuel2 a,
  (length a <= fuel1)%nat -> (length a <= fuel2)%nat ->
  pairwise_sum add zero fuel1 a = pairwise_sum add zero fuel2 a.
Proof.
  induction fuel1 as [|fuel1 IH]; intros [|fuel2] a H1 H2; cbn [pairwise_sum];
    destruct (Nat.ltb_spec (length a) 8) as [H8|H8]; try done;
    destruct (Nat.leb_spec (length a) 128) as [H128|H128]; try done; try lia.
  pose proof (Nat.div_mod_eq (length a) 2) as Hhalf.
  pose proof (Nat.mod_upper_bound (length a) 2) as Hpar.
  pose proof (Nat.mod_upper_bound (length a / 2) 8) as Hmod.
  f_equal; apply IH; rewrite ?length_firstn, ?length_skipn; lia.
Qed.

(** Fewer than eight values are added from left to right. *)
Lemma pairwise_sum_short {T} (add : T -> T -> T) zero fuel l :
  (length l < 8)%nat -> pairwise_sum add zero fuel l = fold_left add l zero.
Proof.
  intros Hl. destruct fuel; cbn [pairwise_sum];
    (destruct (Nat.ltb_spec (length l) 8); [done|lia]).
Qed.

Lemma mean_with_short {T} (add div : T -> T -> T) zero count l :
  (length l < 8)%nat ->
  mean_with add div zero count l
  = div (add zero (fold_left add l zero)) (count (length l)).
Proof. intros Hl. unfold mean_with. by rewrite pairwise_sum_short. Qed.


(** C9: on a loader without batches [train_fn] returns, each of the three
    means is NaN, the state of the process is the one it started from (no
    call was logged, nothing drawn), and optimizers, scalers and gradient
    buffers are the ones passed in. *)
Theorem train_fn_empty_loader cfg (t : trainer)
    (l1_loss bce : tensor -> tensor -> tensor) (e : env) :
  exists g_adv g_l1 d t',
    TrainUtp.train_fn cfg t [] l1_loss bce e = Ok ((g_adv, g_l1, d, t'), e) /\
    PrimFloat.is_nan g_adv = true /\
    PrimFloat.is_nan g_l1 = true /\
    PrimFloat.is_nan d = true /\
    t_opt_gen t' = t_opt_gen t /\ t_opt_disc t' = t_opt_disc t /\
    t_g_scaler t' = t_g_scaler t /\ t_d_scaler t' = t_d_scaler t /\
    t_grads t' = t_grads t.
Proof.
  exists (np_mean []), (np_mean []), (np_mean []), (TrainUtp.set_train t).
  repeat split; reflexivity.
Qed.

Lemma train_loop_yields cfg l1_loss bce loader :
  forall idx t h e,
  training (t_gen t) = true -> training (t_disc t) = true ->
  yields (TrainUtp.train_loop cfg l1_loss bce idx loader t h) e
    (step_event true true)
    (fun r => training (t_gen r.2) = true /\ training (t_disc r.2) = true).
Proof.
  induction loader as [|b rest IH]; intros idx t h e Hg Hd; simpl.
  - by apply yields_ret.
  - eapply yields_bind.
    + pose proof (train_batch_yields cfg l1_loss bce idx b t e) as Hb.
      rewrite Hg, Hd in Hb. exact Hb.
    + intros [s t1] e1 [Hg1 Hd1]. simpl in *. by apply IH.
Qed.

Lemma train_fn_yields cfg t loader l1_loss bce e :
  yields (TrainUtp.train_fn cfg t loader l1_loss bce) e
    (step_event true true)
    (fun r => training (t_gen r.2) = true /\ training (t_disc r.2) = true).
Proof.
  unfold TrainUtp.train_fn.
  eapply yields_bind; [by apply train_loop_yields|].
  intros [h t1] e1 Hm. by apply yields_ret.
Qed.

(** C10: whatever modes the two networks are in when [train_fn] is called,
    both are in training mode before the first batch; every forward pass of
    the call runs in training mode, and both networks are in training mode
    when it returns. *)
Theorem train_fn_sets_training_mode cfg (t : trainer) (loader : list batch)
    (l1_loss bce : tensor -> tensor -> tensor) (e : env) :
  training (t_gen (TrainUtp.set_train t)) = true /\
  training (t_disc (TrainUtp.set_train t)) = true /\
  exists r t' e' evs,
    TrainUtp.train_fn cfg t loader l1_loss bce e = Ok ((r, t'), e') /\
    out e' = out e ++ evs /\
    Forall (forward_in_mode true) evs /\
    training (t_gen t') = true /\ training (t_disc t') = true.
Proof.
  split; [done|]. split; [done|].
  destruct (train_fn_yields cfg t loader l1_loss bce e)
    as ([r t'] & e' & evs & Hfn & Hout & Hev & Hg & Hd).
  exists r, t', e', evs. repeat split; try done.
  eapply Forall_impl; [exact Hev|].
  intros ev Hstep who m ->. by destruct who.
Qed.

End Training.

(** Three batches whose steps record 2, 4, 6 (adversarial), 200, 400, 600
    (L1) and 3, 5, 7 (discriminator): the means are 4, 400 and 5.  The
    networks start in evaluation mode; each step makes four forward passes,
    all in training mode. *)
Example train_fn_three_batches :
  let r := TrainUtp.train_fn (H:=toy) toy_config toy_trainer toy_batches
             (@l1_criterion toy) (@bce_with_logits toy) toy_env in
  losses_of r = Some (4%float, 400%float, 5%float) /\
  match r with
  | Ok (_, t', e') =>
      training (t_gen t') = true /\ training (t_disc t') = true /\
      List.filter (fun ev => match ev with Forward _ _ => true | _ => false end) (out e')
      = [Forward Gen true; Forward Disc true; Forward Disc true; Forward Disc true;
         Forward Gen true; Forward Disc true; Forward Disc true; Forward Disc true;
         Forward Gen true; Forward Disc true; Forward Disc true; Forward Disc true]
  | Raise _ => False
  end.
Proof. vm_compute. repeat split. Qed.

(** Ten values 0.1: the eight running sums, added in pairs, and the two
    values left give the mean 0.1; added from left to right the ten values
    would give 0.09999999999999999. *)
Example np_mean_ten_tenths :
  let tenth := 0x1.999999999999ap-4%float in
  np_mean (repeat tenth 10) = tenth /\
  PrimFloat.div (fold_left PrimFloat.add (repeat tenth 10) 0%float) 10%float
  = 0x1.9999999999999p-4%float.
Proof. vm_compute. done. Qed.

Example train_fn_no_batches :
  losses_of (TrainUtp.train_fn (H:=toy) toy_config toy_trainer []
               (@l1_criterion toy) (@bce_with_logits toy) toy_env)
  = Some (PrimFloat.nan, PrimFloat.nan, PrimFloat.nan).
Proof. vm_compute. reflexivity. Qed.

(** ** Inference-only routines *)

Section Inference.
Context `{Torch}.

Lemma save_some_examples_empty gen epoch folder e :
  Utils.save_some_examples gen [] epoch folder e = Raise StopIteration.
Proof.
  unfold Utils.save_some_examples, path_exists, bind. simpl.
  by destruct (bool_decide (folder ∈ dirs e) || bool_decide (is_Some (fs e !! folder))).
Qed.

Lemma save_some_examples_trace gen (b : batch) rest epoch folder e :
  exists gen' e',
    Utils.save_some_examples gen (b :: rest) epoch folder e = Ok (gen', e') /\
    training gen' = true /\
    out e' = out e ++
      Forward Gen false ::
      SaveImage (folder +:+ "/y_gen_" +:+ pretty epoch +:+ ".png") ::
      (if (epoch =? 0)%Z
       then [SaveImage (folder +:+ "/label_" +:+ pretty epoch +:+ ".png")]
       else []).
Proof.
  destruct b as [image_real mask].
  unfold Utils.save_some_examples, path_exists, call_gen, save_image, write_file,
    makedirs, with_rng, emit, bind, ret. simpl.
  destruct (bool_decide (folder ∈ dirs e) || bool_decide (is_Some (fs e !! folder))); simpl;
    destruct (gen_forward false (parameters gen) mask (rng e)) as [[y p] g]; simpl;
    destruct (epoch =? 0)%Z; simpl;
    eexists _, _; (split; [reflexivity|]); simpl; rewrite <- ?app_assoc; done.
Qed.

Lemma log_batches_yields loader :
  forall gen idx_batch batch_to_log images e,
  training gen = false ->
  yields (TrainUtp.log_batches gen loader idx_batch batch_to_log images) e
    eval_event (fun r => training r.2 = false).
Proof.
  induction loader as [|[images_real masks] rest IH];
    intros gen idx_batch batch_to_log images e Hmode; simpl.
  - by apply yields_ret.
  - eapply yields_bind; [apply yields_call_gen; simpl; by rewrite Hmode|].
    intros [fakes gen1] e1 Hg. simpl in Hg.
    destruct (idx_batch + 1 =? batch_to_log)%Z.
    + apply yields_ret. simpl. congruence.
    + apply IH. congruence.
Qed.

Lemma wandb_log_generated_images_yields gen loader batch_to_log e :
  yields (TrainUtp.wandb_log_generated_images gen loader batch_to_log) e
    eval_event (fun gen' => training gen' = true).
Proof.
  unfold TrainUtp.wandb_log_generated_images.
  eapply yields_bind; [by apply log_batches_yields|].
  intros [images gen1] e1 _.
  eapply yields_bind; [by apply yields_emit|]. intros _ e2 _.
  by apply yields_ret.
Qed.

(** C8: when [save_some_examples] returns, the generator it hands back is
    in training mode, although its one forward pass ran in evaluation mode;
    it returns whenever the loader has a batch.  [wandb_log_generated_images]
    always returns, with the generator in training mode, and all its forward
    passes ran in evaluation mode. *)
Theorem generator_left_in_training_mode :
  (forall gen val_loader epoch folder (e : env) gen' e',
     Utils.save_some_examples gen val_loader epoch folder e = Ok (gen', e') ->
     training gen' = true /\
     exists evs, out e' = out e ++ evs /\ Forall (forward_in_mode false) evs /\
                 In (Forward Gen false) evs) /\
  (forall gen b rest epoch folder (e : env),
     exists gen' e', Utils.save_some_examples gen (b :: rest) epoch folder e = Ok (gen', e')) /\
  (forall gen loader batch_to_log (e : env),
     exists gen' e' evs,
       TrainUtp.wandb_log_generated_images gen loader batch_to_log e = Ok (gen', e') /\
       training gen' = true /\
       out e' = out e ++ evs /\ Forall (forward_in_mode false) evs).
Proof.
  assert (Hev : forall ev, eval_event ev -> forward_in_mode false ev).
  { intros ev Hev who m ->. by destruct who. }
  split; [|split].
  - intros gen [|b rest] epoch folder e gen' e' Hret.
    { by rewrite save_some_examples_empty in Hret. }
    destruct (save_some_examples_trace gen b rest epoch folder e)
      as (gen2 & e2 & Hrun & Hmode & Hout).
    rewrite Hrun in Hret. injection Hret as <- <-.
    split; [done|]. eexists. split; [exact Hout|].
    split; [|by left].
    apply Forall_cons. split; [by intros who m [= _ <-]|].
    apply Forall_cons. split; [by intros who m [=]|].
    destruct (epoch =? 0)%Z; [|constructor].
    apply Forall_cons. split; [by intros who m [=]|constructor].
  - intros gen b rest epoch folder e.
    destruct (save_some_examples_trace gen b rest epoch folder e)
      as (gen2 & e2 & Hrun & _). eauto.
  - intros gen loader batch_to_log e.
    destruct (wandb_log_generated_images_yields gen loader batch_to_log e)
      as (gen2 & e2 & evs & Hrun & Hout & Hevs & Hmode).
    exists gen2, e2, evs. repeat split; try done. by eapply Forall_impl.
Qed.

End Inference.

Lemma generator_left_in_training_mode_witness :
  exists gen' e',
    Utils.save_some_examples (H:=toy) toy_model toy_batches 0 "evaluation" toy_env
      = Ok (gen', e') /\
    training gen' = true.
Proof.
  destruct (proj1 (proj2 (generator_left_in_training_mode (H:=toy)))
              toy_model (scalar 4, scalar 2)
              [(scalar 6, scalar 4); (scalar 8, scalar 6)] 0%Z "evaluation" toy_env)
    as (gen' & e' & Hrun).
  exists gen', e'. split; [exact Hrun|].
  exact (proj1 (proj1 (generator_left_in_training_mode (H:=toy))
                  toy_model toy_batches 0%Z "evaluation" toy_env gen' e' Hrun)).
Defined.

(** At epoch 0 both images are written, the forward pass runs in
    evaluation mode, and the generator comes back in training mode;
    without a batch the call raises before touching the generator. *)
Example save_some_examples_epoch_0 :
  match Utils.save_some_examples (H:=toy) toy_model toy_batches 0 "evaluation" toy_env with
  | Ok (gen', e') =>
      training gen' = true /\
      out e' = [Forward Gen false; SaveImage "evaluation/y_gen_0.png";
                SaveImage "evaluation/label_0.png"] /\
      bool_decide ("evaluation" ∈ dirs e') = true
  | Raise _ => False
  end /\
  Utils.save_some_examples (H:=toy) toy_model [] 0 "evaluation" toy_env
  = Raise StopIteration.
Proof.
  split; [|reflexivity]. vm_compute. repeat split.
Qed.

(** ** Checkpoint cadence *)

Section Cadence.
Context `{Torch}.

Lemma shows_save_checkpoint model optimizer filename e :
  shows (Utils.save_checkpoint model optimizer filename) e [TorchSave filename].
Proof.
  eexists tt, _. split; [apply save_checkpoint_returns|]. simpl.
  unfold checkpoint_trace. rewrite List.filter_app. done.
Qed.

Lemma shows_epoch_body cfg train_loader masks epoch t e :
  SAVE_MODEL cfg = true ->
  shows (TrainUtp.epoch_body cfg train_loader masks epoch t) e (epoch_saves cfg epoch).
Proof.
  intros Hsave. unfold TrainUtp.epoch_body. rewrite Hsave. cbn [andb].
  apply (shows_bind _ _ _ [] (epoch_saves cfg epoch)).
  { apply shows_with_rng. }
  intros batches e1.
  apply (shows_bind _ _ _ [] (epoch_saves cfg epoch)).
  { eapply yields_shows; [apply train_fn_yields|apply step_event_hidden]. }
  intros [[[g_adv g_l1] d] t1] e2.
  rewrite <- (app_nil_r (epoch_saves cfg epoch)).
  apply (shows_bind _ _ _ (epoch_saves cfg epoch) []).
  - unfold epoch_saves. destruct (epoch mod 5 =? 0)%Z; [|apply shows_ret].
    apply (shows_bind _ _ _ [_] [_]); [apply shows_save_checkpoint|]. intros _ e3.
    apply (shows_bind _ _ _ [_] []); [apply shows_save_checkpoint|]. intros _ e4.
    destruct (LOG_WANDB cfg); [|apply shows_ret].
    apply (shows_bind _ _ _ [] []); [apply (shows_emit (WandbSave _))|]. intros _ e5.
    apply (shows_emit (WandbSave _)).
  - intros _ e3. destruct (LOG_WANDB cfg); [|apply shows_ret].
    apply (shows_bind _ _ _ [] []).
    { eapply (yields_shows _ _ eval_event);
        [by apply yields_call_gen|apply eval_event_hidden]. }
    intros [fakes gen1] e4.
    apply (shows_bind _ _ _ [] []); [apply (shows_emit (WandbLog _))|]. intros _ e5.
    apply shows_ret.
Qed.

Lemma shows_for_epochs (body : Z -> trainer -> M trainer) (f : Z -> list event) epochs :
  (forall epoch t e, shows (body epoch t) e (f epoch)) ->
  forall t e,
  shows (TrainUtp.for_epochs body epochs t) e
    (flat_map (fun epoch => EpochBegin epoch :: f epoch) epochs).
Proof.
  intros Hbody. induction epochs as [|epoch rest IH]; intros t e; simpl.
  - apply shows_ret.
  - apply (shows_bind _ _ _ [_] _); [apply (shows_emit (EpochBegin _))|]. intros _ e1.
    apply shows_bind; [apply Hbody|]. intros t1 e2. apply IH.
Qed.

(** C4: with checkpointing on, the training loop and what follows it
    return, and the [torch.save] calls of the run are, in order: in each
    iteration [epoch] of [range(NUM_EPOCHS)] with [epoch mod 5 = 0] one save
    of the generator and one of the discriminator, in the other iterations
    none, and after the loop one more save of each; the experiment-tracking
    flag plays no part.  For 12 epochs these are the saves of the epochs 0,
    5, 10 and the final one. *)
Theorem checkpoint_cadence cfg (train_loader test_loader : data_loader)
    (test_batch_masks : tensor) (t : trainer) (e : env) :
  SAVE_MODEL cfg = true ->
  (exists t' e',
     TrainUtp.main_training cfg train_loader test_loader test_batch_masks t e = Ok (t', e') /\
     checkpoint_trace (out e') = checkpoint_trace (out e) ++ cadence cfg (NUM_EPOCHS cfg)) /\
  (forall epoch, (0 <= epoch < NUM_EPOCHS cfg)%Z ->
     In epoch (range (NUM_EPOCHS cfg)) /\
     (epoch_saves cfg epoch
        = [TorchSave (CHECKPOINT_GEN cfg); TorchSave (CHECKPOINT_DISC cfg)]
      <-> (epoch mod 5 = 0)%Z) /\
     (epoch_saves cfg epoch = [] <-> (epoch mod 5 <> 0)%Z)) /\
  cadence cfg 12 =
    [EpochBegin 0; TorchSave (CHECKPOINT_GEN cfg); TorchSave (CHECKPOINT_DISC cfg);
     EpochBegin 1; EpochBegin 2; EpochBegin 3; EpochBegin 4;
     EpochBegin 5; TorchSave (CHECKPOINT_GEN cfg); TorchSave (CHECKPOINT_DISC cfg);
     EpochBegin 6; EpochBegin 7; EpochBegin 8; EpochBegin 9;
     EpochBegin 10; TorchSave (CHECKPOINT_GEN cfg); TorchSave (CHECKPOINT_DISC cfg);
     EpochBegin 11;
     LoopEnd; TorchSave (CHECKPOINT_GEN cfg); TorchSave (CHECKPOINT_DISC cfg)].
Proof.
  intros Hsave. split; [|split].
  - unfold TrainUtp.main_training, cadence.
    apply shows_bind.
    { apply shows_for_epochs. intros epoch t1 e1. by apply shows_epoch_body. }
    intros t1 e1.
    apply (shows_bind _ _ _ [_] [_; _]); [apply (shows_emit LoopEnd)|]. intros _ e2.
    apply (shows_bind _ _ _ [_] [_]); [apply shows_save_checkpoint|]. intros _ e3.
    apply (shows_bind _ _ _ [_] []); [apply shows_save_checkpoint|]. intros _ e4.
    destruct (LOG_WANDB cfg); [|apply shows_ret].
    apply (shows_bind _ _ _ [] []).
    { apply shows_with_rng. }
    intros batches e5.
    apply (shows_bind _ _ _ [] []).
    { eapply yields_shows;
        [apply wandb_log_generated_images_yields|apply eval_event_hidden]. }
    intros gen e6.
    apply (shows_bind _ _ _ [] []); [apply (shows_emit WandbFinish)|]. intros _ e7.
    apply shows_ret.
  - intros epoch Hrange. split; [|split].
    + unfold range. apply in_map_iff. exists (Z.to_nat epoch).
      split; [lia|]. apply in_seq. lia.
    + unfold epoch_saves. destruct (Z.eqb_spec (epoch mod 5) 0); split; done.
    + unfold epoch_saves. destruct (Z.eqb_spec (epoch mod 5) 0); split; done.
  - reflexivity.
Qed.

End Cadence.

Lemma checkpoint_cadence_witness :
  exists t' e',
    TrainUtp.main_training (H:=toy) toy_config toy_loader toy_loader (scalar 2)
      toy_trainer toy_env = Ok (t', e') /\
    checkpoint_trace (out e') =
      [EpochBegin 0; TorchSave "gen.pth.tar"; TorchSave "disc.pth.tar";
       EpochBegin 1; EpochBegin 2; EpochBegin 3; EpochBegin 4;
       EpochBegin 5; TorchSave "gen.pth.tar"; TorchSave "disc.pth.tar";
       EpochBegin 6; EpochBegin 7; EpochBegin 8; EpochBegin 9;
       EpochBegin 10; TorchSave "gen.pth.tar"; TorchSave "disc.pth.tar";
       EpochBegin 11;
       LoopEnd; TorchSave "gen.pth.tar"; TorchSave "disc.pth.tar"].
Proof.
  destruct (checkpoint_cadence (H:=toy) toy_config toy_loader toy_loader (scalar 2)
              toy_trainer toy_env eq_refl) as [(t' & e' & Hrun & Htrace) _].
  exists t', e'. split; [exact Hrun|]. rewrite Htrace. reflexivity.
Defined.

(** The run of 12 epochs: four saves of each network, whether experiment
    tracking is on or off. *)
Example twelve_epochs_four_saves :
  let saves_of (cfg : config) (name : string) :=
    match TrainUtp.main_training (H:=toy) cfg toy_loader toy_loader (scalar 2)
            toy_trainer toy_env with
    | Ok (_, e') =>
        Some (length (List.filter
                        (fun ev => match ev with
                                   | TorchSave f => bool_decide (f = name)
                                   | _ => false
                                   end) (out e')))
    | Raise _ => None
    end in
  let untracked := {|
    SEED := 42; DEVICE := "cpu"; LEARNING_RATE := 0.5%float;
    ADAM_BETA1 := 0.5%float; ADAM_BETA2 := 0.5%float; BATCH_SIZE := 1;
    NUM_EPOCHS := 12; L1_LAMBDA := 100;
    SMOOTH_POSITIVE_LABELS := true; SMOOTH_NEGATIVE_LABELS := true;
    SAVE_MODEL := true; CHECKPOINT_GEN := "gen.pth.tar";
    CHECKPOINT_DISC := "disc.pth.tar"; LOG_WANDB := false |} in
  saves_of toy_config "gen.pth.tar" = Some 4%nat /\
  saves_of toy_config "disc.pth.tar" = Some 4%nat /\
  saves_of untracked "gen.pth.tar" = Some 4%nat /\
  saves_of untracked "disc.pth.tar" = Some 4%nat.
Proof. vm_compute. repeat split. Qed.


(** * Further properties *)

(** ** Checkpoint files: saving, loading, failing *)

Section CheckpointFiles.
Context `{Torch}.

Lemma load_checkpoint_from c filename model optimizer lr e :
  fs e !! filename = Some (CheckpointFile c) ->
  Utils.load_checkpoint filename model optimizer lr e =
    match load_state_dict model (ck_state_dict c) with
    | Ok m =>
        match optimizer_load_state_dict optimizer (ck_optimizer c) with
        | Ok o => Ok ((m, Utils.set_lr lr o),
                      mkEnv (fs e) (dirs e)
                        (out e ++ [Print ("=> Loading checkpoint " +:+ filename)]) (rng e))
        | Raise x => Raise x
        end
    | Raise x => Raise x
    end.
Proof.
  intros Hf. unfold Utils.load_checkpoint, print, emit.
  unfold bind at 1. unfold bind at 1.
  rewrite (torch_load_saved filename c) by done.
  unfold bind, lift, ret.
  destruct (load_state_dict model (ck_state_dict c)) as [m|x]; [|done].
  by destruct (optimizer_load_state_dict optimizer (ck_optimizer c)) as [o|x].
Qed.

Lemma optimizer_load_ok o sd :
  group_sizes o = group_sizes sd ->
  optimizer_load_state_dict o sd =
    Ok (mkOptimizer (opt_state sd)
          (zip_with (fun g saved => ParamGroup (pg_params g) (pg_options saved))
             (param_groups o) (param_groups sd))).
Proof.
  intros Hs. unfold optimizer_load_state_dict.
  assert (Hl : length (param_groups o) = length (param_groups sd)).
  { apply (f_equal length) in Hs. unfold group_sizes in Hs. by rewrite !length_map in Hs. }
  rewrite bool_decide_eq_true_2 by done.
  by rewrite bool_decide_eq_true_2 by done.
Qed.

Lemma optimizer_load_inv o sd o' :
  optimizer_load_state_dict o sd = Ok o' -> group_sizes o = group_sizes sd.
Proof.
  unfold optimizer_load_state_dict.
  destruct (bool_decide (length (param_groups o) = length (param_groups sd))); [|done].
  destruct (bool_decide (_ = _)) eqn:Hb; [|done].
  intros _. by apply bool_decide_eq_true_1 in Hb.
Qed.

Lemma load_state_dict_ok model sd :
  shapes_of sd = shapes_of (parameters model) ->
  load_state_dict model sd = Ok (with_parameters model sd).
Proof. intros Heq. unfold load_state_dict. by rewrite bool_decide_eq_true_2. Qed.

Lemma load_state_dict_mismatch model sd :
  shapes_of sd <> shapes_of (parameters model) ->
  load_state_dict model sd = Raise (RuntimeError "Error(s) in loading state_dict").
Proof. intros Hne. unfold load_state_dict. by rewrite bool_decide_eq_false_2. Qed.

Lemma load_checkpoint_inv filename model optimizer lr e m2 o2 e2 :
  Utils.load_checkpoint filename model optimizer lr e = Ok ((m2, o2), e2) ->
  exists c,
    fs e !! filename = Some (CheckpointFile c) /\
    shapes_of (ck_state_dict c) = shapes_of (parameters model) /\
    group_sizes optimizer = group_sizes (ck_optimizer c) /\
    m2 = with_parameters model (ck_state_dict c) /\
    o2 = Utils.set_lr lr
           (mkOptimizer (opt_state (ck_optimizer c))
              (zip_with (fun g saved => ParamGroup (pg_params g) (pg_options saved))
                 (param_groups optimizer) (param_groups (ck_optimizer c)))) /\
    e2 = mkEnv (fs e) (dirs e)
           (out e ++ [Print ("=> Loading checkpoint " +:+ filename)]) (rng e).
Proof.
  intros Hret.
  destruct (fs e !! filename) as [[c|t|rows]|] eqn:Hf;
    try (unfold Utils.load_checkpoint, print, emit, torch_load, read_file, bind in Hret;
         simpl in Hret; by rewrite Hf in Hret).
  exists c. split; [done|]. rewrite (load_checkpoint_from c) in Hret by done.
  destruct (decide (shapes_of (ck_state_dict c) = shapes_of (parameters model)))
    as [Heq|Hne]; [|by rewrite load_state_dict_mismatch in Hret].
  rewrite load_state_dict_ok in Hret by done.
  destruct (optimizer_load_state_dict optimizer (ck_optimizer c)) as [o|x] eqn:Ho; [|done].
  pose proof (optimizer_load_inv _ _ _ Ho) as Hg.
  rewrite optimizer_load_ok in Ho by done.
  injection Ho as <-. injection Hret as <- <- <-. done.
Qed.

Lemma zip_with_params_twice (go gc : list param_group) (f : gmap string pyval -> gmap string pyval) :
  length go = length gc ->
  zip_with (fun g saved => ParamGroup (pg_params g) (pg_options saved))
    (map (fun g => ParamGroup (pg_params g) (f (pg_options g)))
       (zip_with (fun g saved => ParamGroup (pg_params g) (pg_options saved)) go gc))
    gc
  = zip_with (fun g saved => ParamGroup (pg_params g) (pg_options saved)) go gc.
Proof.
  revert gc. induction go as [|g go IH]; intros [|s gc] Hl; simpl in *; try done.
  f_equal. apply IH. lia.
Qed.

(** X3: when [load_checkpoint] returns it has only read: files,
    directories and generator are as before and the trace gains one
    message; the model keeps its mode and its modules, the optimizer keeps
    the parameters of its groups; and loading the same file again into
    what was returned gives what was returned. *)
Theorem load_checkpoint_reads_only_and_repeats filename model optimizer lr e m2 o2 e2 :
  Utils.load_checkpoint filename model optimizer lr e = Ok ((m2, o2), e2) ->
  fs e2 = fs e /\ dirs e2 = dirs e /\ rng e2 = rng e /\
  out e2 = out e ++ [Print ("=> Loading checkpoint " +:+ filename)] /\
  training m2 = training model /\ module_types m2 = module_types model /\
  map pg_params (param_groups o2) = map pg_params (param_groups optimizer) /\
  exists e3, Utils.load_checkpoint filename m2 o2 lr e2 = Ok ((m2, o2), e3).
Proof.
  intros Hret. apply load_checkpoint_inv in Hret as (c & Hf & Heq & Hg & -> & -> & ->).
  assert (Hl : length (param_groups optimizer) = length (param_groups (ck_optimizer c))).
  { apply (f_equal length) in Hg. unfold group_sizes in Hg. by rewrite !length_map in Hg. }
  split; [done|]. split; [done|]. split; [done|]. split; [done|].
  split; [done|]. split; [done|].
  split.
  { simpl. rewrite map_map. simpl. clear Hg Hf Heq.
    revert Hl. generalize (param_groups (ck_optimizer c)).
    induction (param_groups optimizer) as [|g go IH]; intros [|s gc] Hl; simpl in *; try done.
    f_equal. apply IH. lia. }
  eexists. rewrite (load_checkpoint_from c) by done.
  rewrite load_state_dict_ok by done. simpl.
  rewrite optimizer_load_ok.
  - simpl. rewrite zip_with_params_twice by done. reflexivity.
  - rewrite <- Hg. unfold group_sizes. simpl. rewrite map_map. simpl. clear Hg Hf Heq.
    revert Hl. generalize (param_groups (ck_optimizer c)).
    induction (param_groups optimizer) as [|g go IH]; intros [|s gc] Hl; simpl in *; try done.
    f_equal. apply IH. lia.
Qed.
End CheckpointFiles.

(** ** The files of [save_some_examples] *)

Section ExampleFiles.
Context `{Torch}.

Lemma example_paths_differ (folder : string) (epoch : Z) :
  folder +:+ "/label_" +:+ pretty epoch +:+ ".png"
  <> folder +:+ "/y_gen_" +:+ pretty epoch +:+ ".png".
Proof.
  induction folder as [|a f IH]; [done|]. intros Heq. injection Heq as Heq. auto.
Qed.

(** X5: [save_some_examples] uses the first batch only.  It writes
    [folder/y_gen_<epoch>.png] with the denormalized output of the
    generator in evaluation mode on the first mask; it writes
    [folder/label_<epoch>.png] with the denormalized real image when
    [epoch] is 0 and leaves that path alone otherwise; it creates the
    folder only when nothing exists at that path; the network keeps its
    modules. *)
Theorem save_some_examples_files gen (image_real mask : tensor) rest epoch folder e :
  let y := (gen_forward false (parameters gen) mask (rng e)).1.1 in
  let y_gen := folder +:+ "/y_gen_" +:+ pretty epoch +:+ ".png" in
  let label := folder +:+ "/label_" +:+ pretty epoch +:+ ".png" in
  exists gen' e',
    Utils.save_some_examples gen ((image_real, mask) :: rest) epoch folder e = Ok (gen', e') /\
    Utils.save_some_examples gen [(image_real, mask)] epoch folder e = Ok (gen', e') /\
    fs e' = (if (epoch =? 0)%Z
             then <[label := ImageFile (denormalize image_real)]>
                    (<[y_gen := ImageFile (denormalize y)]> (fs e))
             else <[y_gen := ImageFile (denormalize y)]> (fs e)) /\
    fs e' !! y_gen = Some (ImageFile (denormalize y)) /\
    (epoch <> 0%Z -> fs e' !! label = fs e !! label) /\
    dirs e' = (if bool_decide (folder ∈ dirs e) || bool_decide (is_Some (fs e !! folder))
               then dirs e else {[folder]} ∪ dirs e) /\
    module_types gen' = module_types gen.
Proof.
  intros y y_gen label.
  pose proof (example_paths_differ folder epoch) as Hpaths. fold y_gen label in Hpaths.
  assert (Hrun : forall loader, loader = (image_real, mask) :: rest \/ loader = [(image_real, mask)] ->
            Utils.save_some_examples gen loader epoch folder e
            = Ok (train_mode
                    (with_parameters (eval_mode gen)
                       (gen_forward false (parameters gen) mask (rng e)).1.2),
                  mkEnv
                    (if (epoch =? 0)%Z
                     then <[label := ImageFile (denormalize image_real)]>
                            (<[y_gen := ImageFile (denormalize y)]> (fs e))
                     else <[y_gen := ImageFile (denormalize y)]> (fs e))
                    (if bool_decide (folder ∈ dirs e) || bool_decide (is_Some (fs e !! folder))
                     then dirs e else {[folder]} ∪ dirs e)
                    (out e ++ [Forward Gen false] ++ [SaveImage y_gen]
                     ++ (if (epoch =? 0)%Z then [SaveImage label] else []))
                    (gen_forward false (parameters gen) mask (rng e)).2)).
  { intros loader [-> | ->];
      unfold Utils.save_some_examples, path_exists, call_gen, save_image, write_file,
        makedirs, with_rng, emit, bind, ret; subst y y_gen label; simpl;
      destruct (bool_decide (folder ∈ dirs e) || bool_decide (is_Some (fs e !! folder)));
      simpl; destruct (gen_forward false (parameters gen) mask (rng e)) as [[y0 p] g];
      simpl; destruct (epoch =? 0)%Z; simpl; by rewrite <- ?app_assoc. }
  eexists _, _. split; [apply Hrun; by left|]. split; [apply Hrun; by right|].
  cbn [fs dirs]. split; [done|]. split; [|split; [|done]].
  - destruct (epoch =? 0)%Z.
    + by rewrite lookup_insert_ne, lookup_insert_eq.
    + by rewrite lookup_insert_eq.
  - intros Hepoch. destruct (Z.eqb_spec epoch 0) as [Heq|_]; [done|].
    by rewrite lookup_insert_ne.
Qed.
End ExampleFiles.

(** ** Weight initialisation over a whole network *)

Section InitAll.
Context `{Torch}.


Lemma same_but_weight_values_refl ps : same_but_weight_values ps ps.
Proof. done. Qed.

Lemma same_but_weight_values_trans ps1 ps2 ps3 :
  same_but_weight_values ps1 ps2 -> same_but_weight_values ps2 ps3 ->
  same_but_weight_values ps1 ps3.
Proof.
  intros (Ha & Hb & Hc) (Ha' & Hb' & Hc'). split; [|split]; intros k.
  - intros Hk. by rewrite Ha', Ha.
  - by rewrite Hb', Hb.
  - by rewrite Hc', Hc.
Qed.

Lemma resampled_same_size w e :
  shape (resampled w e) = shape w /\ length (data (resampled w e)) = length (data w).
Proof.
  unfold resampled. simpl. split; [done|]. by rewrite length_map, draw_length.
Qed.

Lemma init_weights_cases m e :
  (exact_conv (layer_type m) = false /\ Utils.init_weights m e = Ok (m, e)) \/
  (exact_conv (layer_type m) = true /\ layer_params m !! "weight" = None /\
   Utils.init_weights m e = Raise (AttributeError "Module" "weight")) \/
  (exists w, exact_conv (layer_type m) = true /\ layer_params m !! "weight" = Some w /\
     Utils.init_weights m e
       = Ok (Layer (layer_type m) (<["weight" := resampled w e]> (layer_params m)),
             after_draws w e)).
Proof.
  unfold Utils.init_weights, exact_conv.
  destruct (bool_decide (layer_type m = Conv2d) || bool_decide (layer_type m = ConvTranspose2d)).
  - right. destruct (layer_params m !! "weight") as [w|].
    + right. exists w. unfold bind. by rewrite normal_returns.
    + by left.
  - by left.
Qed.

Lemma init_weights_returned m e m' e' :
  Utils.init_weights m e = Ok (m', e') ->
  layer_type m' = layer_type m /\
  dom (layer_params m') = dom (layer_params m) /\
  same_but_weight_values (layer_params m) (layer_params m') /\
  (exact_conv (layer_type m) = false -> m' = m) /\
  fs e' = fs e /\ dirs e' = dirs e /\ out e' = out e.
Proof.
  destruct (init_weights_cases m e) as [[Hc Hr]|[(Hc & Hw & Hr)|(w & Hc & Hw & Hr)]];
    rewrite Hr; [|done|].
  - intros [= <- <-]. done.
  - intros [= <- <-]. simpl.
    destruct (resampled_same_size w e) as [Hs Hl].
    split; [done|]. split.
    { rewrite dom_insert_L. apply elem_of_dom_2 in Hw.
      apply subseteq_union_1_L. by apply singleton_subseteq_l. }
    split; [|split; [intros Hc'; by rewrite Hc in Hc'|done]].
    split; [|split]; intros k.
    + intros Hk. by apply lookup_insert_ne.
    + destruct (decide (k = "weight")) as [->|Hk].
      * rewrite lookup_insert_eq, Hw. simpl. f_equal; try apply Hs.
      * by rewrite lookup_insert_ne.
    + destruct (decide (k = "weight")) as [->|Hk].
      * rewrite lookup_insert_eq, Hw. simpl. f_equal; try apply Hl.
      * by rewrite lookup_insert_ne.
Qed.

(** X6: [init_weights] fails exactly on a convolution that has no
    [weight]; when it returns, the module has its class, the same attribute
    names, the same values outside [weight] and the same shapes and sizes
    everywhere, and neither files, directories nor the trace changed. *)
Theorem init_weights_keeps_shapes (m : layer) (e : env) :
  (is_ok (Utils.init_weights m e) = false <->
   exact_conv (layer_type m) = true /\ layer_params m !! "weight" = None) /\
  (forall m' e', Utils.init_weights m e = Ok (m', e') ->
     layer_type m' = layer_type m /\
     dom (layer_params m') = dom (layer_params m) /\
     same_but_weight_values (layer_params m) (layer_params m') /\
     fs e' = fs e /\ dirs e' = dirs e /\ out e' = out e).
Proof.
  split.
  - destruct (init_weights_cases m e) as [[Hc Hr]|[(Hc & Hw & Hr)|(w & Hc & Hw & Hr)]];
      rewrite Hr; simpl.
    + split; [done|intros [Hc' _]; by rewrite Hc in Hc'].
    + done.
    + split; [done|intros [_ Hw']; by rewrite Hw in Hw'].
  - intros m' e' Hret. apply init_weights_returned in Hret. tauto.
Qed.

Lemma apply_modules_spec mods :
  forall p e p' e',
  TrainUtp.apply_modules Utils.init_weights mods p e = Ok (p', e') ->
  (forall name, same_but_weight_values (params_of p name) (params_of p' name)) /\
  (forall name, (forall c, In (name, c) mods -> exact_conv c = false) ->
     params_of p' name = params_of p name) /\
  (forall name, (forall c, ~ In (name, c) mods) -> p' !! name = p !! name) /\
  fs e' = fs e /\ dirs e' = dirs e /\ out e' = out e.
Proof.
  induction mods as [|[n c] rest IH]; intros p e p' e' Hrun; simpl in Hrun.
  - injection Hrun as <- <-. done.
  - apply bind_Ok in Hrun as (l & e1 & Hinit & Hrun).
    apply IH in Hrun as (Hsame & Hother & Hunlisted & Hfs & Hdirs & Hout).
    apply init_weights_returned in Hinit as (_ & _ & Hl1 & Hl2 & Hfs1 & Hdirs1 & Hout1).
    simpl in Hl1, Hl2. change (default ∅ (p !! n)) with (params_of p n) in Hl1.
    assert (Hstep : forall name,
              params_of (<[n := layer_params l]> p) name
              = if decide (n = name) then layer_params l else params_of p name).
    { intros name. unfold params_of. rewrite lookup_insert. by destruct (decide (n = name)). }
    split; [|split; [|split]].
    + intros name. eapply same_but_weight_values_trans; [|apply Hsame].
      rewrite Hstep. destruct (decide (n = name)) as [<-|]; [done|].
      apply same_but_weight_values_refl.
    + intros name Hall. rewrite Hother by (intros c' Hin; apply Hall; by right).
      rewrite Hstep. destruct (decide (n = name)) as [<-|]; [|done].
      rewrite (Hl2 (Hall c (or_introl eq_refl))). done.
    + intros name Hnot. rewrite Hunlisted by (intros c' Hin; apply (Hnot c'); by right).
      apply lookup_insert_ne. intros <-. apply (Hnot c). by left.
    + split; [congruence|]. split; congruence.
Qed.

(** X7: [model.apply(init_weights)], when it returns, keeps the mode and
    the modules of the network, changes in each submodule at most the
    values of [weight] (shapes and sizes kept), leaves every submodule that
    is listed only with classes other than the two convolutions exactly as
    it was, and changes neither files, directories nor the trace. *)
Theorem apply_init_weights_touches_only_conv_weights (model model' : Model) (e e' : env) :
  TrainUtp.apply Utils.init_weights model e = Ok (model', e') ->
  training model' = training model /\
  module_types model' = module_types model /\
  (forall name,
     same_but_weight_values (params_of (parameters model) name)
       (params_of (parameters model') name)) /\
  (forall name,
     (forall c, In (name, c) (module_types model) -> exact_conv c = false) ->
     params_of (parameters model') name = params_of (parameters model) name) /\
  fs e' = fs e /\ dirs e' = dirs e /\ out e' = out e.
Proof.
  unfold TrainUtp.apply. intros Hrun.
  apply bind_Ok in Hrun as (p & e1 & Hmods & Hret). injection Hret as <- <-.
  apply apply_modules_spec in Hmods as (Hsame & Hother & _ & Hrest).
  simpl. done.
Qed.

End InitAll.

(** ** The calls of one epoch of training *)

Section Traces.
Context `{Torch}.

Lemma adds_ret {A K} (view : event -> option K) (a : A) e (Q : A -> Prop) :
  Q a -> adds view (ret a) e [] Q.
Proof. intros HQ. exists a, e, []. by rewrite app_nil_r. Qed.

Lemma adds_bind {A B K} (view : event -> option K) (m : M A) (k : A -> M B) e l1 l2
    (Q1 : A -> Prop) (Q : B -> Prop) :
  adds view m e l1 Q1 ->
  (forall a e1, Q1 a -> adds view (k a) e1 l2 Q) ->
  adds view (bind m k) e (l1 ++ l2) Q.
Proof.
  intros (a & e1 & evs1 & Hm & Ho1 & Hv1 & HQ1) Hk.
  destruct (Hk a e1 HQ1) as (b & e2 & evs2 & Hkb & Ho2 & Hv2 & HQ2).
  exists b, e2, (evs1 ++ evs2). unfold bind. rewrite Hm.
  split; [done|]. split; [by rewrite Ho2, Ho1, app_assoc|].
  split; [by rewrite omap_app, Hv1, Hv2|done].
Qed.

Lemma adds_bind_none {A B K} (view : event -> option K) (m : M A) (k : A -> M B) e l
    (Q1 : A -> Prop) (Q : B -> Prop) :
  adds view m e [] Q1 ->
  (forall a e1, Q1 a -> adds view (k a) e1 l Q) ->
  adds view (bind m k) e l Q.
Proof. apply (adds_bind view m k e [] l). Qed.

Lemma adds_bind_one {A B K} (view : event -> option K) (m : M A) (k : A -> M B) e x l
    (Q1 : A -> Prop) (Q : B -> Prop) :
  adds view m e [x] Q1 ->
  (forall a e1, Q1 a -> adds view (k a) e1 l Q) ->
  adds view (bind m k) e (x :: l) Q.
Proof. apply (adds_bind view m k e [x] l). Qed.

Lemma adds_emit {K} (view : event -> option K) ev e :
  adds view (emit ev) e (omap view [ev]) (fun _ => True).
Proof. eexists tt, _, [ev]. split; [reflexivity|]. done. Qed.

Lemma adds_with_rng {A K} (view : event -> option K) (f : generator -> A * generator) e :
  adds view (with_rng f) e [] (fun _ => True).
Proof.
  unfold adds, with_rng. destruct (f (rng e)) as [a g].
  eexists a, _, []. split; [reflexivity|]. simpl. by rewrite app_nil_r.
Qed.

Lemma adds_hidden {A K} (view : event -> option K) (m : M A) e (P : event -> Prop)
    (Q : A -> Prop) :
  yields m e P Q -> (forall ev, P ev -> view ev = None) -> adds view m e [] Q.
Proof.
  intros (a & e' & evs & Hm & Hout & HP & HQ) Hnone.
  exists a, e', evs. split; [done|]. split; [done|]. split; [|done].
  clear Hout. induction HP as [|ev evs Hev _ IH]; simpl; [done|].
  by rewrite (Hnone ev Hev).
Qed.

Lemma adds_logged {A K} (view : event -> option K) ev (a : A) e :
  adds view (run emit ev; ret a) e (omap view [ev]) (fun _ => True).
Proof.
  rewrite <- (app_nil_r (omap view [ev])).
  eapply adds_bind; [apply adds_emit|]. intros _ e1 _. by apply adds_ret.
Qed.

Lemma adds_call_gen {K} (view : event -> option K) gen mask e :
  adds view (call_gen gen mask) e (omap view [Forward Gen (training gen)])
    (fun r => training r.2 = training gen).
Proof.
  unfold call_gen. rewrite <- (app_nil_r (omap view _)).
  eapply adds_bind; [apply adds_emit|]. intros _ e1 _.
  eapply adds_bind_none; [apply adds_with_rng|]. intros [y p] e2 _.
  by apply adds_ret.
Qed.

Lemma adds_call_disc {K} (view : event -> option K) disc mask image e td :
  training disc = td ->
  adds view (call_disc disc mask image) e (omap view [Forward Disc td])
    (fun r => training r.2 = td).
Proof.
  intros <-. unfold call_disc. rewrite <- (app_nil_r (omap view _)).
  eapply adds_bind; [apply adds_emit|]. intros _ e1 _.
  eapply adds_bind_none; [apply adds_with_rng|]. intros [y p] e2 _.
  by apply adds_ret.
Qed.

Lemma adds_scaler_step {K} (view : event -> option K) who s opt m grads e :
  adds view (TrainUtp.scaler_step_opt who s opt m grads) e (omap view [ScalerStep who])
    (fun r => training r.2 = training m).
Proof.
  unfold TrainUtp.scaler_step_opt. rewrite <- (app_nil_r (omap view _)).
  eapply adds_bind; [apply adds_emit|]. intros _ e1 _.
  destruct (scaler_step s opt (parameters m) grads) as [[s' opt'] p].
  by apply adds_ret.
Qed.

Lemma adds_smoothing {K} (view : event -> option K) (b : bool)
    (smooth : tensor -> M tensor) target e :
  (forall e1, yields (smooth target) e1 (fun _ => False) (fun _ => True)) ->
  adds view (if b then smooth target else ret target) e [] (fun _ => True).
Proof.
  intros Hs. destruct b; [|by apply adds_ret].
  eapply adds_hidden; [apply Hs|done].
Qed.

Lemma train_batch_adds cfg l1_loss bce idx b t e :
  adds blank_postfix (TrainUtp.train_batch cfg l1_loss bce idx b t) e
    (step_calls (training (t_gen t)) (training (t_disc t)) idx)
    (fun r => training (t_gen r.2) = training (t_gen t) /\
              training (t_disc r.2) = training (t_disc t)).
Proof.
  destruct b as [image_real mask]. unfold TrainUtp.train_batch, step_calls.
  cbn [app].
  eapply adds_bind_one; [apply (adds_call_gen blank_postfix)|].
  intros [image_fake gen] e1 Hg. simpl in Hg.
  eapply adds_bind_one; [by apply (adds_call_disc blank_postfix)|].
  intros [d_real disc] e2 Hd. simpl in Hd.
  eapply adds_bind_none.
  { apply adds_smoothing. intros e0. apply yields_smooth_positive. }
  intros target e3 _.
  eapply adds_bind_one.
  { by apply (adds_call_disc blank_postfix). }
  intros [d_fake disc2] e4 Hd2. simpl in Hd2.
  eapply adds_bind_none.
  { apply adds_smoothing. intros e0. apply yields_smooth_negative. }
  intros target' e5 _.
  unfold TrainUtp.opt_zero_grad, TrainUtp.scaler_scale_backward, TrainUtp.scaler_update_,
    TrainUtp.set_postfix.
  eapply adds_bind_one; [apply (adds_logged blank_postfix)|]. intros grads e6 _.
  eapply adds_bind_one; [apply (adds_logged blank_postfix)|]. intros [d_scaler grads2] e7 _.
  eapply adds_bind_one; [apply (adds_scaler_step blank_postfix)|].
  intros [[d_scaler2 opt_disc] disc3] e8 Hd3. simpl in Hd3.
  eapply adds_bind_one; [apply (adds_logged blank_postfix)|]. intros d_scaler3 e9 _.
  eapply adds_bind_one.
  { apply (adds_call_disc blank_postfix). congruence. }
  intros [d_fake2 disc4] e10 Hd4. simpl in Hd4.
  eapply adds_bind_one; [apply (adds_logged blank_postfix)|]. intros grads3 e11 _.
  eapply adds_bind_one; [apply (adds_logged blank_postfix)|]. intros [g_scaler grads4] e12 _.
  eapply adds_bind_one; [apply (adds_scaler_step blank_postfix)|].
  intros [[g_scaler2 opt_gen] gen2] e13 Hg2. simpl in Hg2.
  eapply adds_bind_one; [apply (adds_logged blank_postfix)|]. intros g_scaler3 e14 _.
  destruct ((idx + 1) mod 10 =? 0)%nat.
  - eapply adds_bind_one; [apply (adds_emit blank_postfix)|]. intros _ e15 _.
    apply adds_ret. simpl. split; congruence.
  - eapply adds_bind_none; [by apply (adds_ret blank_postfix tt _ (fun _ => True))|].
    intros _ e15 _.
    apply adds_ret. simpl. split; congruence.
Qed.


Lemma train_loop_adds cfg l1_loss bce loader :
  forall idx t h e,
  training (t_gen t) = true -> training (t_disc t) = true ->
  adds blank_postfix (TrainUtp.train_loop cfg l1_loss bce idx loader t h) e
    (flat_map (step_calls true true) (seq idx (length loader)))
    (fun r => training (t_gen r.2) = true /\ training (t_disc r.2) = true).
Proof.
  induction loader as [|b rest IH]; intros idx t h e Hg Hd;
    cbn [TrainUtp.train_loop length seq flat_map].
  - by apply adds_ret.
  - eapply adds_bind.
    + pose proof (train_batch_adds cfg l1_loss bce idx b t e) as Hb.
      rewrite Hg, Hd in Hb. exact Hb.
    + intros [s t1] e1 [Hg1 Hd1]. simpl in *. by apply IH.
Qed.

(** X8: [train_fn] returns for every loader, and the calls it makes are,
    in this order for each batch: one generator forward, two discriminator
    forwards, the discriminator's zero_grad, backward, step and update, a
    third discriminator forward, the generator's zero_grad, backward, step
    and update, and a progress report after every tenth batch; all forwards
    in training mode. *)
Theorem train_fn_call_order cfg (t : trainer) (loader : list batch)
    (l1_loss bce : tensor -> tensor -> tensor) (e : env) :
  exists r t' e' evs,
    TrainUtp.train_fn cfg t loader l1_loss bce e = Ok ((r, t'), e') /\
    out e' = out e ++ evs /\
    omap blank_postfix evs = flat_map (step_calls true true) (seq 0 (length loader)).
Proof.
  assert (Hfn : adds blank_postfix (TrainUtp.train_fn cfg t loader l1_loss bce) e
                  (flat_map (step_calls true true) (seq 0 (length loader)))
                  (fun _ => True)).
  { unfold TrainUtp.train_fn.
    rewrite <- (app_nil_r (flat_map _ _)).
    eapply adds_bind; [by apply train_loop_adds|].
    intros [h t1] e1 _. by apply adds_ret. }
  destruct Hfn as ([r t'] & e' & evs & Hrun & Hout & Hview & _).
  by exists r, t', e', evs.
Qed.

Lemma count_calls_app call l1 l2 :
  count_calls call (l1 ++ l2) = (count_calls call l1 + count_calls call l2)%nat.
Proof. unfold count_calls. by rewrite List.filter_app, length_app. Qed.

Lemma omap_blank_postfix (evs : list event) : omap blank_postfix evs = map blank evs.
Proof. induction evs as [|ev evs IH]; simpl; [done|]. f_equal; apply IH. Qed.

Lemma count_calls_blank call evs :
  count_calls call (omap blank_postfix evs) = count_calls call evs.
Proof.
  rewrite omap_blank_postfix. unfold count_calls.
  induction evs as [|ev evs IH]; [done|]. cbn [map List.filter].
  assert (Hsame : same_call call (blank ev) = same_call call ev)
    by (destruct ev; destruct call; done).
  rewrite Hsame. destruct (same_call call ev); simpl; by rewrite IH.
Qed.

Lemma count_calls_steps call (per_step : nat) n :
  (forall idx, count_calls call (step_calls true true idx) = per_step) ->
  forall idx,
  count_calls call (flat_map (step_calls true true) (seq idx n)) = (per_step * n)%nat.
Proof.
  intros Hstep. induction n as [|n IH]; intros idx; cbn [seq flat_map].
  - by rewrite Nat.mul_0_r.
  - rewrite count_calls_app, Hstep, IH, Nat.mul_succ_r. lia.
Qed.

Lemma count_postfix_steps n :
  forall idx,
  count_calls (SetPostfix 0 0) (flat_map (step_calls true true) (seq idx n))
  = ((idx + n) / 10 - idx / 10)%nat.
Proof.
  induction n as [|n IH]; intros idx; cbn [seq flat_map].
  - by rewrite Nat.add_0_r, Nat.sub_diag.
  - rewrite count_calls_app, IH.
    replace (idx + S n)%nat with (S idx + n)%nat by lia.
    assert (Hstep : count_calls (SetPostfix 0 0) (step_calls true true idx)
                    = if ((idx + 1) mod 10 =? 0)%nat then 1%nat else 0%nat).
    { unfold step_calls. by destruct ((idx + 1) mod 10 =? 0)%nat. }
    rewrite Hstep.
    pose proof (Nat.div_mod_eq idx 10) as H0.
    pose proof (Nat.div_mod_eq (S idx) 10) as H1.
    pose proof (Nat.div_mod_eq (S idx + n) 10) as H2.
    pose proof (Nat.mod_upper_bound idx 10) as B0.
    pose proof (Nat.mod_upper_bound (S idx) 10) as B1.
    pose proof (Nat.mod_upper_bound (S idx + n) 10) as B2.
    replace (idx + 1)%nat with (S idx) by lia.
    destruct (Nat.eqb_spec (S idx mod 10) 0); lia.
Qed.

(** X9: over a loader of [n] batches [train_fn] runs the generator [n]
    times and the discriminator [3 n] times, all in training mode and none
    in evaluation mode, calls zero_grad, backward, step and update [n]
    times for each network, and reports progress [n / 10] times. *)
Theorem train_fn_call_counts cfg (t : trainer) (loader : list batch)
    (l1_loss bce : tensor -> tensor -> tensor) (e : env) :
  exists r t' e' evs,
    TrainUtp.train_fn cfg t loader l1_loss bce e = Ok ((r, t'), e') /\
    out e' = out e ++ evs /\
    count_calls (Forward Gen true) evs = length loader /\
    count_calls (Forward Disc true) evs = (3 * length loader)%nat /\
    count_calls (Forward Gen false) evs = 0%nat /\
    count_calls (Forward Disc false) evs = 0%nat /\
    (forall who,
       count_calls (OptZeroGrad who) evs = length loader /\
       count_calls (ScalerBackward who) evs = length loader /\
       count_calls (ScalerStep who) evs = length loader /\
       count_calls (ScalerUpdate who) evs = length loader) /\
    count_calls (SetPostfix 0 0) evs = (length loader / 10)%nat.
Proof.
  assert (Hfn : adds blank_postfix (TrainUtp.train_fn cfg t loader l1_loss bce) e
                  (flat_map (step_calls true true) (seq 0 (length loader)))
                  (fun _ => True)).
  { unfold TrainUtp.train_fn.
    rewrite <- (app_nil_r (flat_map _ _)).
    eapply adds_bind; [by apply train_loop_adds|].
    intros [h t1] e1 _. by apply adds_ret. }
  destruct Hfn as ([r t'] & e' & evs & Hrun & Hout & Hview & _).
  exists r, t', e', evs. split; [done|]. split; [done|].
  assert (Hper : forall call per_step,
            (forall idx, count_calls call (step_calls true true idx) = per_step) ->
            count_calls call evs = (per_step * length loader)%nat).
  { intros call per_step Hstep.
    rewrite <- count_calls_blank, Hview. by apply count_calls_steps. }
  assert (Hone : forall call per_step,
            count_calls call (step_calls true true 8) = per_step ->
            count_calls call (step_calls true true 9) = per_step ->
            count_calls call evs = (per_step * length loader)%nat).
  { intros call per_step H8 H9. apply Hper. intros idx. unfold step_calls in *.
    simpl in H8, H9. by destruct ((idx + 1) mod 10 =? 0)%nat. }
  split; [rewrite (Hone _ 1%nat); [lia|done|done]|].
  split; [rewrite (Hone _ 3%nat); [lia|done|done]|].
  split; [rewrite (Hone _ 0%nat); [lia|done|done]|].
  split; [rewrite (Hone _ 0%nat); [lia|done|done]|].
  split.
  { intros who. destruct who; repeat split; rewrite (Hone _ 1%nat); try lia; done. }
  rewrite <- count_calls_blank, Hview, count_postfix_steps. simpl.
  rewrite Nat.sub_0_r. done.
Qed.


(** *** wandb_log_generated_images *)

Lemma omap_every_event (evs : list event) : omap every_event evs = evs.
Proof. induction evs as [|ev evs IH]; simpl; [done|]. f_equal; apply IH. Qed.

Lemma logged_from_cases idx_batch n batch_to_log :
  logged_from idx_batch 0 batch_to_log = 0%nat /\
  ((idx_batch + 1 = batch_to_log)%Z -> logged_from idx_batch (S n) batch_to_log = 1%nat) /\
  ((idx_batch + 1 <> batch_to_log)%Z ->
   logged_from idx_batch (S n) batch_to_log = S (logged_from (idx_batch + 1) n batch_to_log)).
Proof.
  unfold logged_from. repeat split.
  - destruct (Z.leb_spec (idx_batch + 1) batch_to_log);
      destruct (Z.leb_spec batch_to_log (idx_batch + Z.of_nat 0)); simpl; lia.
  - intros Heq.
    destruct (Z.leb_spec (idx_batch + 1) batch_to_log);
      destruct (Z.leb_spec batch_to_log (idx_batch + Z.of_nat (S n)));
      simpl; lia.
  - intros Hne.
    destruct (Z.leb_spec (idx_batch + 1 + 1) batch_to_log);
      destruct (Z.leb_spec batch_to_log (idx_batch + 1 + Z.of_nat n));
      destruct (Z.leb_spec (idx_batch + 1) batch_to_log);
      destruct (Z.leb_spec batch_to_log (idx_batch + Z.of_nat (S n)));
      simpl; lia.
Qed.

Lemma log_batches_adds loader :
  forall gen idx_batch batch_to_log images e,
  training gen = false ->
  adds every_event (TrainUtp.log_batches gen loader idx_batch batch_to_log images) e
    (replicate (logged_from idx_batch (length loader) batch_to_log) (Forward Gen false))
    (fun r => training r.2 = false).
Proof.
  induction loader as [|[images_real masks] rest IH];
    intros gen idx_batch batch_to_log images e Hmode; cbn [TrainUtp.log_batches length].
  - rewrite (proj1 (logged_from_cases idx_batch 0 batch_to_log)). by apply adds_ret.
  - destruct (logged_from_cases idx_batch (length rest) batch_to_log) as (_ & Hstop & Hnext).
    assert (Hcall : adds every_event (call_gen gen masks) e [Forward Gen false]
                      (fun r => training r.2 = false)).
    { pose proof (adds_call_gen every_event gen masks e) as Hc.
      rewrite Hmode in Hc. exact Hc. }
    destruct (Z.eqb_spec (idx_batch + 1) batch_to_log) as [Heq|Hne].
    + rewrite (Hstop Heq). eapply adds_bind_one; [exact Hcall|].
      intros [fakes gen1] e1 Hg. simpl in Hg. by apply adds_ret.
    + rewrite (Hnext Hne). cbn [replicate]. eapply adds_bind_one; [exact Hcall|].
      intros [fakes gen1] e1 Hg. simpl in Hg. by apply IH.
Qed.

(** X10: [wandb_log_generated_images] returns; its whole trace is one
    generator forward in evaluation mode per batch it reaches, then one
    log call.  It reaches at most the whole loader; with [batch_to_log] at
    most 0 the break never fires and it runs the whole loader; with the
    default 5 it runs [min 5 n] batches. *)
Theorem wandb_log_generated_images_batches gen (loader : list batch)
    (batch_to_log : Z) (e : env) :
  exists gen' e',
    TrainUtp.wandb_log_generated_images gen loader batch_to_log e = Ok (gen', e') /\
    out e' = out e
      ++ replicate (batches_logged (length loader) batch_to_log) (Forward Gen false)
      ++ [WandbLog ["Generated_images (mask-real-fake)"]] /\
    (batches_logged (length loader) batch_to_log <= length loader)%nat /\
    ((batch_to_log <= 0)%Z -> batches_logged (length loader) batch_to_log = length loader) /\
    batches_logged (length loader) TrainUtp.default_batch_to_log = Nat.min 5 (length loader).
Proof.
  assert (Hrun : adds every_event
                   (TrainUtp.wandb_log_generated_images gen loader batch_to_log) e
                   (replicate (batches_logged (length loader) batch_to_log) (Forward Gen false)
                    ++ [WandbLog ["Generated_images (mask-real-fake)"]])
                   (fun _ => True)).
  { unfold TrainUtp.wandb_log_generated_images.
    eapply adds_bind.
    - apply (log_batches_adds loader (eval_mode gen) 0 batch_to_log [] e eq_refl).
    - intros [images gen1] e1 _.
      eapply adds_bind_one; [apply (adds_emit every_event)|]. intros _ e2 _.
      by apply adds_ret. }
  destruct Hrun as (gen' & e' & evs & Hret & Hout & Hview & _).
  rewrite omap_every_event in Hview. subst evs.
  exists gen', e'. split; [done|]. split; [done|].
  unfold batches_logged, logged_from, TrainUtp.default_batch_to_log.
  rewrite !Z.add_0_l, !Z.sub_0_r.
  split; [|split].
  - destruct (Z.leb_spec 1 batch_to_log);
      destruct (Z.leb_spec batch_to_log (Z.of_nat (length loader))); simpl; lia.
  - intros Hle. destruct (Z.leb_spec 1 batch_to_log); [lia|done].
  - change (1 <=? 5)%Z with true. cbn [andb].
    destruct (Z.leb_spec 5 (Z.of_nat (length loader))); lia.
Qed.


(** *** The run *)

Lemma omap_cons_app {K} (view : event -> option K) ev (evs : list event) :
  omap view (ev :: evs) = omap view [ev] ++ omap view evs.
Proof. simpl. by destruct (view ev). Qed.

Lemma omap_flat_map {K X} (view : event -> option K) (f : X -> list event) (l : list X) :
  omap view (flat_map f l) = flat_map (fun x => omap view (f x)) l.
Proof.
  induction l as [|x l IH]; cbn [flat_map]; [done|]. by rewrite omap_app, IH.
Qed.

Lemma silent_step_event {K} (view : event -> option K) tg td ev :
  silent_view view -> step_event tg td ev -> view ev = None.
Proof. intros Hs Hev. specialize (Hs ev). by destruct ev. Qed.

Lemma silent_eval_event {K} (view : event -> option K) ev :
  silent_view view -> eval_event ev -> view ev = None.
Proof. intros Hs Hev. specialize (Hs ev). by destruct ev. Qed.

Lemma adds_save_checkpoint {K} (view : event -> option K) model optimizer filename e :
  silent_view view ->
  adds view (Utils.save_checkpoint model optimizer filename) e
    (omap view [TorchSave filename]) (fun _ => True).
Proof.
  intros Hs. eexists tt, _, _. split; [apply save_checkpoint_returns|].
  split; [reflexivity|]. split; [|done].
  rewrite omap_cons_app.
  replace (omap view [Print "=> Saving model"]) with (@nil K); [done|].
  simpl. by rewrite (Hs (Print "=> Saving model")).
Qed.

Lemma adds_epoch_body {K} (view : event -> option K) cfg train_loader masks epoch t e :
  silent_view view ->
  adds view (TrainUtp.epoch_body cfg train_loader masks epoch t) e
    (omap view (epoch_calls cfg epoch)) (fun _ => True).
Proof.
  intros Hs. unfold TrainUtp.epoch_body, epoch_calls.
  eapply adds_bind_none; [apply adds_with_rng|]. intros batches e1 _.
  eapply adds_bind_none.
  { eapply adds_hidden; [apply train_fn_yields|]. intros ev. by apply silent_step_event. }
  intros [[[g_adv g_l1] d] t1] e2 _.
  rewrite <- (app_nil_r (omap view _)).
  eapply adds_bind with (Q1 := fun _ => True).
  - destruct (SAVE_MODEL cfg && (epoch mod 5 =? 0)%Z); [|by apply adds_ret].
    rewrite omap_app, omap_cons_app.
    rewrite <- app_assoc.
    eapply adds_bind; [by apply adds_save_checkpoint|]. intros _ e3 _.
    eapply adds_bind; [by apply adds_save_checkpoint|]. intros _ e4 _.
    destruct (LOG_WANDB cfg); [|by apply adds_ret].
    rewrite omap_cons_app.
    eapply adds_bind; [apply (adds_emit view (WandbSave _))|]. intros _ e5 _.
    unfold TrainUtp.wandb_save.
    destruct (adds_emit view (WandbSave (CHECKPOINT_DISC cfg)) e5)
      as (u & e6 & evs & Hrun & Hout & Hview & _).
    by exists u, e6, evs.
  - intros _ e3 _. destruct (LOG_WANDB cfg); [|by apply adds_ret].
    eapply adds_bind_none.
    { eapply (adds_hidden view _ _ eval_event); [by apply yields_call_gen|].
      intros ev. by apply silent_eval_event. }
    intros [fakes gen1] e4 _.
    eapply adds_bind_none.
    { eapply (adds_hidden view _ _ eval_event (fun _ => True)); [by apply yields_emit|].
      intros ev. by apply silent_eval_event. }
    intros _ e5 _. by apply adds_ret.
Qed.

Lemma adds_for_epochs {K} (view : event -> option K) (body : Z -> trainer -> M trainer)
    (calls : Z -> list event) epochs :
  (forall epoch t e, adds view (body epoch t) e (omap view (calls epoch)) (fun _ => True)) ->
  forall t e,
  adds view (TrainUtp.for_epochs body epochs t) e
    (omap view (flat_map (fun epoch => EpochBegin epoch :: calls epoch) epochs))
    (fun _ => True).
Proof.
  intros Hbody. induction epochs as [|epoch rest IH]; intros t e;
    cbn [TrainUtp.for_epochs flat_map].
  - by apply adds_ret.
  - rewrite omap_app, omap_cons_app, <- app_assoc.
    eapply adds_bind; [apply (adds_emit view (EpochBegin _))|]. intros _ e1 _.
    eapply adds_bind; [apply Hbody|]. intros t1 e2 _. apply IH.
Qed.

Lemma main_training_adds {K} (view : event -> option K) cfg train_loader test_loader
    masks t e :
  silent_view view ->
  adds view (TrainUtp.main_training cfg train_loader test_loader masks t) e
    (omap view (run_io cfg)) (fun _ => True).
Proof.
  intros Hs. unfold TrainUtp.main_training, run_io. rewrite omap_app.
  eapply adds_bind.
  { apply (adds_for_epochs view _ (epoch_calls cfg)). intros epoch t1 e1.
    by apply adds_epoch_body. }
  intros t1 e1 _.
  rewrite omap_cons_app.
  eapply adds_bind; [apply (adds_emit view LoopEnd)|]. intros _ e2 _.
  rewrite omap_cons_app.
  eapply adds_bind; [by apply adds_save_checkpoint|]. intros _ e3 _.
  rewrite <- (app_nil_r (omap view _)).
  eapply adds_bind; [by apply adds_save_checkpoint|]. intros _ e4 _.
  destruct (LOG_WANDB cfg); [|by apply adds_ret].
  eapply adds_bind_none; [apply adds_with_rng|]. intros batches e5 _.
  eapply adds_bind_none.
  { eapply adds_hidden; [apply wandb_log_generated_images_yields|].
    intros ev. by apply silent_eval_event. }
  intros gen e6 _.
  eapply adds_bind_none.
  { eapply (adds_hidden view _ _ (fun ev => ev = WandbFinish) (fun _ => True));
      [by apply yields_emit|].
    intros ev ->. apply (Hs WandbFinish). }
  intros _ e7 _. by apply adds_ret.
Qed.

(** X11: with [SAVE_MODEL] off the run still returns and still saves:
    no checkpoint is written inside the loop, and after it the generator's
    and then the discriminator's checkpoint are written, whatever
    [NUM_EPOCHS] is. *)
Theorem final_save_without_checkpointing cfg (train_loader test_loader : data_loader)
    (test_batch_masks : tensor) (t : trainer) (e : env) :
  SAVE_MODEL cfg = false ->
  exists t' e' evs,
    TrainUtp.main_training cfg train_loader test_loader test_batch_masks t e = Ok (t', e') /\
    out e' = out e ++ evs /\
    omap saves_view evs
      = map EpochBegin (range (NUM_EPOCHS cfg))
        ++ [LoopEnd; TorchSave (CHECKPOINT_GEN cfg); TorchSave (CHECKPOINT_DISC cfg)].
Proof.
  intros Hoff.
  destruct (main_training_adds saves_view cfg train_loader test_loader test_batch_masks t e)
    as (t' & e' & evs & Hrun & Hout & Hview & _).
  { intros ev. by destruct ev. }
  exists t', e', evs. split; [done|]. split; [done|].
  rewrite Hview. unfold run_io. rewrite omap_app. f_equal.
  rewrite omap_flat_map.
  induction (range (NUM_EPOCHS cfg)) as [|epoch rest IH]; cbn [flat_map map]; [done|].
  rewrite IH. unfold epoch_io, epoch_calls. rewrite Hoff. reflexivity.
Qed.

(** X12: checkpoints are uploaded to the tracking service only inside the
    loop, generator before discriminator, in the epochs that save and only
    when tracking is on; the two final checkpoints are never uploaded. *)
Theorem uploads_follow_loop_saves_only cfg (train_loader test_loader : data_loader)
    (test_batch_masks : tensor) (t : trainer) (e : env) :
  exists t' e' evs,
    TrainUtp.main_training cfg train_loader test_loader test_batch_masks t e = Ok (t', e') /\
    out e' = out e ++ evs /\
    omap uploads_view evs
      = flat_map (fun epoch =>
                    EpochBegin epoch ::
                    (if SAVE_MODEL cfg && LOG_WANDB cfg && (epoch mod 5 =? 0)%Z
                     then [WandbSave (CHECKPOINT_GEN cfg); WandbSave (CHECKPOINT_DISC cfg)]
                     else []))
          (range (NUM_EPOCHS cfg))
        ++ [LoopEnd].
Proof.
  destruct (main_training_adds uploads_view cfg train_loader test_loader test_batch_masks t e)
    as (t' & e' & evs & Hrun & Hout & Hview & _).
  { intros ev. by destruct ev. }
  exists t', e', evs. split; [done|]. split; [done|].
  rewrite Hview. unfold run_io. rewrite omap_app. f_equal.
  rewrite omap_flat_map.
  induction (range (NUM_EPOCHS cfg)) as [|epoch rest IH]; cbn [flat_map]; [done|].
  rewrite IH. f_equal. unfold epoch_io, epoch_calls.
  destruct (SAVE_MODEL cfg), (LOG_WANDB cfg), (epoch mod 5 =? 0)%Z; reflexivity.
Qed.


(** *** Modes during the run *)

Lemma yields_weaken {A} (m : M A) e (P P' : event -> Prop) (Q Q' : A -> Prop) :
  yields m e P Q -> (forall ev, P ev -> P' ev) -> (forall a, Q a -> Q' a) ->
  yields m e P' Q'.
Proof.
  intros (a & e' & evs & Hm & Ho & HP & HQ) HPP HQQ.
  exists a, e', evs. split; [done|]. split; [done|].
  split; [by eapply Forall_impl|auto].
Qed.

Lemma step_event_not_disc_eval ev : step_event true true ev -> not_disc_eval ev.
Proof. intros Hev ->. done. Qed.

Lemma eval_event_not_disc_eval ev : eval_event ev -> not_disc_eval ev.
Proof. intros Hev ->. done. Qed.

Lemma yields_save_checkpoint model optimizer filename e (P : event -> Prop) :
  P (Print "=> Saving model") -> P (TorchSave filename) ->
  yields (Utils.save_checkpoint model optimizer filename) e P (fun _ => True).
Proof.
  intros HP1 HP2. eexists tt, _, _. split; [apply save_checkpoint_returns|].
  split; [reflexivity|]. split; [|done]. by repeat constructor.
Qed.

Lemma epoch_body_yields cfg train_loader masks epoch t e :
  yields (TrainUtp.epoch_body cfg train_loader masks epoch t) e not_disc_eval both_training.
Proof.
  unfold TrainUtp.epoch_body.
  eapply yields_bind; [apply yields_with_rng|]. intros batches e1 _.
  eapply yields_bind.
  { eapply yields_weaken; [apply train_fn_yields|apply step_event_not_disc_eval|].
    intros a Ha. exact Ha. }
  intros [[[g_adv g_l1] d] t1] e2 [Hg Hd]. simpl in Hg, Hd.
  eapply yields_bind with (Q1 := fun _ => True).
  { destruct (SAVE_MODEL cfg && (epoch mod 5 =? 0)%Z); [|by apply yields_ret].
    eapply yields_bind; [by apply yields_save_checkpoint|]. intros _ e3 _.
    eapply yields_bind; [by apply yields_save_checkpoint|]. intros _ e4 _.
    destruct (LOG_WANDB cfg); [|by apply yields_ret].
    eapply yields_bind; [by apply yields_emit|]. intros _ e5 _.
    by apply yields_emit. }
  intros _ e3 _. destruct (LOG_WANDB cfg); [|by apply yields_ret].
  eapply yields_bind; [by apply yields_call_gen|]. intros [fakes gen1] e4 _.
  eapply yields_bind; [by apply yields_emit|]. intros _ e5 _.
  by apply yields_ret.
Qed.

Lemma for_epochs_yields cfg train_loader masks epochs :
  forall t e,
  yields (TrainUtp.for_epochs (TrainUtp.epoch_body cfg train_loader masks) epochs t) e
    not_disc_eval (fun t' => epochs = [] /\ t' = t \/ both_training t').
Proof.
  induction epochs as [|epoch rest IH]; intros t e; cbn [TrainUtp.for_epochs].
  - apply yields_ret. by left.
  - eapply yields_bind; [by apply yields_emit|]. intros _ e1 _.
    eapply yields_bind; [apply epoch_body_yields|]. intros t1 e2 Hboth.
    eapply yields_weaken; [apply IH|done|].
    intros t' [[_ ->]|Ht']; by right.
Qed.

(** X13: the run of lines 54-82 returns and never runs the discriminator
    in evaluation mode.  After at least one epoch both networks are left in
    training mode; with tracking on the generator is, whatever the number
    of epochs. *)
Theorem discriminator_never_in_eval_mode cfg (train_loader test_loader : data_loader)
    (test_batch_masks : tensor) (t : trainer) (e : env) :
  exists t' e' evs,
    TrainUtp.main_training cfg train_loader test_loader test_batch_masks t e = Ok (t', e') /\
    out e' = out e ++ evs /\
    Forall (fun ev => ev <> Forward Disc false) evs /\
    ((0 < NUM_EPOCHS cfg)%Z ->
     training (t_gen t') = true /\ training (t_disc t') = true) /\
    (LOG_WANDB cfg = true -> training (t_gen t') = true).
Proof.
  assert (Hrun : yields
            (TrainUtp.main_training cfg train_loader test_loader test_batch_masks t) e
            not_disc_eval
            (fun t' => (range (NUM_EPOCHS cfg) <> [] -> both_training t') /\
                       (LOG_WANDB cfg = true -> training (t_gen t') = true))).
  { unfold TrainUtp.main_training.
    eapply yields_bind; [apply for_epochs_yields|]. intros t1 e1 Ht1.
    eapply yields_bind; [by apply yields_emit|]. intros _ e2 _.
    eapply yields_bind; [by apply yields_save_checkpoint|]. intros _ e3 _.
    eapply yields_bind; [by apply yields_save_checkpoint|]. intros _ e4 _.
    destruct (LOG_WANDB cfg).
    - eapply yields_bind; [apply yields_with_rng|]. intros batches e5 _.
      eapply yields_bind.
      { eapply yields_weaken;
          [apply wandb_log_generated_images_yields|apply eval_event_not_disc_eval|].
        intros a Ha. exact Ha. }
      intros gen e6 Hgen. simpl in Hgen.
      eapply yields_bind; [by apply yields_emit|]. intros _ e7 _.
      apply yields_ret. split; [|done].
      intros Hne. destruct Ht1 as [[Hnil _]|[_ Hd]]; [done|]. by split.
    - apply yields_ret. split; [|done].
      intros Hne. by destruct Ht1 as [[Hnil _]|Hboth]. }
  destruct Hrun as (t' & e' & evs & Hret & Hout & Hev & Hmodes & Hlog).
  exists t', e', evs. split; [done|]. split; [done|]. split; [done|].
  split; [|done]. intros Hpos. apply Hmodes.
  unfold range. destruct (Z.to_nat (NUM_EPOCHS cfg)) eqn:Hn; [lia|done].
Qed.


(** *** What is on disk after the run *)

Lemma keeps_disk_bind {A B} (m : M A) (k : A -> M B) :
  keeps_disk m -> (forall a, keeps_disk (k a)) -> keeps_disk (bind m k).
Proof.
  intros Hm Hk e b e2 Hrun. apply bind_Ok in Hrun as (a & e1 & H1 & H2).
  destruct (Hk a e1 b e2 H2) as [-> ->]. by apply (Hm e a e1).
Qed.

Lemma keeps_disk_ret {A} (a : A) : keeps_disk (ret a).
Proof. by intros e a' e' [= <- <-]. Qed.

Lemma keeps_disk_emit ev : keeps_disk (emit ev).
Proof. by intros e a' e' [= <- <-]. Qed.

Lemma keeps_disk_with_rng {A} (f : generator -> A * generator) : keeps_disk (with_rng f).
Proof.
  intros e a e'. unfold with_rng. destruct (f (rng e)). by intros [= <- <-].
Qed.

Lemma keeps_disk_call_gen gen mask : keeps_disk (call_gen gen mask).
Proof.
  unfold call_gen. apply keeps_disk_bind; [apply keeps_disk_emit|]. intros _.
  apply keeps_disk_bind; [apply keeps_disk_with_rng|]. intros [y p].
  apply keeps_disk_ret.
Qed.

Lemma keeps_disk_log_batches loader :
  forall gen idx_batch batch_to_log images,
  keeps_disk (TrainUtp.log_batches gen loader idx_batch batch_to_log images).
Proof.
  induction loader as [|[images_real masks] rest IH];
    intros gen idx_batch batch_to_log images; cbn [TrainUtp.log_batches].
  - apply keeps_disk_ret.
  - apply keeps_disk_bind; [apply keeps_disk_call_gen|]. intros [fakes gen1].
    destruct (idx_batch + 1 =? batch_to_log)%Z; [apply keeps_disk_ret|apply IH].
Qed.

Lemma keeps_disk_wandb_log_generated_images gen loader batch_to_log :
  keeps_disk (TrainUtp.wandb_log_generated_images gen loader batch_to_log).
Proof.
  unfold TrainUtp.wandb_log_generated_images.
  apply keeps_disk_bind; [apply keeps_disk_log_batches|]. intros [images gen1].
  apply keeps_disk_bind; [apply keeps_disk_emit|]. intros _. apply keeps_disk_ret.
Qed.

(** X14: after the run the file at [CHECKPOINT_DISC] holds the state of
    the discriminator and its optimizer as the loop left them, the file at
    [CHECKPOINT_GEN] that of the generator unless the two paths are the
    same (then the discriminator's save replaced it).  Without tracking
    every other file is as the loop left it, and the trainer returned is
    the one the loop left. *)
Theorem final_checkpoints_on_disk cfg (train_loader test_loader : data_loader)
    (test_batch_masks : tensor) (t : trainer) (e : env) :
  exists t1 e1 t' e',
    TrainUtp.for_epochs (TrainUtp.epoch_body cfg train_loader test_batch_masks)
      (range (NUM_EPOCHS cfg)) t e = Ok (t1, e1) /\
    TrainUtp.main_training cfg train_loader test_loader test_batch_masks t e = Ok (t', e') /\
    fs e' !! CHECKPOINT_DISC cfg = Some (checkpoint_of (t_disc t1) (t_opt_disc t1)) /\
    (CHECKPOINT_GEN cfg <> CHECKPOINT_DISC cfg ->
     fs e' !! CHECKPOINT_GEN cfg = Some (checkpoint_of (t_gen t1) (t_opt_gen t1))) /\
    (LOG_WANDB cfg = false ->
     forall other, other <> CHECKPOINT_GEN cfg -> other <> CHECKPOINT_DISC cfg ->
     fs e' !! other = fs e1 !! other) /\
    t_disc t' = t_disc t1 /\ t_opt_disc t' = t_opt_disc t1 /\ t_opt_gen t' = t_opt_gen t1 /\
    (LOG_WANDB cfg = false -> t' = t1).
Proof.
  destruct (for_epochs_yields cfg train_loader test_batch_masks (range (NUM_EPOCHS cfg)) t e)
    as (t1 & e1 & _ & Hloop & _).
  set (e4 := mkEnv
               (<[CHECKPOINT_DISC cfg := checkpoint_of (t_disc t1) (t_opt_disc t1)]>
                  (<[CHECKPOINT_GEN cfg := checkpoint_of (t_gen t1) (t_opt_gen t1)]> (fs e1)))
               (dirs e1)
               (((out e1 ++ [LoopEnd]) ++ [Print "=> Saving model"; TorchSave (CHECKPOINT_GEN cfg)])
                ++ [Print "=> Saving model"; TorchSave (CHECKPOINT_DISC cfg)])
               (rng e1)).
  assert (Hfiles :
    fs e4 !! CHECKPOINT_DISC cfg = Some (checkpoint_of (t_disc t1) (t_opt_disc t1)) /\
    (CHECKPOINT_GEN cfg <> CHECKPOINT_DISC cfg ->
     fs e4 !! CHECKPOINT_GEN cfg = Some (checkpoint_of (t_gen t1) (t_opt_gen t1))) /\
    (forall other, other <> CHECKPOINT_GEN cfg -> other <> CHECKPOINT_DISC cfg ->
     fs e4 !! other = fs e1 !! other)).
  { simpl. split; [apply lookup_insert_eq|]. split.
    - intros Hne. rewrite lookup_insert_ne by done. apply lookup_insert_eq.
    - intros other Hg Hd. by rewrite !lookup_insert_ne. }
  assert (Hmain : TrainUtp.main_training cfg train_loader test_loader test_batch_masks t e
            = (if LOG_WANDB cfg
               then
                 do batches <- with_rng (iterate test_loader);
                 do gen <- TrainUtp.wandb_log_generated_images (t_gen t1) batches
                             TrainUtp.default_batch_to_log;
                 run TrainUtp.wandb_finish;
                 ret (TrainUtp.with_gen t1 gen)
               else ret t1) e4).
  { unfold TrainUtp.main_training. unfold bind at 1. rewrite Hloop.
    unfold bind at 1. unfold emit at 1.
    unfold bind at 1. rewrite save_checkpoint_returns.
    unfold bind at 1. rewrite save_checkpoint_returns. reflexivity. }
  destruct (LOG_WANDB cfg) eqn:Hlog.
  - destruct (main_training_adds saves_view cfg train_loader test_loader
                test_batch_masks t e) as (t' & e' & _ & Hret & _).
    { intros ev. by destruct ev. }
    exists t1, e1, t', e'. split; [done|]. split; [done|].
    rewrite Hmain in Hret.
    apply bind_Ok in Hret as (batches & e5 & H5 & Hret).
    apply bind_Ok in Hret as (gen & e6 & H6 & Hret).
    apply bind_Ok in Hret as (u & e7 & H7 & Hret).
    injection Hret as <- <-.
    apply keeps_disk_with_rng in H5 as [H5 _].
    apply keeps_disk_wandb_log_generated_images in H6 as [H6 _].
    apply keeps_disk_emit in H7 as [H7 _].
    assert (Hfs : fs e7 = fs e4) by congruence. rewrite Hfs.
    destruct Hfiles as (Hd & Hg & Ho). done.
  - exists t1, e1, t1, e4. split; [done|]. split; [done|].
    destruct Hfiles as (Hd & Hg & Ho). done.
Qed.

End Traces.

(** ** Loading the data sets *)

Section Loading.
Context `{Torch}.

Lemma load_manifest_cases name e :
  match fs e !! TrainUtp.path_join TrainUtp.path name with
  | Some (CsvFile rows) =>
      TrainUtp.load_manifest name e
        = Ok (List.filter grade_nonneg (imap (fun i r => (i, r)) rows), e)
  | Some _ =>
      TrainUtp.load_manifest name e = Raise (ValueError "Error tokenizing data")
  | None =>
      TrainUtp.load_manifest name e
        = Raise (FileNotFoundError (TrainUtp.path_join TrainUtp.path name))
  end.
Proof.
  destruct (fs e !! TrainUtp.path_join TrainUtp.path name) as [[c|t|rows]|] eqn:Hf.
  - unfold TrainUtp.load_manifest, TrainUtp.read_csv, read_file, bind. by rewrite Hf.
  - unfold TrainUtp.load_manifest, TrainUtp.read_csv, read_file, bind. by rewrite Hf.
  - by apply load_manifest_returns.
  - unfold TrainUtp.load_manifest, TrainUtp.read_csv, read_file, bind. by rewrite Hf.
Qed.

Lemma transform_train_cases utils e :
  match utils !! "RandomRotate90" with
  | Some (PyTransformClass t) =>
      TrainUtp.transform_train utils e
        = Ok (Compose [CenterCrop 256; RandomHorizontalFlip; RandomVerticalFlip; t], e)
  | Some _ => exists msg, TrainUtp.transform_train utils e = Raise (TypeError msg)
  | None =>
      TrainUtp.transform_train utils e = Raise (AttributeError "utils" "RandomRotate90")
  end.
Proof.
  unfold TrainUtp.transform_train, TrainUtp.getattr, TrainUtp.call_class, bind.
  destruct (utils !! "RandomRotate90") as [[n|n|t]|]; simpl; eauto.
Qed.

Lemma load_dataset_UTP_eval utils cfg e :
  TrainUtp.load_dataset_UTP utils cfg e =
  match utils !! "RandomRotate90" with
  | Some (PyTransformClass t) =>
      match fs e !! train_csv with
      | Some (CsvFile train_rows) =>
          match fs e !! test_csv with
          | Some (CsvFile test_rows) =>
              Ok ((DataLoader
                     (UTP_Masks (List.filter grade_nonneg (imap (fun i r => (i, r)) train_rows))
                        (Compose [CenterCrop 256; RandomHorizontalFlip; RandomVerticalFlip; t])
                        TrainUtp.path "grade" TrainUtp.path_masks true
                        (Some cuda_current_device))
                     true (BATCH_SIZE cfg) false,
                   DataLoader
                     (UTP_Masks (List.filter grade_nonneg (imap (fun i r => (i, r)) test_rows))
                        (Compose [CenterCrop 256])
                        TrainUtp.path "grade" TrainUtp.path_masks false None)
                     false (BATCH_SIZE cfg) true), e)
          | Some _ => Raise (ValueError "Error tokenizing data")
          | None => Raise (FileNotFoundError test_csv)
          end
      | Some _ => Raise (ValueError "Error tokenizing data")
      | None => Raise (FileNotFoundError train_csv)
      end
  | Some (PyFunction name) =>
      Raise (TypeError (name +:+ "() missing required positional arguments"))
  | Some (PyModule _) => Raise (TypeError "'module' object is not callable")
  | None => Raise (AttributeError "utils" "RandomRotate90")
  end.
Proof.
  pose proof (load_manifest_cases "train.csv" e) as Htrain.
  pose proof (load_manifest_cases "test.csv" e) as Htest.
  fold train_csv in Htrain. fold test_csv in Htest.
  unfold TrainUtp.load_dataset_UTP.
  unfold bind at 1.
  unfold TrainUtp.transform_train, TrainUtp.getattr, TrainUtp.call_class, bind at 1.
  destruct (utils !! "RandomRotate90") as [[n|n|t]|]; try done. simpl.
  unfold bind at 1.
  destruct (fs e !! train_csv) as [[c|im|rows]|]; rewrite Htrain; try done.
  unfold bind at 1.
  destruct (fs e !! test_csv) as [[c|im|rows2]|]; rewrite Htest; done.
Qed.

(** X15: [load_dataset_UTP] looks [RandomRotate90] up before it reads any
    file and reads the training manifest first: without the class it raises
    [AttributeError], with the class and without [train.csv] it raises
    [FileNotFoundError] for that file.  Whenever it returns, the class and
    both manifests were there, the state is as it was, and the loaders
    are: training shuffled, not pinned, with the four-step pipeline; test
    not shuffled, pinned, with the centre crop alone; both with
    [BATCH_SIZE]. *)
Theorem load_dataset_UTP_loaders (utils : gmap string pyobj) cfg (e : env) :
  (utils !! "RandomRotate90" = None ->
   TrainUtp.load_dataset_UTP utils cfg e = Raise (AttributeError "utils" "RandomRotate90")) /\
  (forall t, utils !! "RandomRotate90" = Some (PyTransformClass t) ->
   fs e !! train_csv = None ->
   TrainUtp.load_dataset_UTP utils cfg e = Raise (FileNotFoundError train_csv)) /\
  (forall train_loader test_loader e',
   TrainUtp.load_dataset_UTP utils cfg e = Ok ((train_loader, test_loader), e') ->
   e' = e /\
   (exists rows, fs e !! train_csv = Some (CsvFile rows)) /\
   (exists rows, fs e !! test_csv = Some (CsvFile rows)) /\
   dl_shuffle train_loader = true /\ dl_shuffle test_loader = false /\
   dl_pin_memory train_loader = false /\ dl_pin_memory test_loader = true /\
   dl_batch_size train_loader = BATCH_SIZE cfg /\ dl_batch_size test_loader = BATCH_SIZE cfg /\
   ds_train (dl_dataset train_loader) = true /\ ds_train (dl_dataset test_loader) = false /\
   ds_T (dl_dataset test_loader) = Compose [CenterCrop 256] /\
   exists t, utils !! "RandomRotate90" = Some (PyTransformClass t) /\
     ds_T (dl_dataset train_loader)
       = Compose [CenterCrop 256; RandomHorizontalFlip; RandomVerticalFlip; t]).
Proof.
  rewrite load_dataset_UTP_eval.
  split; [by intros ->|].
  split; [by intros t -> ->|].
  intros train_loader test_loader e'.
  destruct (utils !! "RandomRotate90") as [[n|n|t]|]; try done.
  destruct (fs e !! train_csv) as [[c|im|rows]|]; try done.
  destruct (fs e !! test_csv) as [[c|im|rows2]|]; try done.
  intros [= <- <- <-]. simpl.
  split; [done|]. split; [by exists rows|]. split; [by exists rows2|].
  repeat split; try done. by exists t.
Qed.

(** X16: the table [load_manifest] returns holds exactly the rows of the
    file whose grade is present and at least 0, each under the index it had
    in the file (the index is not reset), in file order and without
    repetition; filtering it again changes nothing. *)
Theorem load_manifest_keeps_labels name rows (e : env) :
  fs e !! TrainUtp.path_join TrainUtp.path name = Some (CsvFile rows) ->
  exists df,
    TrainUtp.load_manifest name e = Ok (df, e) /\
    (forall i r, In (i, r) df <->
       rows !! i = Some r /\ exists g, grade r = Some g /\ (0 <= g)%Z) /\
    NoDup (map fst df) /\
    sublist (map fst df) (seq 0 (length rows)) /\
    TrainUtp.copy (TrainUtp.getitem_mask df (TrainUtp.grade_ge df 0)) = df /\
    (length df <= length rows)%nat.
Proof.
  intros Hf. eexists. split; [by apply load_manifest_returns|].
  set (df0 := imap (fun i r => (i, r)) rows).
  assert (Hlabels : map fst df0 = seq 0 (length rows)).
  { unfold df0. change (map fst ?l) with (fst <$> l). rewrite fmap_imap.
    rewrite <- (list_fmap_id (seq 0 (length rows))).
    apply (imap_seq_0 rows (fun j => j)). }
  assert (Hsub : sublist (map fst (List.filter grade_nonneg df0)) (seq 0 (length rows))).
  { rewrite <- Hlabels. apply (fmap_sublist fst), filter_sublist. }
  split; [|split; [|split; [done|split]]].
  - intros i r. rewrite filter_In, <- list_elem_of_In. unfold df0.
    rewrite elem_of_lookup_imap. unfold grade_nonneg. simpl. split.
    + intros [(j & y & [= -> ->] & Hl) Hg]. split; [done|].
      destruct (grade y) as [g|]; [|done]. exists g. split; [done|]. lia.
    + intros [Hl (g & Hg & Hpos)]. split; [by exists i, r|].
      rewrite Hg. lia.
  - eapply sublist_NoDup; [apply NoDup_seq|exact Hsub].
  - rewrite kept_rows_filter. clear.
    induction df0 as [|ir df IH]; simpl; [done|].
    destruct (grade_nonneg ir) eqn:Hg; simpl; [|done]. by rewrite Hg, IH.
  - pose proof (sublist_length _ _ Hsub) as Hlen.
    by rewrite !length_map, length_seq in Hlen.
Qed.

End Loading.

(** ** [main] without [RandomRotate90] *)

Section MainStops.
Context `{Torch}.


End MainStops.

(** ** The further statements on the small back end *)

Lemma load_checkpoint_reads_only_and_repeats_witness :
  exists m2 o2 e2 e3,
    Utils.load_checkpoint (H:=toy) "gen.pth.tar" fresh_model fresh_optimizer 0.25%float
      saved_env = Ok ((m2, o2), e2) /\
    fs e2 = fs saved_env /\
    Utils.load_checkpoint "gen.pth.tar" m2 o2 0.25%float e2 = Ok ((m2, o2), e3).
Proof.
  destruct (Utils.load_checkpoint (H:=toy) "gen.pth.tar" fresh_model fresh_optimizer
              0.25%float saved_env) as [[[m2 o2] e2]|x] eqn:Hret.
  - destruct (load_checkpoint_reads_only_and_repeats (H:=toy) _ _ _ _ _ _ _ _ Hret)
      as (Hfs & _ & _ & _ & _ & _ & _ & e3 & Hagain).
    exists m2, o2, e2, e3. split; [reflexivity|]. split; [exact Hfs|exact Hagain].
  - vm_compute in Hret. discriminate Hret.
Defined.

Lemma save_some_examples_files_witness :
  exists gen' e',
    Utils.save_some_examples (H:=toy) toy_model toy_batches 3 "evaluation" toy_env
      = Ok (gen', e') /\
    fs e' !! "evaluation/label_3.png" = None.
Proof.
  destruct (save_some_examples_files (H:=toy) toy_model (scalar 4) (scalar 2)
              [(scalar 6, scalar 4); (scalar 8, scalar 6)] 3 "evaluation" toy_env)
    as (gen' & e' & Hrun & _ & _ & _ & Hlabel & _).
  exists gen', e'. split; [exact Hrun|]. apply Hlabel. discriminate.
Defined.

Lemma init_weights_keeps_shapes_witness :
  exact_conv Conv2d = true /\ (∅ : gmap string tensor) !! "weight" = None.
Proof.
  apply (proj1 (proj1 (init_weights_keeps_shapes (H:=toy) (Layer Conv2d ∅) toy_env))).
  reflexivity.
Defined.

Lemma apply_init_weights_touches_only_conv_weights_witness :
  exists model' e',
    TrainUtp.apply (H:=toy) Utils.init_weights toy_model toy_env = Ok (model', e') /\
    params_of (parameters model') "norm" = params_of (parameters toy_model) "norm" /\
    out e' = out toy_env.
Proof.
  destruct (TrainUtp.apply (H:=toy) Utils.init_weights toy_model toy_env)
    as [[model' e']|x] eqn:Hret.
  - destruct (apply_init_weights_touches_only_conv_weights (H:=toy) _ _ _ _ Hret)
      as (_ & _ & _ & Hother & _ & _ & Hout).
    exists model', e'. split; [reflexivity|]. split; [|exact Hout].
    apply Hother. intros c [Hin|[Hin|[]]]; inversion Hin. reflexivity.
  - vm_compute in Hret. discriminate Hret.
Defined.

Lemma wandb_log_generated_images_batches_witness :
  exists gen' e',
    TrainUtp.wandb_log_generated_images (H:=toy) toy_model toy_batches 0 toy_env
      = Ok (gen', e') /\
    batches_logged (length toy_batches) 0 = length toy_batches.
Proof.
  destruct (wandb_log_generated_images_batches (H:=toy) toy_model toy_batches 0 toy_env)
    as (gen' & e' & Hrun & _ & _ & Hall & _).
  exists gen', e'. split; [exact Hrun|]. apply Hall. lia.
Defined.

Lemma final_save_without_checkpointing_witness :
  exists t' e' evs,
    TrainUtp.main_training (H:=toy) toy_config_no_save toy_loader toy_loader (scalar 2)
      toy_trainer toy_env = Ok (t', e') /\
    out e' = out toy_env ++ evs /\
    omap saves_view evs
      = [EpochBegin 0; EpochBegin 1; EpochBegin 2; LoopEnd;
         TorchSave "gen.pth.tar"; TorchSave "disc.pth.tar"].
Proof.
  exact (final_save_without_checkpointing (H:=toy) toy_config_no_save toy_loader toy_loader
           (scalar 2) toy_trainer toy_env eq_refl).
Defined.

Lemma discriminator_never_in_eval_mode_witness :
  exists t' e',
    TrainUtp.main_training (H:=toy) toy_config toy_loader toy_loader (scalar 2)
      toy_trainer toy_env = Ok (t', e') /\
    training (t_gen t') = true /\ training (t_disc t') = true.
Proof.
  destruct (discriminator_never_in_eval_mode (H:=toy) toy_config toy_loader toy_loader
              (scalar 2) toy_trainer toy_env) as (t' & e' & _ & Hrun & _ & _ & Hmodes & _).
  exists t', e'. split; [exact Hrun|]. apply Hmodes. simpl. lia.
Defined.

Lemma final_checkpoints_on_disk_witness :
  exists (t1 t' : @trainer toy) (e' : @env toy),
    TrainUtp.main_training (H:=toy) toy_config toy_loader toy_loader (scalar 2)
      toy_trainer toy_env = Ok (t', e') /\
    fs e' !! "gen.pth.tar" = Some (checkpoint_of (t_gen t1) (t_opt_gen t1)) /\
    fs e' !! "disc.pth.tar" = Some (checkpoint_of (t_disc t1) (t_opt_disc t1)).
Proof.
  destruct (final_checkpoints_on_disk (H:=toy) toy_config toy_loader toy_loader
              (scalar 2) toy_trainer toy_env)
    as (t1 & e1 & t' & e' & _ & Hrun & Hdisc & Hgen & _).
  exists t1, t', e'. split; [exact Hrun|]. split; [|exact Hdisc].
  apply Hgen. discriminate.
Defined.

Lemma load_dataset_UTP_loaders_witness :
  TrainUtp.load_dataset_UTP (H:=toy) Utils.attributes toy_config sample_env
  = Raise (AttributeError "utils" "RandomRotate90").
Proof.
  apply (proj1 (load_dataset_UTP_loaders (H:=toy) Utils.attributes toy_config sample_env)).
  vm_compute. reflexivity.
Defined.

Lemma load_manifest_keeps_labels_witness :
  exists df,
    TrainUtp.load_manifest (H:=toy) "train.csv" sample_env = Ok (df, sample_env) /\
    NoDup (map fst df) /\ (length df <= length sample_rows)%nat.
Proof.
  destruct (load_manifest_keeps_labels (H:=toy) "train.csv" sample_rows sample_env eq_refl)
    as (df & Hrun & _ & Hnodup & _ & _ & Hlen).
  exists df. split; [exact Hrun|]. split; [exact Hnodup|exact Hlen].
Defined.


(** The sample manifest keeps its rows 1, 2 and 4 under these indices. *)
Example sample_manifest_labels :
  match TrainUtp.load_manifest (H:=toy) "train.csv" sample_env with
  | Ok (df, _) => map fst df = [1%nat; 2%nat; 4%nat]
  | Raise _ => False
  end.
Proof. vm_compute. reflexivity. Qed.

(** Twenty-five batches: 25 generator forwards, 75 discriminator forwards,
    two progress reports. *)
Example twenty_five_batches :
  let loader := repeat (scalar 4, scalar 2) 25 in
  match TrainUtp.train_fn (H:=toy) toy_config toy_trainer loader
          (@l1_criterion toy) (@bce_with_logits toy) toy_env with
  | Ok (_, e') =>
      (count_calls (Forward Gen true) (out e'),
       count_calls (Forward Disc true) (out e'),
       count_calls (SetPostfix 0 0) (out e')) = (25%nat, 75%nat, 2%nat)
  | Raise _ => False
  end.
Proof. vm_compute. reflexivity. Qed.
